(** * DesignCodeUtility: the metadata cache and the remote matchers

    A shallow embedding of [src/DesignCodeUtility/src/metadata.js]: the
    session cache of remote entities, its loaders, the on-disk tracking
    metadata and the functions that match a local asset with its remote
    counterpart.

    The program is JavaScript, so the data are JavaScript values and the
    operations follow the language: reading a property of [null] or
    [undefined] throws a [TypeError], [===] compares primitives by value,
    a condition tests truthiness, a template literal converts its holes
    to strings. *)

From Stdlib Require Import Strings.String Strings.Ascii.
From stdpp Require Import base option list strings gmap fin_maps pretty countable.

Set Warnings "-register-all".
Open Scope string_scope.
Open Scope Z_scope.

(** ** JavaScript values *)

Module Js.

(** Primitive values. JSON numbers are modelled by the integers. *)
Inductive prim :=
  | PUndefined
  | PNull
  | PBool (b : bool)
  | PNum (n : Z)
  | PStr (s : string).

(** A value is a primitive, an array or an object; an object lists its own
    properties in insertion order, every key once. *)
Inductive value :=
  | VPrim (p : prim)
  | VArr (items : list value)
  | VObj (props : list (string * value)).

Abbreviation VUndefined := (VPrim PUndefined).
Abbreviation VNull := (VPrim PNull).
Abbreviation VBool b := (VPrim (PBool b)).
Abbreviation VNum n := (VPrim (PNum n)).
Abbreviation VStr s := (VPrim (PStr s)).

#[global] Instance prim_eq_dec : EqDecision prim.
Proof. solve_decision. Defined.

Definition prim_encode (p : prim) : unit + (unit + (bool + (Z + string))) :=
  match p with
  | PUndefined => inl tt
  | PNull => inr (inl tt)
  | PBool b => inr (inr (inl b))
  | PNum n => inr (inr (inr (inl n)))
  | PStr s => inr (inr (inr (inr s)))
  end.

Definition prim_decode (x : unit + (unit + (bool + (Z + string)))) : prim :=
  match x with
  | inl _ => PUndefined
  | inr (inl _) => PNull
  | inr (inr (inl b)) => PBool b
  | inr (inr (inr (inl n))) => PNum n
  | inr (inr (inr (inr s))) => PStr s
  end.

#[global] Instance prim_countable : Countable prim.
Proof.
  refine (inj_countable' prim_encode prim_decode _).
  intros []; reflexivity.
Defined.

(** What a failing operation throws. [Rejection] is the reason a transport
    promise was rejected with; [OutOfModel] marks an operation whose
    JavaScript result is not a value of this model (a named property
    stored on an array). *)
Inductive error :=
  | TypeError
  | SyntaxError
  | Rejection (reason : value)
  | OutOfModel.

Inductive result (A : Type) :=
  | Ok (a : A)
  | Throw (e : error).
Arguments Ok {A} a.
Arguments Throw {A} e.

#[global] Instance result_ret : MRet result := @Ok.
#[global] Instance result_bind : MBind result := fun A B f r =>
  match r with
  | Ok a => f a
  | Throw e => Throw e
  end.

Definition is_ok {A} (r : result A) : bool :=
  match r with Ok _ => true | Throw _ => false end.

(** [ToBoolean]. *)
Definition truthy (v : value) : bool :=
  match v with
  | VUndefined | VNull => false
  | VBool b => b
  | VNum n => negb (n =? 0)
  | VStr s => negb (String.eqb s "")
  | VArr _ | VObj _ => true
  end.

(** [a === b] for two values that come from different JSON documents (a
    server response and a tracking file): primitives are compared by type
    and value; two objects or arrays are different allocations, hence
    never equal. *)
Definition strict_eq (a b : value) : bool :=
  match a, b with
  | VPrim p, VPrim q => bool_decide (p = q)
  | _, _ => false
  end.

(** [ToString], as a template literal applies it. *)
Fixpoint to_string (v : value) : string :=
  match v with
  | VUndefined => "undefined"
  | VNull => "null"
  | VBool true => "true"
  | VBool false => "false"
  | VNum n => pretty n
  | VStr s => s
  | VObj _ => "[object Object]"
  | VArr items =>
      (fix join (l : list value) : string :=
         match l with
         | [] => ""
         | x :: rest =>
             let sx := match x with
                       | VUndefined | VNull => ""
                       | _ => to_string x
                       end in
             match rest with
             | [] => sx
             | _ => sx +:+ "," +:+ join rest
             end
         end) items
  end.

Fixpoint assoc (k : string) (props : list (string * value)) : option value :=
  match props with
  | [] => None
  | (k', v) :: rest => if String.eqb k k' then Some v else assoc k rest
  end.

(** The index an array-index property name denotes, below [len]. *)
Definition index_of_name (k : string) (len : nat) : option nat :=
  List.find (fun i => String.eqb (pretty (Z.of_nat i)) k) (seq 0 len).

Definition chars (s : string) : list value :=
  (fun a => VStr (String a EmptyString)) <$> String.list_ascii_of_string s.

(** [v.k] and [v[k]]: a property read. *)
Definition get (v : value) (k : string) : result value :=
  match v with
  | VUndefined | VNull => Throw TypeError
  | VBool _ | VNum _ => Ok VUndefined
  | VStr s =>
      if String.eqb k "length" then Ok (VNum (Z.of_nat (String.length s)))
      else Ok (default VUndefined
                 (i ← index_of_name k (String.length s); chars s !! i))
  | VArr items =>
      if String.eqb k "length" then Ok (VNum (Z.of_nat (length items)))
      else Ok (default VUndefined
                 (i ← index_of_name k (length items); items !! i))
  | VObj props => Ok (default VUndefined (assoc k props))
  end.

Fixpoint assoc_set (k : string) (v : value) (props : list (string * value))
  : list (string * value) :=
  match props with
  | [] => [(k, v)]
  | (k', v') :: rest =>
      if String.eqb k k' then (k, v) :: rest else (k', v') :: assoc_set k v rest
  end.

(** [o[k] = v] in strict mode: an existing property keeps its place, a new
    one goes last; assigning to a property of a primitive throws. *)
Definition set_prop (o : value) (k : string) (v : value) : result value :=
  match o with
  | VObj props => Ok (VObj (assoc_set k v props))
  | VArr _ => Throw OutOfModel
  | VPrim _ => Throw TypeError
  end.

Definition assoc_delete (k : string) (props : list (string * value))
  : list (string * value) :=
  List.filter (fun kv => negb (String.eqb k kv.1)) props.

(** [delete o.k]. *)
Definition delete_prop (o : value) (k : string) : result value :=
  match o with
  | VUndefined | VNull => Throw TypeError
  | VObj props => Ok (VObj (assoc_delete k props))
  | _ => Ok o
  end.

(** [Object.keys(o)]. *)
Definition object_keys (o : value) : result (list string) :=
  match o with
  | VUndefined | VNull => Throw TypeError
  | VBool _ | VNum _ => Ok []
  | VStr s => Ok ((fun i => pretty (Z.of_nat i)) <$> seq 0 (String.length s))
  | VArr items => Ok ((fun i => pretty (Z.of_nat i)) <$> seq 0 (length items))
  | VObj props => Ok (props.*1)
  end.

(** [JSON.parse(JSON.stringify(v))] on a value that came out of a JSON
    document: a structurally equal copy. [JSON.stringify(undefined)] is
    [undefined], which [JSON.parse] rejects. *)
Definition json_clone (v : value) : result value :=
  match v with
  | VUndefined => Throw SyntaxError
  | _ => Ok v
  end.

(** The receiver of an array method ([forEach], [find], [reduce]): anything
    but an array has no such method, or no properties at all. *)
Definition as_array (v : value) : result (list value) :=
  match v with
  | VArr items => Ok items
  | _ => Throw TypeError
  end.

(** [Array.prototype.find] with a callback that may throw. *)
Fixpoint find (pred : value -> result bool) (items : list value) : result value :=
  match items with
  | [] => Ok VUndefined
  | x :: rest =>
      match pred x with
      | Throw e => Throw e
      | Ok true => Ok x
      | Ok false => find pred rest
      end
  end.

(** [acc.concat(v)]: an array argument is spread, anything else becomes
    one more element. *)
Definition array_concat (acc : list value) (v : value) : list value :=
  match v with
  | VArr items => acc ++ items
  | _ => acc ++ [v]
  end.

(** ** [Map]

    A [Map] is read here only through [get], and every key that is set is
    a property of a freshly parsed document: an object or array key can
    never be looked up again, so only primitive keys are kept. Keys are
    compared as [SameValueZero] does, which on these primitives is
    equality. *)
Abbreviation jsmap := (gmap prim value).

Definition map_set (k v : value) (m : jsmap) : jsmap :=
  match k with
  | VPrim p => <[p := v]> m
  | _ => m
  end.

Definition map_get (k : value) (m : jsmap) : value :=
  match k with
  | VPrim p => default VUndefined (m !! p)
  | _ => VUndefined
  end.

End Js.
Export Js.

(** ** The session: cache, tracking files, log *)

(** The names [constants.js] gives to the tracking directory and to the
    metadata files, one per kind of metadata. *)
Record Constants := {
  trackingDir : string;
  configMetadataJson : string;
  elementMetadataJson : string;
  themeMetadataJson : string;
  stackMetadataJson : string;
  stackInstanceMetadataJson : string;
  widgetMetadataJson : string;
  widgetInstanceMetadataJson : string
}.

(** The kinds of file the classifier tells apart. *)
Inductive PuttingFileType :=
  | APPLICATION_LEVEL_JAVASCRIPT
  | APPLICATION_LEVEL_JAVASCRIPT_DIRECTORY
  | WIDGET_INSTANCE_TEMPLATE
  | WIDGET_INSTANCE_LESS
  | WIDGET_INSTANCE_SNIPPETS
  | WIDGET_JAVASCRIPT
  | WIDGET_MODULE_JAVASCRIPT
  | WIDGET_BASE_TEMPLATE
  | WIDGET_BASE_LESS
  | WIDGET_BASE_SNIPPETS
  | WIDGET_CONFIG_SNIPPETS
  | WIDGET_CONFIG_JSON
  | WIDGET_INSTANCE
  | WIDGET
  | WIDGET_METADATA_JSON
  | WIDGET_INSTANCE_METADATA_JSON
  | WIDGETS_DIRECTORY
  | WEB_CONTENT_TEMPLATE
  | STACK_INSTANCE_TEMPLATE
  | STACK_INSTANCE_LESS
  | STACK_INSTANCE_VARIABLES_LESS
  | STACK_BASE_TEMPLATE
  | STACK_BASE_LESS
  | STACK_BASE_SNIPPETS
  | STACK_INSTANCE
  | STACK
  | STACK_METADATA_JSON
  | STACK_INSTANCE_METADATA_JSON
  | STACKS_DIRECTORY
  | GLOBAL_ELEMENT_TEMPLATE
  | GLOBAL_ELEMENT_JAVASCRIPT
  | GLOBAL_ELEMENT_METADATA
  | GLOBAL_ELEMENT
  | GLOBAL_ELEMENTS_DIRECTORY
  | ELEMENT_TEMPLATE
  | ELEMENT_JAVASCRIPT
  | ELEMENT_METADATA
  | ELEMENT_INSTANCE_METADATA
  | WIDGET_ELEMENT
  | THEME_STYLES
  | THEME_ADDITIONAL_STYLES
  | THEME_VARIABLES
  | THEME
  | THEMES_DIRECTORY
  | GLOBAL_SNIPPETS
  | GLOBAL_SNIPPETS_DIRECTORY
  | GLOBAL_SNIPPETS_LOCALE_DIRECTORY.

#[global] Instance PuttingFileType_eq_dec : EqDecision PuttingFileType.
Proof. solve_decision. Defined.

(** [const cache = {}]: a field is [undefined] until its loader has run.
    The four maps are [Map]s; the two descriptor fields hold whatever
    [results.data.items] was. *)
Record Cache := {
  themes : option jsmap;
  widgetInstances : option jsmap;
  widgetDescriptors : value;
  stackDescriptors : value;
  globalElements : option jsmap;
  widgetElements : option jsmap;
  stackInstances : option jsmap
}.

Definition empty_cache : Cache :=
  {| themes := None; widgetInstances := None;
     widgetDescriptors := VUndefined; stackDescriptors := VUndefined;
     globalElements := None; widgetElements := None; stackInstances := None |}.

(** The two fields [cacheElements] is called with. *)
Inductive element_field := GlobalElementsField | WidgetElementsField.

(** A line of the log: [info(key, args)] or [warn(key, args)]. *)
Inductive log_entry :=
  | Info (key : string) (args : value)
  | Warn (key : string) (args : value).

(** The calls the loaders make on [endPointTransceiver]. *)
Inductive endpoint :=
  | GetThemes
  | GetAllWidgetInstances
  | GetAllWidgetDescriptors
  | GetAllStackDescriptors
  | GetElements
  | GetAllStackInstances.

#[global] Instance endpoint_eq_dec : EqDecision endpoint.
Proof. solve_decision. Defined.

(** A request: the end point and the query string it is called with (empty
    when it is called with none). *)
Definition request : Type := endpoint * string.

(** The state a session works on: the module's [cache], the files below
    the tracking directory with their text, what was logged, the requests
    sent so far, and the transfer-mode flag of [state.js]. *)
Record world := {
  cache : Cache;
  files : gmap string string;
  log : list log_entry;
  requests : list request;
  transferMode : bool
}.

Definition with_cache (f : Cache -> Cache) (w : world) : world :=
  {| cache := f (cache w); files := files w; log := log w;
     requests := requests w; transferMode := transferMode w |}.

Definition with_files (f : gmap string string -> gmap string string) (w : world)
  : world :=
  {| cache := cache w; files := f (files w); log := log w;
     requests := requests w; transferMode := transferMode w |}.

Definition with_log (e : log_entry) (w : world) : world :=
  {| cache := cache w; files := files w; log := log w ++ [e];
     requests := requests w; transferMode := transferMode w |}.

Definition with_request (r : request) (w : world) : world :=
  {| cache := cache w; files := files w; log := log w;
     requests := requests w ++ [r]; transferMode := transferMode w |}.

Definition set_themes (m : option jsmap) (c : Cache) : Cache :=
  {| themes := m; widgetInstances := widgetInstances c;
     widgetDescriptors := widgetDescriptors c;
     stackDescriptors := stackDescriptors c;
     globalElements := globalElements c; widgetElements := widgetElements c;
     stackInstances := stackInstances c |}.

Definition set_widgetInstances (m : option jsmap) (c : Cache) : Cache :=
  {| themes := themes c; widgetInstances := m;
     widgetDescriptors := widgetDescriptors c;
     stackDescriptors := stackDescriptors c;
     globalElements := globalElements c; widgetElements := widgetElements c;
     stackInstances := stackInstances c |}.

Definition set_widgetDescriptors (v : value) (c : Cache) : Cache :=
  {| themes := themes c; widgetInstances := widgetInstances c;
     widgetDescriptors := v;
     stackDescriptors := stackDescriptors c;
     globalElements := globalElements c; widgetElements := widgetElements c;
     stackInstances := stackInstances c |}.

Definition set_stackDescriptors (v : value) (c : Cache) : Cache :=
  {| themes := themes c; widgetInstances := widgetInstances c;
     widgetDescriptors := widgetDescriptors c;
     stackDescriptors := v;
     globalElements := globalElements c; widgetElements := widgetElements c;
     stackInstances := stackInstances c |}.

Definition set_globalElements (m : option jsmap) (c : Cache) : Cache :=
  {| themes := themes c; widgetInstances := widgetInstances c;
     widgetDescriptors := widgetDescriptors c;
     stackDescriptors := stackDescriptors c;
     globalElements := m; widgetElements := widgetElements c;
     stackInstances := stackInstances c |}.

Definition set_widgetElements (m : option jsmap) (c : Cache) : Cache :=
  {| themes := themes c; widgetInstances := widgetInstances c;
     widgetDescriptors := widgetDescriptors c;
     stackDescriptors := stackDescriptors c;
     globalElements := globalElements c; widgetElements := m;
     stackInstances := stackInstances c |}.

Definition set_stackInstances (m : option jsmap) (c : Cache) : Cache :=
  {| themes := themes c; widgetInstances := widgetInstances c;
     widgetDescriptors := widgetDescriptors c;
     stackDescriptors := stackDescriptors c;
     globalElements := globalElements c; widgetElements := widgetElements c;
     stackInstances := m |}.

Definition element_map (field : element_field) (c : Cache) : option jsmap :=
  match field with
  | GlobalElementsField => globalElements c
  | WidgetElementsField => widgetElements c
  end.

Definition set_element_map (field : element_field) (m : option jsmap) (c : Cache)
  : Cache :=
  match field with
  | GlobalElementsField => set_globalElements m c
  | WidgetElementsField => set_widgetElements m c
  end.

(** ** Computations: state and exceptions

    A JavaScript function reads and writes the session and returns or
    throws; what it did before it threw stays done. *)
Definition M (A : Type) : Type := world -> result A * world.

#[global] Instance M_ret : MRet M := fun A a w => (Ok a, w).
#[global] Instance M_bind : MBind M := fun A B f m w =>
  match m w with
  | (Ok a, w') => f a w'
  | (Throw e, w') => (Throw e, w')
  end.

Definition lift {A} (r : result A) : M A := fun w => (r, w).
Definition throw {A} (e : error) : M A := fun w => (Throw e, w).
Definition gets {A} (f : world -> A) : M A := fun w => (Ok (f w), w).
Definition modify (f : world -> world) : M unit := fun w => (Ok tt, f w).

(** A method call on a cache field that should hold a [Map]. *)
Definition the_map (m : option jsmap) : M jsmap :=
  match m with
  | Some m => mret m
  | None => throw TypeError
  end.

Definition info (key : string) (args : value) : M unit :=
  modify (with_log (Info key args)).
Definition warn (key : string) (args : value) : M unit :=
  modify (with_log (Warn key args)).

(** [items.forEach(body)]. *)
Fixpoint for_each {A} (body : A -> M unit) (items : list A) : M unit :=
  match items with
  | [] => mret tt
  | x :: rest => body x;; for_each body rest
  end.

(** [array.find(pred)] where the callback reads the session. *)
Definition find_in (pred : value -> result bool) (v : value) : M value :=
  items ← lift (as_array v); lift (find pred items).

(** ** Paths *)

(** [s.split(sep)] for a one-character separator. *)
Fixpoint split_on (sep : ascii) (s : string) : list string :=
  match s with
  | EmptyString => [""]
  | String c rest =>
      if Ascii.eqb c sep then "" :: split_on sep rest
      else match split_on sep rest with
           | [] => [String c ""]
           | t :: ts => String c t :: ts
           end
  end.

(** [tokens.join(sep)]. *)
Fixpoint join (sep : string) (tokens : list string) : string :=
  match tokens with
  | [] => ""
  | [t] => t
  | t :: rest => t +:+ sep +:+ join sep rest
  end.

(** [tokens.indexOf(x)]: the first position of [x], or -1. *)
Fixpoint indexOf (x : string) (tokens : list string) : Z :=
  match tokens with
  | [] => -1
  | t :: rest =>
      if String.eqb t x then 0
      else let i := indexOf x rest in if i =? -1 then -1 else i + 1
  end.

(** [tokens.slice(0, n)] for [n >= 0]. *)
Definition slice_to (n : Z) (tokens : list string) : list string :=
  take (Z.to_nat n) tokens.

(** [makeWidgetInstanceKey]: the key of both instance caches. *)
Definition makeWidgetInstanceKey (displayName version : value) : string :=
  "Display Name: " +:+ to_string displayName +:+ " Version: " +:+ to_string version.

(** ** The metadata store and the matchers *)

(** What this module takes from the rest of the tool. *)
Record Env := {
  (** [constants.js] *)
  constants : Constants;
  (** [utils.splitFromBaseDir]: the base directory and the path below it *)
  splitFromBaseDir : string -> value * string;
  (** [classifier.classify]: the kind of a path, if it has one *)
  classify : string -> option PuttingFileType;
  (** [etags.eTagFor] *)
  eTagFor : string -> value;
  (** [JSON.parse] of a file's text, as [utils.readJsonFile] applies it *)
  JSON_parse : string -> result value;
  (** [JSON.stringify(v, null, 2)] *)
  JSON_stringify : value -> string
}.

Section Metadata.

Context (env : Env).

(** [getMetadataPath]: where the metadata of an asset is kept; a [type]
    that is none of the seven gives [undefined]. *)
Definition getMetadataPath (path type : string) : option string :=
  let '(baseDir, subDir) := splitFromBaseDir env path in
  let tokens := split_on "/" subDir in
  let tracked (dir : string) : string :=
    to_string baseDir +:+ "/" +:+ trackingDir (constants env) +:+ "/" +:+ dir
      +:+ "/" +:+ type in
  let anchored (token : string) : string :=
    tracked (join "/" (slice_to (indexOf token tokens + 2) tokens)) in
  if String.eqb type (configMetadataJson (constants env)) then
    Some (to_string baseDir +:+ "/" +:+ trackingDir (constants env) +:+ "/" +:+ type)
  else if String.eqb type (elementMetadataJson (constants env))
          || String.eqb type (themeMetadataJson (constants env)) then
    Some (tracked subDir)
  else if String.eqb type (stackMetadataJson (constants env)) then
    Some (anchored "stack")
  else if String.eqb type (stackInstanceMetadataJson (constants env)) then
    Some (anchored "instances")
  else if String.eqb type (widgetMetadataJson (constants env)) then
    Some (anchored "widget")
  else if String.eqb type (widgetInstanceMetadataJson (constants env)) then
    Some (anchored "instances")
  else None.

(** [exists(metadataPath)] followed by [readJsonFile(metadataPath)]: the
    text of the file, when there is one. *)
Definition file_text (metadataPath : option string) (w : world) : option string :=
  p ← metadataPath; files w !! p.

(** [readMetadataFromDisk]: the record, with the etag put in unless the
    caller excludes it, or [null] when there is no file. *)
Definition readMetadataFromDisk (path type : string) (excludeEtag : bool)
  : M value :=
  let metadataPath := getMetadataPath path type in
  text ← gets (file_text metadataPath);
  match text with
  | Some text =>
      json ← lift (JSON_parse env text);
      if negb excludeEtag then lift (set_prop json "etag" (eTagFor env path))
      else mret json
  | None => mret VNull
  end.

(** [utils.writeFile]: the file holds the text afterwards. Without a
    path there is nothing to write to. *)
Definition writeFile (path : option string) (text : string) : M unit :=
  match path with
  | Some p => modify (with_files (<[p := text]>))
  | None => throw TypeError
  end.

(** [writeMetadata]. *)
Definition writeMetadata (path : string) (content : value) : M unit :=
  writeFile (Some (trackingDir (constants env) +:+ "/" +:+ path))
            (JSON_stringify env content +:+ String "010" "").

(** [updateMetadata]: the supplied keys are stored one by one on the
    record read from disk, which is then written back. *)
Definition updateMetadata (path type : string) (additionalMetadata : value)
  : M unit :=
  existingMetadata ← readMetadataFromDisk path type true;
  keys ← lift (object_keys additionalMetadata);
  merged ← lift (foldl (fun acc key =>
                          record ← acc;
                          v ← get additionalMetadata key;
                          set_prop record key v)
                       (Ok existingMetadata) keys);
  writeFile (getMetadataPath path type) (JSON_stringify env merged).

(** [a.ka === b.kb]. *)
Definition eq_prop (a : value) (ka : string) (b : value) (kb : string)
  : result bool :=
  x ← get a ka; y ← get b kb; Ok (strict_eq x y).

(** [l && r] on booleans: [r] is evaluated only when [l] is true. *)
Definition and_then (l r : result bool) : result bool :=
  b ← l; if b : bool then r else Ok false.

(** The callback of the descriptor scans:
    [d.version === m.version && d.displayName === m.displayName]. *)
Definition same_version_and_name (m d : value) : result bool :=
  and_then (eq_prop d "version" m "version")
           (eq_prop d "displayName" m "displayName").

Definition path_args (path : string) : value := VObj [("path", VStr path)].

(** [getCachedWidgetInstanceFromMetadata]. *)
Definition getCachedWidgetInstanceFromMetadata (metadata : value) : M value :=
  if negb (truthy metadata) then mret VNull
  else
    m ← gets (widgetInstances ∘ cache) ≫= the_map;
    displayName ← lift (get metadata "displayName");
    version ← lift (get metadata "version");
    mret (map_get (VStr (makeWidgetInstanceKey displayName version)) m).

(** [getMatchingWidgetInstance]. *)
Definition getMatchingWidgetInstance (path : string) : M value :=
  widgetInstanceMetadata ←
    readMetadataFromDisk path (widgetInstanceMetadataJson (constants env)) false;
  matchingWidgetInstance ←
    getCachedWidgetInstanceFromMetadata widgetInstanceMetadata;
  if truthy matchingWidgetInstance then
    info "matchingWidgetInstanceFound" (path_args path);;
    repositoryId ← lift (get matchingWidgetInstance "repositoryId");
    descriptor ← lift (get matchingWidgetInstance "descriptor");
    descriptorRepositoryId ← lift (get descriptor "repositoryId");
    version ← lift (get matchingWidgetInstance "version");
    displayName ← lift (get matchingWidgetInstance "displayName");
    let widgetInstanceMetadata :=
      VObj [("repositoryId", repositoryId);
            ("descriptorRepositoryId", descriptorRepositoryId);
            ("version", version);
            ("displayName", displayName)] in
    currentLayout ← lift (get matchingWidgetInstance "currentLayout");
    if truthy currentLayout then
      layoutInstanceId ← lift (get currentLayout "repositoryId");
      withInstance ←
        lift (set_prop widgetInstanceMetadata "layoutInstanceId" layoutInstanceId);
      layoutDescriptor ← lift (get currentLayout "widgetLayoutDescriptor");
      layoutDescriptorId ← lift (get layoutDescriptor "repositoryId");
      lift (set_prop withInstance "layoutDescriptorId" layoutDescriptorId)
    else
      widgetMetadata ←
        readMetadataFromDisk path (widgetMetadataJson (constants env)) false;
      elementized ← lift (get widgetMetadata "elementized");
      if truthy elementized then
        descriptors ← gets (widgetDescriptors ∘ cache);
        matchingWidget ←
          find_in (same_version_and_name widgetMetadata) descriptors;
        layouts ← lift (get matchingWidget "layouts");
        firstLayout ← lift (get layouts "0");
        layoutDescriptorId ← lift (get firstLayout "repositoryId");
        lift (set_prop widgetInstanceMetadata "layoutDescriptorId"
                       layoutDescriptorId)
      else mret widgetInstanceMetadata
  else
    warn "noMatchingWidgetInstanceFound" (path_args path);;
    mret VNull.

(** [getMatchingWidget]. *)
Definition getMatchingWidget (path : string) : M value :=
  metadata ← readMetadataFromDisk path (widgetMetadataJson (constants env)) false;
  descriptors ← gets (widgetDescriptors ∘ cache);
  matchingWidget ← find_in (same_version_and_name metadata) descriptors;
  if truthy matchingWidget then
    info "matchingWidgetFound" (path_args path);;
    repositoryId ← lift (get matchingWidget "repositoryId");
    widgetType ← lift (get matchingWidget "widgetType");
    layouts ← lift (get matchingWidget "layouts");
    len ← lift (get layouts "length");
    mret (VObj [("repositoryId", repositoryId);
                ("widgetType", widgetType);
                ("elementized", VBool (truthy len))])
  else
    warn "noMatchingWidgetFound" (path_args path);;
    mret VNull.

(** [getCachedStackInstanceFromMetadata]. *)
Definition getCachedStackInstanceFromMetadata (metadata : value) : M value :=
  m ← gets (stackInstances ∘ cache) ≫= the_map;
  name ← lift (get metadata "name");
  version ← lift (get metadata "version");
  mret (map_get (VStr (makeWidgetInstanceKey name version)) m).

(** [getMatchingStack]. *)
Definition getMatchingStack (path : string) : M value :=
  metadata ← readMetadataFromDisk path (stackMetadataJson (constants env)) false;
  descriptors ← gets (stackDescriptors ∘ cache);
  matchingStack ← find_in (same_version_and_name metadata) descriptors;
  if truthy matchingStack then
    info "matchingStackFound" (path_args path);;
    repositoryId ← lift (get matchingStack "repositoryId");
    stackType ← lift (get matchingStack "stackType");
    mret (VObj [("repositoryId", repositoryId); ("stackType", stackType)])
  else
    warn "noMatchingStackFound" (path_args path);;
    mret VNull.

(** [getMatchingStackInstance]. *)
Definition getMatchingStackInstance (path : string) : M value :=
  metadata ←
    readMetadataFromDisk path (stackInstanceMetadataJson (constants env)) false;
  matchingStackInstance ← getCachedStackInstanceFromMetadata metadata;
  if truthy matchingStackInstance then
    info "matchingStackInstanceFound" (path_args path);;
    repositoryId ← lift (get matchingStackInstance "repositoryId");
    version ← lift (get metadata "version");
    displayName ← lift (get matchingStackInstance "displayName");
    mret (VObj [("repositoryId", repositoryId);
                ("version", version);
                ("displayName", displayName)])
  else
    warn "noMatchingStackInstanceFound" (path_args path);;
    mret VNull.

(** The three kinds [getMatchingElement] takes for a global element. *)
Definition is_global_element_file (fileType : option PuttingFileType) : bool :=
  bool_decide (fileType = Some GLOBAL_ELEMENT_TEMPLATE)
  || bool_decide (fileType = Some GLOBAL_ELEMENT_JAVASCRIPT)
  || bool_decide (fileType = Some GLOBAL_ELEMENT_METADATA).

(** [inTransferMode() && info(key, args)]. *)
Definition info_in_transfer_mode (key : string) (args : value) : M unit :=
  transfer ← gets transferMode;
  if transfer : bool then info key args else mret tt.

(** [getMatchingElement]. *)
Definition getMatchingElement (path : string) : M value :=
  elementMetadata ←
    readMetadataFromDisk path (elementMetadataJson (constants env)) false;
  let fileType := classify env path in
  if is_global_element_file fileType then
    m ← gets (globalElements ∘ cache) ≫= the_map;
    tag ← lift (get elementMetadata "tag");
    let matchingElement := map_get tag m in
    if truthy matchingElement then
      info_in_transfer_mode "matchingElementFound" (path_args path);;
      mret elementMetadata
    else
      warn "noMatchingElementFound" (path_args path);;
      mret VNull
  else
    widgetMetadata ←
      readMetadataFromDisk path (widgetMetadataJson (constants env)) false;
    descriptors ← gets (widgetDescriptors ∘ cache);
    matchingWidget ←
      find_in (fun widget =>
                 and_then (eq_prop widget "version" elementMetadata "version")
                          (eq_prop widget "widgetType" widgetMetadata "widgetType"))
              descriptors;
    if truthy matchingWidget then
      info_in_transfer_mode "matchingElementFound" (path_args path);;
      tag ← lift (get elementMetadata "tag");
      widgetId ← lift (get matchingWidget "repositoryId");
      mret (VObj [("tag", tag); ("widgetId", widgetId)])
    else
      warn "noMatchingElementFound" (path_args path);;
      mret VNull.

(** [getMatchingTheme]. *)
Definition getMatchingTheme (path : string) : M value :=
  metadata ← readMetadataFromDisk path (themeMetadataJson (constants env)) false;
  m ← gets (themes ∘ cache) ≫= the_map;
  displayName ← lift (get metadata "displayName");
  let matchingTheme := map_get displayName m in
  if truthy matchingTheme then
    name ← lift (get metadata "displayName");
    info_in_transfer_mode "matchingThemeFound" (VObj [("name", name)]);;
    repositoryId ← lift (get matchingTheme "repositoryId");
    mret (VObj [("repositoryId", repositoryId)])
  else
    name ← lift (get metadata "displayName");
    warn "noMatchingThemeFound" (VObj [("name", name)]);;
    mret VNull.

(** [themeExistsOnTarget]. *)
Definition themeExistsOnTarget (path : string) : M value :=
  metadata ← readMetadataFromDisk path (themeMetadataJson (constants env)) false;
  m ← gets (themes ∘ cache) ≫= the_map;
  displayName ← lift (get metadata "displayName");
  mret (map_get displayName m).

(** [widgetExistsOnTarget]. *)
Definition widgetExistsOnTarget (path : string) : M value :=
  metadata ← readMetadataFromDisk path (widgetMetadataJson (constants env)) false;
  descriptors ← gets (widgetDescriptors ∘ cache);
  find_in (fun widget =>
             and_then (eq_prop widget "version" metadata "version")
                      (eq_prop widget "widgetType" metadata "widgetType"))
          descriptors.

(** [stackExistsOnTarget]. *)
Definition stackExistsOnTarget (path : string) : M value :=
  metadata ← readMetadataFromDisk path (stackMetadataJson (constants env)) false;
  descriptors ← gets (stackDescriptors ∘ cache);
  find_in (same_version_and_name metadata) descriptors.

(** [elementExistsOnTarget]. *)
Definition elementExistsOnTarget (path : string) : M value :=
  metadata ← readMetadataFromDisk path (elementMetadataJson (constants env)) false;
  m ← gets (globalElements ∘ cache) ≫= the_map;
  tag ← lift (get metadata "tag");
  mret (map_get tag m).

(** [widgetInstanceExistsOnTarget]. *)
Definition widgetInstanceExistsOnTarget (path : string) : M value :=
  metadata ←
    readMetadataFromDisk path (widgetInstanceMetadataJson (constants env)) false;
  getCachedWidgetInstanceFromMetadata metadata.

End Metadata.

(** ** Promises and the cache loaders *)

(** The target server as [endPointTransceiver] shows it: the capabilities
    it advertises and how the promise of each request settles, fulfilled
    with a results object or rejected. *)
Record Server := {
  serverSupports : string -> bool;
  respond : request -> result value
}.

(** A request in flight with its [then] callback. *)
Record pending := {
  awaited : request;
  on_fulfilled : value -> M unit
}.

(** A promise is known by the continuations it waits for: one for
    [request.then(callback)], those of all members for [Promise.all], none
    for a value that is not a promise. *)
Definition promise : Type := list pending.

Definition Promise_all (members : list promise) : promise := concat members.

(** The elements of an array literal of calls, evaluated left to right. *)
Fixpoint call_all (calls : list (M promise)) : M (list promise) :=
  match calls with
  | [] => mret []
  | c :: rest => p ← c; ps ← call_all rest; mret (p :: ps)
  end.

Inductive outcome :=
  | Fulfilled
  | Rejected (e : error)
  | Pending.

(** What has settled so far, in the order it settled. *)
Definition settled : Type := list (request * result unit).

Definition awaits (p : promise) (r : request) : bool :=
  bool_decide (r ∈ awaited <$> p).

Definition has_settled (done : settled) (r : request) : bool :=
  bool_decide (r ∈ done.*1).

(** A promise is rejected with the first rejection among what it waits
    for, fulfilled once all of that is fulfilled, and pending until then. *)
Definition outcome_of (p : promise) (done : settled) : outcome :=
  match List.find (fun s => awaits p s.1 && negb (is_ok s.2)) done with
  | Some (_, Throw e) => Rejected e
  | _ => if forallb (fun pd => has_settled done (awaited pd)) p
         then Fulfilled else Pending
  end.

(** The two requests for widget instances: those Oracle supplies and
    those users created. *)
Definition oracleWidgets : request := (GetAllWidgetInstances, "?source=100").
Definition userWidgets : request := (GetAllWidgetInstances, "?source=101").

Section Loaders.

Context (server : Server).

(** Calling an end point sends the request. *)
Definition call (r : request) (callback : value -> M unit) : M promise :=
  modify (with_request r);;
  mret [ {| awaited := r; on_fulfilled := callback |} ].

(** [results.data.items]. *)
Definition data_items (results : value) : M value :=
  data ← lift (get results "data");
  lift (get data "items").

(** The callback of [cacheThemes]: every theme goes into the map under
    its name. *)
Definition cache_themes_of (results : value) : M unit :=
  items ← data_items results ≫= lift ∘ as_array;
  for_each (fun theme =>
              m ← gets (themes ∘ cache) ≫= the_map;
              name ← lift (get theme "name");
              modify (with_cache (set_themes (Some (map_set name theme m)))))
           items.

(** [cacheThemes]. *)
Definition cacheThemes : M promise :=
  modify (with_cache (set_themes (Some ∅)));;
  call (GetThemes, "?type=custom") cache_themes_of.

(** The body run for every instance of a widget: the instance gets its
    descriptor and goes into the map under its name and version. *)
Definition cache_widget_instance (widgetDesc instance : value) : M unit :=
  instance ← lift (set_prop instance "descriptor" widgetDesc);
  m ← gets (widgetInstances ∘ cache) ≫= the_map;
  displayName ← lift (get instance "displayName");
  version ← lift (get instance "version");
  modify (with_cache (set_widgetInstances
    (Some (map_set (VStr (makeWidgetInstanceKey displayName version))
                   instance m)))).

(** The callback both widget instance requests continue with. *)
Definition cache_widget_instances_of (results : value) : M unit :=
  items ← data_items results;
  if truthy items then
    widgets ← lift (as_array items);
    for_each (fun widget =>
                copy ← lift (json_clone widget);
                widgetDesc ← lift (delete_prop copy "instances");
                instances ← lift (get widget "instances") ≫= lift ∘ as_array;
                for_each (cache_widget_instance widgetDesc) instances)
             widgets
  else mret tt.

(** [cacheWidgetInstances]: one request for the widgets Oracle supplies
    and one for those users created, each with its own callback. *)
Definition cacheWidgetInstances : M promise :=
  modify (with_cache (set_widgetInstances (Some ∅)));;
  oracle ← call (GetAllWidgetInstances, "?source=100") cache_widget_instances_of;
  user ← call (GetAllWidgetInstances, "?source=101") cache_widget_instances_of;
  mret (Promise_all [oracle; user]).

(** The callback of [cacheWidgetDescriptors]. *)
Definition cache_widget_descriptors_of (results : value) : M unit :=
  items ← data_items results;
  modify (with_cache (set_widgetDescriptors items)).

(** [cacheWidgetDescriptors]. *)
Definition cacheWidgetDescriptors : M promise :=
  call (GetAllWidgetDescriptors, "") cache_widget_descriptors_of.

(** The callback of [cacheStackDescriptors]. *)
Definition cache_stack_descriptors_of (results : value) : M unit :=
  items ← data_items results;
  modify (with_cache (set_stackDescriptors items)).

(** [cacheStackDescriptors]. *)
Definition cacheStackDescriptors : M promise :=
  call (GetAllStackDescriptors, "") cache_stack_descriptors_of.

(** The callback of [cacheElements]: every element goes into the map of
    the field under its tag. *)
Definition cache_elements_of (field : element_field) (results : value) : M unit :=
  items ← data_items results ≫= lift ∘ as_array;
  for_each (fun element =>
              m ← gets (element_map field ∘ cache) ≫= the_map;
              tag ← lift (get element "tag");
              modify (with_cache
                (set_element_map field (Some (map_set tag element m)))))
           items.

(** [cacheElements]: without the end point nothing is requested and the
    function returns [undefined]. *)
Definition cacheElements (field : element_field) (globals : bool) : M promise :=
  modify (with_cache (set_element_map field (Some ∅)));;
  if serverSupports server "getElements" then
    call (GetElements, "?globals=" +:+ to_string (VBool globals))
         (cache_elements_of field)
  else mret [].

(** [cacheGlobalElements]. *)
Definition cacheGlobalElements : M promise :=
  cacheElements GlobalElementsField true.

(** [cacheWidgetElements]. *)
Definition cacheWidgetElements : M promise :=
  cacheElements WidgetElementsField false.

(** [getElementByTag]. *)
Definition getElementByTag (tag : value) : M value :=
  globals ← gets (globalElements ∘ cache) ≫= the_map;
  let globalElement := map_get tag globals in
  if truthy globalElement then mret globalElement
  else
    widgets ← gets (widgetElements ∘ cache) ≫= the_map;
    mret (map_get tag widgets).

(** The callback of [cacheStackInstances]: the instances of all stacks
    are collected into one array and go into the map under their name and
    the version of their descriptor. *)
Definition cache_stack_instances_of (results : value) : M unit :=
  stacks ← data_items results ≫= lift ∘ as_array;
  all ← lift (foldl (fun acc stack =>
                       stackInstances ← acc;
                       instances ← get stack "instances";
                       Ok (array_concat stackInstances instances))
                    (Ok []) stacks);
  for_each (fun stackInstance =>
              m ← gets (stackInstances ∘ cache) ≫= the_map;
              name ← lift (get stackInstance "name");
              descriptor ← lift (get stackInstance "descriptor");
              version ← lift (get descriptor "version");
              modify (with_cache (set_stackInstances
                (Some (map_set (VStr (makeWidgetInstanceKey name version))
                               stackInstance m)))))
           all.

(** [cacheStackInstances]. *)
Definition cacheStackInstances : M promise :=
  modify (with_cache (set_stackInstances (Some ∅)));;
  call (GetAllStackInstances, "") cache_stack_instances_of.

(** The seven loaders, in the order [initializeMetadata] calls them. *)
Definition loaders : list (M promise) :=
  [ cacheWidgetInstances; cacheWidgetDescriptors; cacheWidgetElements;
    cacheGlobalElements; cacheStackInstances; cacheStackDescriptors;
    cacheThemes ].

(** [initializeMetadata]. *)
Definition initializeMetadata : M promise :=
  members ← call_all loaders;
  mret (Promise_all members).

(** The requests complete in the order [schedule] gives. When one does
    and a continuation waits for it, a rejection settles it as rejected;
    otherwise its callback runs on the results, to the end, and what it
    returns or throws settles it. *)
Fixpoint settle (schedule : list request) (p : promise) (done : settled)
                (w : world) : settled * world :=
  match schedule with
  | [] => (done, w)
  | r :: rest =>
      match List.find (fun pd => bool_decide (awaited pd = r)) p with
      | Some pd =>
          if has_settled done r then settle rest p done w
          else
            match respond server r with
            | Throw e => settle rest p (done ++ [(r, Throw e)])%list w
            | Ok results =>
                let '(res, w') := on_fulfilled pd results w in
                settle rest p (done ++ [(r, res)])%list w'
            end
      | None => settle rest p done w
      end
  end.

(** Start a computation that returns a promise and let the requests
    complete: how the promise ends and the session it leaves. *)
Definition await (schedule : list request) (start : M promise) (w : world)
  : outcome * world :=
  match start w with
  | (Ok p, w1) =>
      let '(done, w2) := settle schedule p [] w1 in (outcome_of p done, w2)
  | (Throw e, w1) => (Rejected e, w1)
  end.

End Loaders.

(** ** A concrete session

    A small tracked tree and a small server, to run the functions on. *)

Module Example.

Definition names : Constants :=
  {| trackingDir := ".ccc";
     configMetadataJson := "config.json";
     elementMetadataJson := "element.json";
     themeMetadataJson := "theme.json";
     stackMetadataJson := "stack.json";
     stackInstanceMetadataJson := "stackInstance.json";
     widgetMetadataJson := "widget.json";
     widgetInstanceMetadataJson := "widgetInstance.json" |}.

(** Paths are given relative to the base directory [.]. *)
Definition below_base (path : string) : value * string := (VStr ".", path).

(** Everything below [element/] is a global element template; every
    other path is the template of an element of a widget. *)
Definition kind_of (path : string) : option PuttingFileType :=
  match split_on "/" path with
  | "element" :: _ => Some GLOBAL_ELEMENT_TEMPLATE
  | _ => Some ELEMENT_TEMPLATE
  end.

Definition etag_of (path : string) : value := VStr ("etag of " +:+ path).

Definition quote : string := String "034" "".

(** A plain serializer: JSON on one line. *)
Fixpoint show (v : value) : string :=
  match v with
  | VUndefined => "undefined"
  | VNull => "null"
  | VBool true => "true"
  | VBool false => "false"
  | VNum n => pretty n
  | VStr s => quote +:+ s +:+ quote
  | VArr items =>
      "[" +:+ (fix go (l : list value) : string :=
                 match l with
                 | [] => ""
                 | [x] => show x
                 | x :: rest => show x +:+ "," +:+ go rest
                 end) items +:+ "]"
  | VObj props =>
      "{" +:+ (fix go (l : list (string * value)) : string :=
                 match l with
                 | [] => ""
                 | [(k, x)] => quote +:+ k +:+ quote +:+ ":" +:+ show x
                 | (k, x) :: rest =>
                     quote +:+ k +:+ quote +:+ ":" +:+ show x +:+ "," +:+ go rest
                 end) props +:+ "}"
  end.

(** The documents of the examples; a text parses to the document it is
    the serialization of. *)
Definition cartSummaryWidget : value :=
  VObj [("displayName", VStr "Cart Summary"); ("version", VNum 2);
        ("widgetType", VStr "cart")].

Definition cartSummaryInstance : value :=
  VObj [("displayName", VStr "Cart Summary"); ("version", VNum 2)].

Definition progressTrackerInstance : value :=
  VObj [("name", VStr "Progress Tracker"); ("displayName", VStr "Tracker");
        ("version", VNum 1)].

Definition darkTheme : value := VObj [("displayName", VStr "Dark Theme")].

Definition companyLogo : value := VObj [("tag", VStr "company-logo")].

(** The same widget tracked under another widget type. *)
Definition cartSummaryRetyped : value :=
  VObj [("displayName", VStr "Cart Summary"); ("version", VNum 2);
        ("widgetType", VStr "cartSummary")].

Definition headerLogo : value :=
  VObj [("tag", VStr "header-logo"); ("version", VNum 2)].

Definition documents : list value :=
  [cartSummaryWidget; cartSummaryInstance; progressTrackerInstance; darkTheme;
   companyLogo; cartSummaryRetyped; headerLogo].

Definition parse (text : string) : result value :=
  match List.find (fun d => String.eqb (show d) text) documents with
  | Some d => Ok d
  | None => Throw SyntaxError
  end.

Definition env : Env :=
  {| constants := names; splitFromBaseDir := below_base; classify := kind_of;
     eTagFor := etag_of; JSON_parse := parse; JSON_stringify := show |}.

Definition session (c : Cache) (tracked : list (string * value)) : world :=
  {| cache := c;
     files := list_to_map (prod_map id show <$> tracked);
     log := [];
     requests := [];
     transferMode := false |}.

(** The cache right after a successful initialization against a server
    that holds nothing. *)
Definition nothing_cached : Cache :=
  {| themes := Some ∅; widgetInstances := Some ∅;
     widgetDescriptors := VArr []; stackDescriptors := VArr [];
     globalElements := Some ∅; widgetElements := Some ∅;
     stackInstances := Some ∅ |}.

(** The widget of the scenario: Cart Summary, version 2, not elementized. *)
Definition cartDescriptor : value :=
  VObj [("displayName", VStr "Cart Summary"); ("version", VNum 2);
        ("widgetType", VStr "cart"); ("repositoryId", VStr "W1");
        ("layouts", VArr [])].

Definition cart_session : world :=
  session (set_widgetDescriptors (VArr [cartDescriptor]) nothing_cached)
          [("./.ccc/widget/Cart Summary/widget.json", cartSummaryInstance)].

(** A session that tracks nothing, with the Cart Summary widget cached. *)
Definition untracked_session : world :=
  session (set_widgetDescriptors (VArr [cartDescriptor]) nothing_cached) [].

(** A session before the cache is initialized. *)
Definition fresh_session (tracked : list (string * value)) : world :=
  session empty_cache tracked.

(** What the server answers: a results object around the items. *)
Definition results (items : list value) : value :=
  VObj [("data", VObj [("items", VArr items)])].

(** A server that answers the listed requests as listed and every other
    request with no items. *)
Definition server_of (elements : bool) (answers : list (request * result value))
  : Server :=
  {| serverSupports := fun _ => elements;
     respond := fun r =>
       default (Ok (results []))
               (snd <$> List.find (fun a => bool_decide (a.1 = r)) answers) |}.

(** Cart Summary with one instance, as each of the two partitions may
    list it. *)
Definition cartGroup (instanceId : string) : value :=
  VObj [("displayName", VStr "Cart Summary"); ("version", VNum 2);
        ("repositoryId", VStr "W1");
        ("instances",
         VArr [VObj [("displayName", VStr "Cart Summary"); ("version", VNum 2);
                     ("repositoryId", VStr instanceId)]])].

(** A server on which both partitions list an instance Cart Summary,
    version 2. *)
Definition overlapping_server : Server :=
  server_of true
    [(oracleWidgets, Ok (results [cartGroup "from-oracle"]));
     (userWidgets, Ok (results [cartGroup "from-user"]))].

Definition cartKey : prim :=
  PStr (makeWidgetInstanceKey (VStr "Cart Summary") (VNum 2)).

(** All requests of an initialization, in the order they are sent. *)
Definition every_request : list request :=
  [oracleWidgets; userWidgets; (GetAllWidgetDescriptors, "");
   (GetElements, "?globals=false"); (GetElements, "?globals=true");
   (GetAllStackInstances, ""); (GetAllStackDescriptors, "");
   (GetThemes, "?type=custom")].

(** The session an initialization against [server] leaves. *)
Definition initialized (server : Server) (tracked : list (string * value))
  : world :=
  snd (await server every_request (initializeMetadata server)
             (fresh_session tracked)).

(** A widget tracked as Cart Summary, version 2, but of another type than
    the cached descriptor of that name and version. *)
Definition retyped_session : world :=
  session (set_widgetDescriptors (VArr [cartDescriptor]) nothing_cached)
          [("./.ccc/widget/Cart Summary/widget.json", cartSummaryRetyped)].

(** An element of the Cart Summary widget. *)
Definition logo_session : world :=
  session (set_widgetDescriptors (VArr [cartDescriptor]) nothing_cached)
          [("./.ccc/widget/Cart Summary/widget.json", cartSummaryWidget);
           ("./.ccc/widget/Cart Summary/element/Logo/element.json", headerLogo)].

(** A server with one stack and one instance of it. *)
Definition trackerInstance : value :=
  VObj [("repositoryId", VStr "SI1"); ("name", VStr "Progress Tracker");
        ("displayName", VStr "Tracker");
        ("descriptor", VObj [("repositoryId", VStr "SD1"); ("version", VNum 1)]);
        ("currentLayout",
         VObj [("repositoryId", VStr "L1");
               ("widgetLayoutDescriptor", VObj [("repositoryId", VStr "LD1")])])].

Definition stack_server : Server :=
  server_of true
    [((GetAllStackInstances, ""),
      Ok (results [VObj [("displayName", VStr "Progress Tracker");
                         ("instances", VArr [trackerInstance])]]))].

Definition tracker_session : world :=
  initialized stack_server
    [("./.ccc/stack/Progress Tracker/instances/Progress Tracker/stackInstance.json",
      progressTrackerInstance)].

(** A server whose only theme is named otherwise than it is displayed. *)
Definition darkRemoteTheme : value :=
  VObj [("name", VStr "dark"); ("displayName", VStr "Dark Theme");
        ("repositoryId", VStr "T1")].

Definition theme_server : Server :=
  server_of true [((GetThemes, "?type=custom"), Ok (results [darkRemoteTheme]))].

Definition theme_session : world :=
  initialized theme_server [("./.ccc/theme/Dark Theme/theme.json", darkTheme)].

(** A server with a theme named as the local one is displayed. *)
Definition namedRemoteTheme : value :=
  VObj [("name", VStr "Dark Theme"); ("repositoryId", VStr "T2")].

Definition named_theme_session : world :=
  initialized
    (server_of true
       [((GetThemes, "?type=custom"), Ok (results [namedRemoteTheme]))])
    [("./.ccc/theme/Dark Theme/theme.json", darkTheme)].

(** A tracked global element, against a server that does not list
    elements and against one that lists none. *)
Definition logo_tracked : list (string * value) :=
  [("./.ccc/element/Company Logo/element.json", companyLogo)].

Definition unsupported_session : world :=
  initialized (server_of false []) logo_tracked.

Definition no_elements_session : world :=
  initialized (server_of true []) logo_tracked.

End Example.

(** ** Reading a record field by field *)

(** The value of [v.k] where the read cannot throw. *)
Definition field (v : value) (k : string) : value :=
  match get v k with
  | Ok x => x
  | Throw _ => VUndefined
  end.

Definition is_object (v : value) : bool :=
  match v with
  | VObj _ => true
  | _ => false
  end.

(** A descriptor with the given name and version. *)
Definition descriptor_matches (displayName version d : value) : bool :=
  strict_eq (field d "version") version
  && strict_eq (field d "displayName") displayName.

(** A descriptor of the given widget type and version. *)
Definition descriptor_of_type (widgetType version d : value) : bool :=
  strict_eq (field d "version") version
  && strict_eq (field d "widgetType") widgetType.

(** A remote descriptor as the server delivers it: an object with its list
    of layouts. *)
Definition is_descriptor (d : value) : Prop :=
  is_object d = true /\ exists layouts, get d "layouts" = Ok (VArr layouts).

(** The asset at [path] has no tracking record of the given type: no file
    at the place its metadata would be kept. *)
Definition no_record (env : Env) (path type : string) (w : world) : Prop :=
  file_text (getMetadataPath env path type) w = None.

(** The key function on a record: name and version as the instance caches
    pair them. *)
Definition instance_key (displayName version : value) : value :=
  VStr (makeWidgetInstanceKey displayName version).

(** The themes cache [cacheThemes] builds from the themes the server
    lists, in the order it lists them. *)
Definition themes_of (remote : list value) : jsmap :=
  foldl (fun m theme => map_set (field theme "name") theme m) ∅ remote.

(** The remote theme a name resolves to: the last one listed under it. *)
Definition theme_named (name : value) (remote : list value) : option value :=
  List.find (fun theme => strict_eq (field theme "name") name) (rev remote).

(** The record [updateMetadata] writes: the supplied keys stored one by
    one on the properties read from disk. *)
Definition merge_props (props extra : list (string * value)) : list (string * value) :=
  foldl (fun acc key => assoc_set key (default VUndefined (assoc key extra)) acc)
        props (extra.*1).


(** ** What the loaders leave alone *)

(** A computation keeps a relation between the session before and after. *)
Definition preserves {A} (R : world -> world -> Prop) (c : M A) : Prop :=
  forall w, R w (snd (c w)).

(** Only the cache has changed. *)
Definition cache_only (w w' : world) : Prop :=
  files w' = files w /\ log w' = log w /\ requests w' = requests w
  /\ transferMode w' = transferMode w.

(** The two element maps are as they were. *)
Definition same_elements (w w' : world) : Prop :=
  globalElements (cache w') = globalElements (cache w)
  /\ widgetElements (cache w') = widgetElements (cache w).

(** ** What a partition of widget instances contributes *)

(** An instance as it is cached: with the descriptor of its widget. *)
Definition with_descriptor (widgetDesc instance : value) : value :=
  match instance with
  | VObj props => VObj (assoc_set "descriptor" widgetDesc props)
  | _ => instance
  end.

(** The descriptor the instances of a widget get: the widget without its
    instances. *)
Definition descriptor_of (widget : value) : value :=
  match widget with
  | VObj props => VObj (assoc_delete "instances" props)
  | _ => widget
  end.

Definition instance_entry (widgetDesc instance : value) : prim * value :=
  (PStr (makeWidgetInstanceKey (field instance "displayName")
                               (field instance "version")),
   with_descriptor widgetDesc instance).

(** The entries of one widget with its instances, and of a whole
    partition, in the order the loader stores them. *)
Definition widget_entries (widget : value) : list (prim * value) :=
  match field widget "instances" with
  | VArr instances => instance_entry (descriptor_of widget) <$> instances
  | _ => []
  end.

Definition partition_entries (widgets : list value) : list (prim * value) :=
  widgets ≫= widget_entries.

(** Storing entries one after the other. *)
Definition store_entries (entries : list (prim * value)) (m : jsmap) : jsmap :=
  foldl (fun m e => <[e.1 := e.2]> m) m entries.

(** A widget as the widget instance end point lists it: an object with
    the array of its instances, objects too. *)
Definition is_widget_group (widget : value) : Prop :=
  is_object widget = true /\
  exists instances,
    get widget "instances" = Ok (VArr instances) /\
    Forall (fun instance => is_object instance = true) instances.

(** A results object with an array of items. *)
Definition has_items (results : value) (items : list value) : Prop :=
  exists data, get results "data" = Ok data /\ get data "items" = Ok (VArr items).

(** ** The promises of the seven loaders *)

Definition then_ (r : request) (callback : value -> M unit) : promise :=
  [ {| awaited := r; on_fulfilled := callback |} ].

(** What [cacheElements] returns: a promise when the server lists
    elements, [undefined] when it does not. *)
Definition elements_promise (server : Server) (field : element_field)
    (globals : bool) : promise :=
  if serverSupports server "getElements"
  then then_ (GetElements, "?globals=" +:+ to_string (VBool globals))
             (cache_elements_of field)
  else [].

(** The members of the [Promise.all] of [initializeMetadata]. *)
Definition loader_promises (server : Server) : list promise :=
  [ Promise_all [then_ oracleWidgets cache_widget_instances_of;
                 then_ userWidgets cache_widget_instances_of];
    then_ (GetAllWidgetDescriptors, "") cache_widget_descriptors_of;
    elements_promise server WidgetElementsField false;
    elements_promise server GlobalElementsField true;
    then_ (GetAllStackInstances, "") cache_stack_instances_of;
    then_ (GetAllStackDescriptors, "") cache_stack_descriptors_of;
    then_ (GetThemes, "?type=custom") cache_themes_of ].

(** ** The rest of the metadata module *)

(** The seven names of metadata files, in the order [getMetadataPath]
    tries them. *)
Definition metadata_names (c : Constants) : list string :=
  [configMetadataJson c; elementMetadataJson c; themeMetadataJson c;
   stackMetadataJson c; stackInstanceMetadataJson c; widgetMetadataJson c;
   widgetInstanceMetadataJson c].

(** The token of the path below which the metadata of a type is kept,
    for the four types that are anchored at a token. *)
Definition anchors (c : Constants) : list (string * string) :=
  [(stackMetadataJson c, "stack"); (stackInstanceMetadataJson c, "instances");
   (widgetMetadataJson c, "widget");
   (widgetInstanceMetadataJson c, "instances")].

Section MoreMetadata.

Context (env : Env).

(** [readMetadataFromServer]: the matcher of the type, and outside
    transfer mode the etag on what it found. *)
Definition readMetadataFromServer (path type : string) : M value :=
  metadata ←
    (if String.eqb type (themeMetadataJson (constants env)) then
       getMatchingTheme env path
     else if String.eqb type (elementMetadataJson (constants env)) then
       getMatchingElement env path
     else if String.eqb type (stackMetadataJson (constants env)) then
       getMatchingStack env path
     else if String.eqb type (stackInstanceMetadataJson (constants env)) then
       getMatchingStackInstance env path
     else if String.eqb type (widgetMetadataJson (constants env)) then
       getMatchingWidget env path
     else if String.eqb type (widgetInstanceMetadataJson (constants env)) then
       getMatchingWidgetInstance env path
     else if String.eqb type (configMetadataJson (constants env)) then
       readMetadataFromDisk env path type false
     else mret VUndefined);
  transfer ← gets transferMode;
  if negb transfer && truthy metadata
  then lift (set_prop metadata "etag" (eTagFor env path))
  else mret metadata.

(** A string argument that is given: neither left out nor empty. *)
Definition given (s : option string) : bool :=
  match s with
  | Some s => negb (String.eqb s "")
  | None => false
  end.

(** [getLastNode]: the node in the configuration metadata of the path,
    of the base directory (what [utils.getBasePath] returns) when there is
    no path, of the current directory when there is neither. *)
Definition getLastNode (getBasePath path : option string) : M value :=
  let targetFileOrDirectory :=
    if given path then default "" path
    else if given getBasePath then default "" getBasePath else "." in
  metadata ← readMetadataFromDisk env targetFileOrDirectory
               (configMetadataJson (constants env)) false;
  if truthy metadata then lift (get metadata "node") else mret VNull.

(** [widgetIsElementized]. *)
Definition widgetIsElementized (path : string) : M value :=
  metadata ← readMetadataFromDisk env path (widgetMetadataJson (constants env))
               false;
  lift (get metadata "elementized").

End MoreMetadata.

(** Nothing but the log has changed, and the log has only grown. *)
Definition only_logged (w w' : world) : Prop :=
  cache w' = cache w /\ files w' = files w /\ requests w' = requests w
  /\ transferMode w' = transferMode w
  /\ exists lines, log w' = (log w ++ lines)%list.

(** The four fields [getMatchingWidgetInstance] always returns for the
    instance it found. *)
Definition instance_reference (found : value) : list (string * value) :=
  [("repositoryId", field found "repositoryId");
   ("descriptorRepositoryId", field (field found "descriptor") "repositoryId");
   ("version", field found "version");
   ("displayName", field found "displayName")].

(** The layouts a descriptor lists. *)
Definition layouts_of (d : value) : list value :=
  match field d "layouts" with
  | VArr layouts => layouts
  | _ => []
  end.

(** Neither [null] nor [undefined]. *)
Definition is_present (v : value) : bool :=
  match v with
  | VUndefined | VNull => false
  | _ => true
  end.

(** ** Caches filled by one request *)

(** A field of the cache is as it was. *)
Definition keeps {A} (f : Cache -> A) (w w' : world) : Prop :=
  f (cache w') = f (cache w).

(** The map [cacheElements] builds from the elements a server lists:
    every element under its tag, a later one over an earlier one. *)
Definition elements_of (remote : list value) : jsmap :=
  foldl (fun m element => map_set (field element "tag") element m) ∅ remote.

(** The request [cacheElements] sends. *)
Definition elementsRequest (globals : bool) : request :=
  (GetElements, "?globals=" +:+ to_string (VBool globals)).

(** The globals flag [cacheGlobalElements] and [cacheWidgetElements] pass
    for their field. *)
Definition globals_of (field : element_field) : bool :=
  match field with
  | GlobalElementsField => true
  | WidgetElementsField => false
  end.

(** The five maps of the cache exist. *)
Definition maps_exist (c : Cache) : Prop :=
  is_Some (themes c) /\ is_Some (widgetInstances c) /\
  is_Some (globalElements c) /\ is_Some (widgetElements c) /\
  is_Some (stackInstances c).

(** Maps that exist stay. *)
Definition maps_stay (w w' : world) : Prop :=
  maps_exist (cache w) -> maps_exist (cache w').

(** The instances a stack lists, as [concat] takes them: the elements of
    an array, and anything else as one element. *)
Definition instances_of (stack : value) : list value :=
  array_concat [] (field stack "instances").

(** The key [cacheStackInstances] stores a stack instance under: its name
    and the version of its descriptor. *)
Definition stack_instance_key (stackInstance : value) : value :=
  instance_key (field stackInstance "name")
               (field (field stackInstance "descriptor") "version").

(** The map [cacheStackInstances] builds from the stacks a server lists:
    the instances of all stacks, in the order listed, each under its key. *)
Definition stack_instances_of (stacks : list value) : jsmap :=
  foldl (fun m stackInstance =>
           map_set (stack_instance_key stackInstance) stackInstance m)
        ∅ (stacks ≫= instances_of).

(** A stack as the server lists it: an object with an array of instances,
    each an object that has its descriptor. *)
Definition is_stack_group (stack : value) : Prop :=
  is_object stack = true /\
  exists instances,
    get stack "instances" = Ok (VArr instances) /\
    Forall (fun stackInstance =>
              is_object stackInstance = true /\
              is_present (field stackInstance "descriptor") = true)
           instances.

(** ** More sessions *)

Module Scenario.

(** The Cart Summary widget, tracked as elementized. *)
Definition elementizedWidget : value :=
  VObj [("displayName", VStr "Cart Summary"); ("version", VNum 2);
        ("widgetType", VStr "cart"); ("elementized", VBool true)].

Definition documents : list value := elementizedWidget :: Example.documents.

Definition parse (text : string) : result value :=
  match List.find (fun d => String.eqb (Example.show d) text) documents with
  | Some d => Ok d
  | None => Throw SyntaxError
  end.

Definition env : Env :=
  {| constants := Example.names; splitFromBaseDir := Example.below_base;
     classify := Example.kind_of; eTagFor := Example.etag_of;
     JSON_parse := parse; JSON_stringify := Example.show |}.

(** A file of an instance of the Cart Summary widget. *)
Definition instanceTemplate : string :=
  "widget/Cart Summary/instances/Cart Summary/display.template".

Definition instance_tracked : list (string * value) :=
  [("./.ccc/widget/Cart Summary/instances/Cart Summary/widgetInstance.json",
    Example.cartSummaryInstance);
   ("./.ccc/widget/Cart Summary/widget.json", elementizedWidget)].

Definition currentLayout : value :=
  VObj [("repositoryId", VStr "L1");
        ("widgetLayoutDescriptor", VObj [("repositoryId", VStr "LD1")])].

(** Cart Summary with one instance that has the given fields besides its
    name, version and identifier. *)
Definition cartGroupWith (more : list (string * value)) : value :=
  VObj [("displayName", VStr "Cart Summary"); ("version", VNum 2);
        ("repositoryId", VStr "W1");
        ("instances",
         VArr [VObj ([("displayName", VStr "Cart Summary"); ("version", VNum 2);
                      ("repositoryId", VStr "I1")] ++ more)%list])].

(** A server on which the instance has a current layout. *)
Definition layout_server : Server :=
  Example.server_of true
    [(oracleWidgets,
      Ok (Example.results [cartGroupWith [("currentLayout", currentLayout)]]))].

Definition layout_session : world :=
  Example.initialized layout_server instance_tracked.

(** A server on which the instance has none, and the widget has one
    layout. *)
Definition layoutDescriptor : value :=
  VObj [("displayName", VStr "Cart Summary"); ("version", VNum 2);
        ("widgetType", VStr "cart"); ("repositoryId", VStr "W1");
        ("layouts", VArr [VObj [("repositoryId", VStr "LD2")]])].

Definition elementized_server : Server :=
  Example.server_of true
    [(oracleWidgets, Ok (Example.results [cartGroupWith []]));
     ((GetAllWidgetDescriptors, ""), Ok (Example.results [layoutDescriptor]))].

Definition elementized_session : world :=
  snd (await elementized_server Example.every_request
             (initializeMetadata elementized_server)
             (Example.fresh_session instance_tracked)).

(** A response without items, and a server that answers with it. *)
Definition no_items : value := VObj [("data", VObj [])].

Definition silent_server : Server :=
  Example.server_of true
    [((GetAllWidgetDescriptors, ""), Ok no_items);
     ((GetAllStackDescriptors, ""), Ok no_items);
     ((GetThemes, "?type=custom"), Ok no_items)].

(** A server that lists one global element and one element of a widget. *)
Definition elements_server : Server :=
  Example.server_of true
    [((GetElements, "?globals=true"), Ok (Example.results [Example.companyLogo]));
     ((GetElements, "?globals=false"), Ok (Example.results [Example.headerLogo]))].

(** The requests completing in the reverse of the order they were sent. *)
Definition backwards : list request := rev Example.every_request.

Definition widget_tracked : list (string * value) :=
  [("./.ccc/widget/Cart Summary/widget.json", Example.cartSummaryWidget);
   ("./.ccc/stack/Progress Tracker/stack.json", Example.progressTrackerInstance)].

End Scenario.

(** ** An initialization that fails *)

Module Outage.





End Outage.

(** * Properties *)

Ltac run :=
  repeat (unfold mbind, M_bind, result_bind, mret, M_ret, result_ret, lift,
            gets, modify, throw, info, warn, find_in, compose; simpl).

Section JsFacts.

Lemma get_object v k : is_object v = true -> get v k = Ok (field v k).
Proof. destruct v as [p| |]; try discriminate; reflexivity. Qed.

Lemma truthy_object v : is_object v = true -> truthy v = true.
Proof. destruct v as [p| |]; try discriminate; reflexivity. Qed.

Lemma two_fields_object (m : value) (ka kb : string) (a b d : value) :
  get m ka = Ok a -> get m kb = Ok b -> is_object d = true ->
  and_then (eq_prop d ka m ka) (eq_prop d kb m kb)
  = Ok (strict_eq (field d ka) a && strict_eq (field d kb) b).
Proof.
  intros Ha Hb Hd. unfold and_then, eq_prop.
  rewrite !(get_object d) by exact Hd. rewrite Ha, Hb. simpl.
  destruct (strict_eq (field d ka) a); reflexivity.
Qed.

(** Scanning an array of objects with the two-field callback is a plain
    search. *)
Lemma find_two_fields (m : value) (ka kb : string) (a b : value) ds :
  get m ka = Ok a -> get m kb = Ok b ->
  Forall (fun d => is_object d = true) ds ->
  find (fun d => and_then (eq_prop d ka m ka) (eq_prop d kb m kb)) ds
  = Ok (default VUndefined
          (List.find (fun d => strict_eq (field d ka) a
                               && strict_eq (field d kb) b) ds)).
Proof.
  intros Ha Hb Hds. induction Hds as [|d ds Hd _ IH]; [reflexivity|].
  cbn [find List.find].
  rewrite (two_fields_object m ka kb a b d Ha Hb Hd).
  destruct (strict_eq (field d ka) a && strict_eq (field d kb) b);
    [reflexivity|exact IH].
Qed.

Lemma get_truthy v k : truthy v = true -> get v k = Ok (field v k).
Proof.
  destruct v as [[]|items|props]; try discriminate; intros _;
    unfold field; simpl; try reflexivity;
    destruct (String.eqb k "length"); reflexivity.
Qed.

Lemma strict_eq_prim_iff (a : value) (p : prim) :
  strict_eq a (VPrim p) = true <-> a = VPrim p.
Proof.
  destruct a as [q|items|props]; simpl; split; try discriminate.
  - intros H. apply bool_decide_eq_true in H. by subst.
  - intros [= ->]. by apply bool_decide_eq_true.
Qed.

Lemma assoc_set_same k v props : assoc k (assoc_set k v props) = Some v.
Proof.
  induction props as [|[k' v'] props IH]; simpl.
  - by rewrite String.eqb_refl.
  - destruct (String.eqb k k') eqn:Hk; simpl; rewrite ?String.eqb_refl, ?Hk; done.
Qed.

Lemma assoc_set_other k k' v props :
  k <> k' -> assoc k (assoc_set k' v props) = assoc k props.
Proof.
  intros Hne. apply String.eqb_neq in Hne.
  induction props as [|[k2 v2] props IH]; simpl.
  - by rewrite Hne.
  - destruct (String.eqb k' k2) eqn:Hk.
    + apply String.eqb_eq in Hk as <-. simpl. by rewrite Hne.
    + simpl. by rewrite IH.
Qed.

Lemma assoc_None_keys k (props : list (string * value)) :
  assoc k props = None <-> k ∉ props.*1.
Proof.
  induction props as [|[k' v'] props IH]; simpl.
  - split; [intros _; apply not_elem_of_nil|done].
  - rewrite not_elem_of_cons. destruct (String.eqb k k') eqn:Hk.
    + apply String.eqb_eq in Hk. split; [done|]. intros [Hne _]. done.
    + apply String.eqb_neq in Hk. rewrite IH. tauto.
Qed.

(** Storing keys one by one: a key that is stored ends with the value
    stored for it, any other key keeps what it had. *)
Lemma assoc_foldl_set k (f : string -> value) keys props :
  assoc k (foldl (fun acc key => assoc_set key (f key) acc) props keys)
  = if bool_decide (k ∈ keys) then Some (f k) else assoc k props.
Proof.
  revert props. induction keys as [|key keys IH]; intros props.
  - case_bool_decide as Hin; [by apply elem_of_nil in Hin|done].
  - cbn [foldl]. rewrite IH.
    destruct (decide (k ∈ keys)) as [Hin|Hnin].
    + rewrite !bool_decide_eq_true_2; [done|by right|done].
    + rewrite (bool_decide_eq_false_2 _ Hnin).
      destruct (decide (k = key)) as [->|Hne].
      * rewrite bool_decide_eq_true_2 by left. apply assoc_set_same.
      * rewrite bool_decide_eq_false_2.
        -- by apply assoc_set_other.
        -- rewrite not_elem_of_cons. done.
Qed.

Lemma assoc_merge_props k props extra :
  assoc k (merge_props props extra)
  = match assoc k extra with
    | Some v => Some v
    | None => assoc k props
    end.
Proof.
  unfold merge_props.
  rewrite (assoc_foldl_set k (fun key => default VUndefined (assoc key extra))).
  destruct (assoc k extra) as [v|] eqn:Hk.
  - rewrite bool_decide_eq_true_2; [done|].
    destruct (decide (k ∈ extra.*1)) as [|Hnin]; [done|].
    apply assoc_None_keys in Hnin. congruence.
  - rewrite bool_decide_eq_false_2; [done|]. by apply assoc_None_keys.
Qed.

Lemma foldl_throw {A} (f : result A -> string -> result A) e keys :
  (forall key, f (Throw e) key = Throw e) -> foldl f (Throw e) keys = Throw e.
Proof. intros Hf. induction keys as [|key keys IH]; simpl; [done|]. by rewrite Hf. Qed.

Lemma bind_run_unit {A B} (m : M A) (k : M B) (w : world) :
  (m;; k) w
  = match m w with
    | (Ok _, w') => k w'
    | (Throw e, w') => (Throw e, w')
    end.
Proof. reflexivity. Qed.

Lemma bind_run {A B} (m : M A) (k : A -> M B) (w : world) :
  (m ≫= k) w
  = match m w with
    | (Ok a, w') => k a w'
    | (Throw e, w') => (Throw e, w')
    end.
Proof. reflexivity. Qed.

End JsFacts.

Section MatcherProperties.

Context (env : Env).

(** C1. For a path whose tracking record is read as [metadata], with
    display name [displayName] and version [version], and a cache of
    widget descriptors delivered by the server, [getMatchingWidget]
    takes the first descriptor with that version and that display name
    and returns its [repositoryId] and [widgetType] and an [elementized]
    that is true exactly when its list of layouts is not empty; without
    such a descriptor it returns [null]. The outcome is logged. *)
Theorem getMatchingWidget_scans_descriptors
    (path : string) (w : world) (metadata displayName version : value)
    (descriptors : list value) :
  readMetadataFromDisk env path (widgetMetadataJson (constants env)) false w
    = (Ok metadata, w) ->
  get metadata "displayName" = Ok displayName ->
  get metadata "version" = Ok version ->
  widgetDescriptors (cache w) = VArr descriptors ->
  Forall is_descriptor descriptors ->
  match List.find (descriptor_matches displayName version) descriptors with
  | Some d =>
      exists layouts,
        get d "layouts" = Ok (VArr layouts) /\
        getMatchingWidget env path w
        = (Ok (VObj [("repositoryId", field d "repositoryId");
                     ("widgetType", field d "widgetType");
                     ("elementized", VBool (bool_decide (layouts <> [])))]),
           with_log (Info "matchingWidgetFound" (path_args path)) w)
  | None =>
      getMatchingWidget env path w
      = (Ok VNull, with_log (Warn "noMatchingWidgetFound" (path_args path)) w)
  end.
Proof.
  intros Hread Hname Hversion Hcache Hds.
  assert (Hobj : Forall (fun d => is_object d = true) descriptors).
  { eapply Forall_impl; [|exact Hds]. intros d [Hd _]. exact Hd. }
  pose proof (find_two_fields metadata "version" "displayName" version
                displayName descriptors Hversion Hname Hobj) as Hfind.
  fold (descriptor_matches displayName version) in Hfind.
  assert (Hrun : forall k : value -> M value,
             (readMetadataFromDisk env path (widgetMetadataJson (constants env)) false
                ≫= k) w = k metadata w).
  { intros k. unfold mbind, M_bind. rewrite Hread. reflexivity. }
  destruct (List.find (descriptor_matches displayName version) descriptors)
    as [d|] eqn:Hd; simpl in Hfind.
  - apply List.find_some in Hd as [Hin _].
    rewrite Forall_forall in Hds.
    apply Hds in Hin as [Hisobj [layouts Hl]].
    exists layouts. split; [exact Hl|].
    unfold getMatchingWidget. rewrite Hrun. run.
    rewrite Hcache. simpl. unfold same_version_and_name. rewrite Hfind.
    rewrite (truthy_object d Hisobj). simpl.
    rewrite Hl, !(get_object d _ Hisobj). simpl.
    destruct layouts; reflexivity.
  - unfold getMatchingWidget. rewrite Hrun. run.
    rewrite Hcache. simpl. unfold same_version_and_name. rewrite Hfind.
    reflexivity.
Qed.

(** *** Without a local record *)

Lemma readMetadataFromDisk_absent path type excludeEtag w :
  no_record env path type w ->
  readMetadataFromDisk env path type excludeEtag w = (Ok VNull, w).
Proof. unfold no_record, readMetadataFromDisk. run. intros ->. reflexivity. Qed.

Lemma bind_absent {A} path type excludeEtag w (k : value -> M A) :
  no_record env path type w ->
  (readMetadataFromDisk env path type excludeEtag ≫= k) w = k VNull w.
Proof.
  intros H. unfold mbind, M_bind.
  rewrite (readMetadataFromDisk_absent _ _ _ _ H). reflexivity.
Qed.

(** The only thing a property read throws is a [TypeError]. *)
Lemma get_throws v k : get v k = Throw TypeError \/ exists x, get v k = Ok x.
Proof.
  destruct v as [[]|items|props]; simpl; eauto;
    destruct (String.eqb k "length"); eauto.
Qed.

(** A callback that compares a field with a field of [null] throws on
    the first element it is given. *)
Lemma eq_prop_null d ka kb (rest : result bool) :
  and_then (eq_prop d ka VNull kb) rest = Throw TypeError.
Proof.
  unfold and_then, eq_prop.
  destruct (get_throws d ka) as [->|[x ->]]; reflexivity.
Qed.

Lemma find_in_null_record (pred : value -> result bool) descriptors w :
  (forall d, pred d = Throw TypeError) ->
  find_in pred descriptors w
  = match descriptors with
    | VArr [] => (Ok VUndefined, w)
    | _ => (Throw TypeError, w)
    end.
Proof.
  intros Hpred. destruct descriptors as [p|[|d items]|props]; run; try reflexivity.
  rewrite Hpred. reflexivity.
Qed.

(** C2, as the code has it. When the tracking record a matcher needs is
    absent, the theme, the stack instance and the global element matcher
    throw a [TypeError]; the widget, the stack and the widget element
    matcher throw a [TypeError] unless the descriptor cache is an empty
    array, where they report no match; the widget instance matcher
    reports no match and logs the warning. *)
Theorem matchers_without_local_record (path : string) (w : world) :
  (no_record env path (themeMetadataJson (constants env)) w ->
   getMatchingTheme env path w = (Throw TypeError, w)) /\
  (no_record env path (stackInstanceMetadataJson (constants env)) w ->
   getMatchingStackInstance env path w = (Throw TypeError, w)) /\
  (no_record env path (elementMetadataJson (constants env)) w ->
   is_global_element_file (classify env path) = true ->
   getMatchingElement env path w = (Throw TypeError, w)) /\
  (no_record env path (widgetMetadataJson (constants env)) w ->
   getMatchingWidget env path w
   = match widgetDescriptors (cache w) with
     | VArr [] =>
         (Ok VNull, with_log (Warn "noMatchingWidgetFound" (path_args path)) w)
     | _ => (Throw TypeError, w)
     end) /\
  (no_record env path (stackMetadataJson (constants env)) w ->
   getMatchingStack env path w
   = match stackDescriptors (cache w) with
     | VArr [] =>
         (Ok VNull, with_log (Warn "noMatchingStackFound" (path_args path)) w)
     | _ => (Throw TypeError, w)
     end) /\
  (forall widgetMetadata,
   no_record env path (elementMetadataJson (constants env)) w ->
   is_global_element_file (classify env path) = false ->
   readMetadataFromDisk env path (widgetMetadataJson (constants env)) false w
     = (Ok widgetMetadata, w) ->
   getMatchingElement env path w
   = match widgetDescriptors (cache w) with
     | VArr [] =>
         (Ok VNull, with_log (Warn "noMatchingElementFound" (path_args path)) w)
     | _ => (Throw TypeError, w)
     end) /\
  (no_record env path (widgetInstanceMetadataJson (constants env)) w ->
   getMatchingWidgetInstance env path w
   = (Ok VNull,
      with_log (Warn "noMatchingWidgetInstanceFound" (path_args path)) w)).
Proof.
  repeat split.
  - intros H. unfold getMatchingTheme. rewrite (bind_absent _ _ _ _ _ H). run.
    destruct (themes (cache w)); reflexivity.
  - intros H. unfold getMatchingStackInstance. rewrite (bind_absent _ _ _ _ _ H).
    unfold getCachedStackInstanceFromMetadata. run.
    destruct (stackInstances (cache w)); reflexivity.
  - intros H Hglobal. unfold getMatchingElement. rewrite (bind_absent _ _ _ _ _ H).
    rewrite Hglobal. run. destruct (globalElements (cache w)); reflexivity.
  - intros H. unfold getMatchingWidget. rewrite (bind_absent _ _ _ _ _ H).
    unfold mbind at 1, M_bind. unfold gets at 1. unfold compose.
    unfold mbind at 1, M_bind.
    rewrite find_in_null_record
      by (intros d; unfold same_version_and_name; apply eq_prop_null).
    destruct (widgetDescriptors (cache w)) as [p|[|d items]|props]; reflexivity.
  - intros H. unfold getMatchingStack. rewrite (bind_absent _ _ _ _ _ H).
    unfold mbind at 1, M_bind. unfold gets at 1. unfold compose.
    unfold mbind at 1, M_bind.
    rewrite find_in_null_record
      by (intros d; unfold same_version_and_name; apply eq_prop_null).
    destruct (stackDescriptors (cache w)) as [p|[|d items]|props]; reflexivity.
  - intros widgetMetadata H Hglobal Hwidget. unfold getMatchingElement.
    rewrite (bind_absent _ _ _ _ _ H). rewrite Hglobal.
    rewrite bind_run, Hwidget.
    unfold mbind at 1, M_bind. unfold gets at 1. unfold compose.
    unfold mbind at 1, M_bind.
    rewrite find_in_null_record by (intros d; apply eq_prop_null).
    destruct (widgetDescriptors (cache w)) as [p|[|d items]|props]; reflexivity.
  - intros H. unfold getMatchingWidgetInstance. rewrite (bind_absent _ _ _ _ _ H).
    reflexivity.
Qed.

(** *** Themes *)

(** In the cache built from a list of themes, a name leads to the last
    theme listed under it. *)
Lemma themes_of_lookup (remote : list value) (name : prim) :
  map_get (VPrim name) (themes_of remote)
  = default VUndefined (theme_named (VPrim name) remote).
Proof.
  unfold themes_of, theme_named.
  induction remote as [|theme remote IH] using rev_ind; [reflexivity|].
  rewrite foldl_app, rev_app_distr. cbn [foldl rev app List.find].
  destruct (strict_eq (field theme "name") (VPrim name)) eqn:Heq.
  - apply strict_eq_prim_iff in Heq. rewrite Heq. simpl.
    by rewrite lookup_insert_eq.
  - rewrite <- IH. clear IH.
    destruct (field theme "name") as [q|items|props]; try reflexivity.
    simpl. rewrite lookup_insert_ne; [reflexivity|].
    intros ->. simpl in Heq. by rewrite bool_decide_eq_false in Heq.
Qed.

(** C10, as the code has it. The themes cache is keyed by the [name] of
    the remote theme. For a local record with display name [name],
    [getMatchingTheme] returns the [repositoryId] of the last theme the
    server listed under that name, and [null] when it listed none. *)
Theorem getMatchingTheme_by_name
    (path : string) (w : world) (metadata : value) (name : prim)
    (remote : list value) :
  readMetadataFromDisk env path (themeMetadataJson (constants env)) false w
    = (Ok metadata, w) ->
  get metadata "displayName" = Ok (VPrim name) ->
  themes (cache w) = Some (themes_of remote) ->
  Forall (fun theme => is_object theme = true) remote ->
  match theme_named (VPrim name) remote with
  | Some theme =>
      fst (getMatchingTheme env path w)
      = Ok (VObj [("repositoryId", field theme "repositoryId")])
  | None =>
      getMatchingTheme env path w
      = (Ok VNull,
         with_log (Warn "noMatchingThemeFound" (VObj [("name", VPrim name)])) w)
  end.
Proof.
  intros Hread Hname Hcache Hremote.
  pose proof (themes_of_lookup remote name) as Hlookup.
  assert (Hrun : forall k : value -> M value,
             (readMetadataFromDisk env path (themeMetadataJson (constants env))
                false ≫= k) w = k metadata w).
  { intros k. unfold mbind, M_bind. rewrite Hread. reflexivity. }
  destruct (theme_named (VPrim name) remote) as [theme|] eqn:Hfound;
    simpl in Hlookup; unfold getMatchingTheme; rewrite Hrun; run;
    rewrite Hcache; simpl; rewrite Hname; simpl; rewrite Hlookup; simpl.
  - apply List.find_some in Hfound as [Hin _].
    apply in_rev in Hin. rewrite Forall_forall in Hremote.
    apply Hremote in Hin.
    rewrite (truthy_object theme Hin). unfold info_in_transfer_mode.
    run. rewrite (get_object theme _ Hin).
    destruct (transferMode w); reflexivity.
  - reflexivity.
Qed.

(** *** Stacks *)

(** C5, as the code has it. The stack matcher takes the first stack
    descriptor with the record's version and display name and returns its
    [repositoryId] and [stackType]. The stack instance matcher looks the
    record's [name] and version up in the stack instances and, on a hit,
    returns the [repositoryId] of the instance, the version of the record
    and the [displayName] of the instance, and nothing else. *)
Theorem stack_matchers (path : string) (w : world) (metadata : value) :
  (forall displayName version descriptors,
     readMetadataFromDisk env path (stackMetadataJson (constants env)) false w
       = (Ok metadata, w) ->
     get metadata "displayName" = Ok displayName ->
     get metadata "version" = Ok version ->
     stackDescriptors (cache w) = VArr descriptors ->
     Forall (fun d => is_object d = true) descriptors ->
     getMatchingStack env path w
     = match List.find (descriptor_matches displayName version) descriptors with
       | Some d =>
           (Ok (VObj [("repositoryId", field d "repositoryId");
                      ("stackType", field d "stackType")]),
            with_log (Info "matchingStackFound" (path_args path)) w)
       | None =>
           (Ok VNull, with_log (Warn "noMatchingStackFound" (path_args path)) w)
       end) /\
  (forall name version instances,
     readMetadataFromDisk env path (stackInstanceMetadataJson (constants env))
       false w = (Ok metadata, w) ->
     get metadata "name" = Ok name ->
     get metadata "version" = Ok version ->
     stackInstances (cache w) = Some instances ->
     let hit := map_get (instance_key name version) instances in
     getMatchingStackInstance env path w
     = if truthy hit then
         (Ok (VObj [("repositoryId", field hit "repositoryId");
                    ("version", version);
                    ("displayName", field hit "displayName")]),
          with_log (Info "matchingStackInstanceFound" (path_args path)) w)
       else
         (Ok VNull,
          with_log (Warn "noMatchingStackInstanceFound" (path_args path)) w)).
Proof.
  split.
  - intros displayName version descriptors Hread Hname Hversion Hcache Hds.
    pose proof (find_two_fields metadata "version" "displayName" version
                  displayName descriptors Hversion Hname Hds) as Hfind.
    fold (descriptor_matches displayName version) in Hfind.
    unfold getMatchingStack. rewrite bind_run, Hread. run.
    rewrite Hcache. simpl. unfold same_version_and_name. rewrite Hfind.
    destruct (List.find (descriptor_matches displayName version) descriptors)
      as [d|] eqn:Hd; simpl; [|reflexivity].
    apply List.find_some in Hd as [Hin _].
    rewrite Forall_forall in Hds. apply Hds in Hin.
    rewrite (truthy_object d Hin), !(get_object d _ Hin). reflexivity.
  - intros name version instances Hread Hname Hversion Hcache hit.
    unfold getMatchingStackInstance. rewrite bind_run, Hread.
    unfold getCachedStackInstanceFromMetadata. run.
    rewrite Hcache. simpl. rewrite Hname, Hversion. simpl.
    fold (instance_key name version).
    change (default VUndefined
              (instances !! PStr (makeWidgetInstanceKey name version)))
      with hit.
    destruct (truthy hit) eqn:Hhit; [|reflexivity].
    simpl. rewrite !(get_truthy hit _ Hhit). reflexivity.
Qed.

(** *** The predicates *)

Ltac split_matches :=
  repeat match goal with
         | |- context [match ?x with _ => _ end] => destruct x eqn:?; simpl
         end.

(** C4, as the code has it. The theme, the stack and the widget instance
    predicate return what the look-up of the matcher finds, so they are
    truthy exactly when the matcher reports a match (for the widget
    instance: whenever the matcher returns at all). The widget predicate
    scans for the record's version and [widgetType], not its display name.
    The element predicate looks the record's tag up in the global elements
    whatever the path is, which is the look-up of the element matcher for
    the paths of global elements. *)
Theorem existsOnTarget_and_matchers (path : string) (w : world) :
  match fst (themeExistsOnTarget env path w) with
  | Ok found =>
      fst (getMatchingTheme env path w)
      = Ok (if truthy found
            then VObj [("repositoryId", field found "repositoryId")]
            else VNull)
  | Throw e => fst (getMatchingTheme env path w) = Throw e
  end /\
  match fst (stackExistsOnTarget env path w) with
  | Ok found =>
      fst (getMatchingStack env path w)
      = Ok (if truthy found
            then VObj [("repositoryId", field found "repositoryId");
                       ("stackType", field found "stackType")]
            else VNull)
  | Throw e => fst (getMatchingStack env path w) = Throw e
  end /\
  match fst (widgetInstanceExistsOnTarget env path w) with
  | Ok found =>
      if truthy found
      then fst (getMatchingWidgetInstance env path w) <> Ok VNull
      else fst (getMatchingWidgetInstance env path w) = Ok VNull
  | Throw e => fst (getMatchingWidgetInstance env path w) = Throw e
  end /\
  (forall metadata widgetType version descriptors,
     readMetadataFromDisk env path (widgetMetadataJson (constants env)) false w
       = (Ok metadata, w) ->
     get metadata "widgetType" = Ok widgetType ->
     get metadata "version" = Ok version ->
     widgetDescriptors (cache w) = VArr descriptors ->
     Forall (fun d => is_object d = true) descriptors ->
     widgetExistsOnTarget env path w
     = (Ok (default VUndefined
              (List.find (descriptor_of_type widgetType version) descriptors)),
        w)) /\
  (is_global_element_file (classify env path) = true ->
   match fst (elementExistsOnTarget env path w) with
   | Ok found =>
       exists metadata,
         fst (readMetadataFromDisk env path (elementMetadataJson (constants env))
                false w) = Ok metadata /\
         metadata <> VNull /\
         fst (getMatchingElement env path w)
         = Ok (if truthy found then metadata else VNull)
   | Throw e => fst (getMatchingElement env path w) = Throw e
   end).
Proof.
  repeat split.
  - unfold themeExistsOnTarget, getMatchingTheme. rewrite !bind_run.
    destruct (readMetadataFromDisk env path _ false w) as [[metadata|e] w1];
      [|reflexivity].
    run. destruct (themes (cache w1)) as [m|]; [|reflexivity]. simpl.
    destruct (get metadata "displayName") as [displayName|e]; [|reflexivity].
    simpl. destruct (truthy (map_get displayName m)) eqn:Hfound; [|reflexivity].
    unfold info_in_transfer_mode. run.
    rewrite (get_truthy _ _ Hfound). destruct (transferMode w1); reflexivity.
  - unfold stackExistsOnTarget, getMatchingStack. rewrite !bind_run.
    destruct (readMetadataFromDisk env path _ false w) as [[metadata|e] w1];
      [|reflexivity].
    run. destruct (as_array (stackDescriptors (cache w1))) as [items|e];
      [|reflexivity].
    simpl. destruct (find (same_version_and_name metadata) items) as [found|e];
      [|reflexivity].
    simpl. destruct (truthy found) eqn:Hfound; [|reflexivity].
    simpl. rewrite !(get_truthy _ _ Hfound). reflexivity.
  - unfold widgetInstanceExistsOnTarget, getMatchingWidgetInstance.
    rewrite !bind_run.
    destruct (readMetadataFromDisk env path _ false w) as [[metadata|e] w1];
      [|reflexivity].
    rewrite bind_run.
    destruct (getCachedWidgetInstanceFromMetadata metadata w1)
      as [[found|e] w2]; [|reflexivity].
    simpl. destruct (truthy found) eqn:Hfound; [|reflexivity].
    run. rewrite !(get_truthy found _ Hfound). simpl.
    split_matches; discriminate.
  - intros metadata widgetType version descriptors Hread Htype Hversion Hcache Hds.
    pose proof (find_two_fields metadata "version" "widgetType" version
                  widgetType descriptors Hversion Htype Hds) as Hfind.
    unfold widgetExistsOnTarget. rewrite bind_run, Hread. run.
    rewrite Hcache. simpl. rewrite Hfind. reflexivity.
  - intros Hglobal. unfold elementExistsOnTarget, getMatchingElement.
    rewrite !bind_run.
    destruct (readMetadataFromDisk env path _ false w) as [[metadata|e] w1];
      [|reflexivity].
    rewrite Hglobal. run.
    destruct (globalElements (cache w1)) as [m|]; [|reflexivity]. simpl.
    destruct (get metadata "tag") as [tag|e] eqn:Htag; [|reflexivity].
    simpl. exists metadata. split; [reflexivity|]. split.
    { intros ->. discriminate. }
    destruct (truthy (map_get tag m)); [|reflexivity].
    unfold info_in_transfer_mode. run. destruct (transferMode w1); reflexivity.
Qed.

(** *** Updating a record *)

Lemma merge_run (extra : list (string * value)) keys props :
  foldl (fun acc key =>
           record ← acc; v ← get (VObj extra) key; set_prop record key v)
        (Ok (VObj props)) keys
  = Ok (VObj (foldl (fun acc key =>
                       assoc_set key (default VUndefined (assoc key extra)) acc)
                    props keys)).
Proof.
  revert props. induction keys as [|key keys IH]; intros props; [reflexivity|].
  simpl. apply IH.
Qed.

(** C9, as the code has it. On a path without a metadata file,
    [updateMetadata] with at least one key to store throws a [TypeError]
    and leaves the session, and so every file, as it was. On a path whose
    metadata file holds a record, it reads the record without an etag,
    stores the supplied keys on it and writes the result to the same
    metadata path: a supplied key has the supplied value, every other key
    the value it had. *)
Theorem updateMetadata_merges
    (path type : string) (additionalMetadata : value) (w : world) :
  (forall key keys,
     no_record env path type w ->
     object_keys additionalMetadata = Ok (key :: keys) ->
     updateMetadata env path type additionalMetadata w = (Throw TypeError, w)) /\
  (forall metadataPath text props extra,
     getMetadataPath env path type = Some metadataPath ->
     files w !! metadataPath = Some text ->
     JSON_parse env text = Ok (VObj props) ->
     additionalMetadata = VObj extra ->
     updateMetadata env path type additionalMetadata w
     = (Ok tt,
        with_files
          (<[metadataPath := JSON_stringify env (VObj (merge_props props extra))]>)
          w) /\
     forall k, assoc k (merge_props props extra)
               = match assoc k extra with
                 | Some v => Some v
                 | None => assoc k props
                 end).
Proof.
  split.
  - intros key keys Habsent Hkeys.
    assert (Hfold :
      foldl (fun acc key =>
               record ← acc; v ← get additionalMetadata key;
               set_prop record key v)
            (Ok VNull) (key :: keys) = Throw TypeError).
    { cbn [foldl]. unfold mbind, result_bind.
      destruct (get_throws additionalMetadata key) as [H|[x H]]; rewrite H;
        apply foldl_throw; reflexivity. }
    unfold updateMetadata. rewrite (bind_absent _ _ _ _ _ Habsent).
    rewrite bind_run. unfold lift at 1. rewrite Hkeys.
    rewrite bind_run. unfold lift at 1. rewrite Hfold. reflexivity.
  - intros metadataPath text props extra Hpath Hfile Hparse ->. split.
    + unfold updateMetadata, readMetadataFromDisk, file_text.
      rewrite Hpath. run. rewrite Hfile. simpl. rewrite Hparse. simpl.
      pose proof (merge_run extra (extra.*1) props) as Hmerge.
      unfold mbind, result_bind in Hmerge. simpl in Hmerge. rewrite Hmerge.
      reflexivity.
    + intros k. apply assoc_merge_props.
Qed.

End MatcherProperties.

(** ** The key of the instance caches *)

Section Keys.










(** What the loader does with one instance, an object: it goes into the
    map with its descriptor, under the key of its name and version. *)
Lemma cache_widget_instance_object widgetDesc props m w :
  widgetInstances (cache w) = Some m ->
  cache_widget_instance widgetDesc (VObj props) w
  = (Ok tt,
     with_cache
       (set_widgetInstances
          (Some (<[PStr (makeWidgetInstanceKey
                           (field (VObj props) "displayName")
                           (field (VObj props) "version"))
                   := VObj (assoc_set "descriptor" widgetDesc props)]> m)))
       w).
Proof.
  intros Hm. unfold cache_widget_instance. run. rewrite Hm. simpl.
  unfold field. simpl.
  rewrite !assoc_set_other by discriminate. reflexivity.
Qed.


End Keys.

(** ** Promises *)

Section Frames.

Context (R : world -> world -> Prop) `{!Reflexive R} `{!Transitive R}.

Lemma preserves_lift {A} (r : result A) : preserves R (lift r).
Proof using Type*. intros w. simpl. reflexivity. Qed.

Lemma preserves_ret {A} (a : A) : preserves R (mret a).
Proof using Type*. intros w. simpl. reflexivity. Qed.

Lemma preserves_throw {A} e : preserves R (@throw A e).
Proof using Type*. intros w. simpl. reflexivity. Qed.

Lemma preserves_gets {A} (f : world -> A) : preserves R (gets f).
Proof using Type*. intros w. simpl. reflexivity. Qed.

Lemma preserves_bind {A B} (m : M A) (k : A -> M B) :
  preserves R m -> (forall a, preserves R (k a)) -> preserves R (m ≫= k).
Proof using Type*.
  intros Hm Hk w. rewrite bind_run. specialize (Hm w).
  destruct (m w) as [[a|e] w1]; simpl in *; [|exact Hm].
  etrans; [exact Hm|apply Hk].
Qed.

Lemma preserves_the_map m : preserves R (the_map m).
Proof using Type*.
  destruct m; [apply preserves_ret|apply preserves_throw].
Qed.

Lemma preserves_for_each {A} (body : A -> M unit) items :
  (forall x, preserves R (body x)) -> preserves R (for_each body items).
Proof using Type*.
  intros Hbody. induction items as [|x items IH]; simpl.
  - apply preserves_ret.
  - apply preserves_bind; [apply Hbody|intros _; exact IH].
Qed.

Lemma preserves_data_items results : preserves R (data_items results).
Proof using Type*.
  apply preserves_bind; [apply preserves_lift|intros data; apply preserves_lift].
Qed.

Context (server : Server).

(** What every callback keeps, the completion of the requests keeps. *)
Lemma settle_preserves schedule (p : promise) done w :
  (forall pd results, pd ∈ p -> preserves R (on_fulfilled pd results)) ->
  R w (snd (settle server schedule p done w)).
Proof using Type*.
  intros Hp. revert done w.
  induction schedule as [|r schedule IH]; intros done w; simpl; [reflexivity|].
  destruct (List.find (fun pd => bool_decide (awaited pd = r)) p) as [pd|] eqn:Hpd;
    [|apply IH].
  destruct (has_settled done r); [apply IH|].
  destruct (respond server r) as [results|e]; [|apply IH].
  apply List.find_some in Hpd as [Hin _]. apply list_elem_of_In in Hin.
  specialize (Hp pd results Hin w).
  destruct (on_fulfilled pd results w) as [res w1]. simpl in Hp.
  etrans; [exact Hp|apply IH].
Qed.

End Frames.

Section LoaderFrames.

#[global] Instance cache_only_refl : Reflexive cache_only.
Proof. intros w. by repeat split. Qed.

#[global] Instance cache_only_trans : Transitive cache_only.
Proof.
  intros w1 w2 w3 (Hf1 & Hl1 & Hr1 & Ht1) (Hf2 & Hl2 & Hr2 & Ht2).
  repeat split; congruence.
Qed.

#[global] Instance same_elements_refl : Reflexive same_elements.
Proof. intros w. by split. Qed.

#[global] Instance same_elements_trans : Transitive same_elements.
Proof. intros w1 w2 w3 [Hg1 Hw1] [Hg2 Hw2]. split; congruence. Qed.

Lemma preserves_modify (R : world -> world -> Prop) (f : world -> world) :
  (forall w, R w (f w)) -> preserves R (modify f).
Proof. intros Hf w. apply Hf. Qed.

Ltac frame R :=
  repeat first
    [ apply (preserves_lift R) | apply (preserves_ret R)
    | apply (preserves_gets R) | apply (preserves_the_map R)
    | apply (preserves_data_items R)
    | apply (preserves_bind R) | apply (preserves_for_each R)
    | apply preserves_modify; intros ?; by repeat split
    | progress unfold compose
    | match goal with |- forall _, _ => intro end ].

(** The callbacks of the loaders change the cache and nothing else. *)
Lemma callbacks_cache_only results :
  preserves cache_only (cache_themes_of results)
  /\ preserves cache_only (cache_widget_instances_of results)
  /\ preserves cache_only (cache_widget_descriptors_of results)
  /\ preserves cache_only (cache_stack_descriptors_of results)
  /\ (forall field, preserves cache_only (cache_elements_of field results))
  /\ preserves cache_only (cache_stack_instances_of results).
Proof.
  repeat apply conj;
    unfold cache_themes_of, cache_widget_instances_of, cache_widget_instance,
      cache_widget_descriptors_of, cache_stack_descriptors_of,
      cache_elements_of, cache_stack_instances_of.
  - frame cache_only.
  - apply (preserves_bind cache_only); [frame cache_only|]. intros items.
    destruct (truthy items); frame cache_only.
  - frame cache_only.
  - frame cache_only.
  - frame cache_only.
  - frame cache_only.
Qed.

(** The callbacks of all loaders but the element loaders leave the two
    element maps as they are. *)
Lemma callbacks_same_elements results :
  preserves same_elements (cache_themes_of results)
  /\ preserves same_elements (cache_widget_instances_of results)
  /\ preserves same_elements (cache_widget_descriptors_of results)
  /\ preserves same_elements (cache_stack_descriptors_of results)
  /\ preserves same_elements (cache_stack_instances_of results).
Proof.
  repeat apply conj;
    unfold cache_themes_of, cache_widget_instances_of, cache_widget_instance,
      cache_widget_descriptors_of, cache_stack_descriptors_of,
      cache_stack_instances_of.
  - frame same_elements.
  - apply (preserves_bind same_elements); [frame same_elements|]. intros items.
    destruct (truthy items); frame same_elements.
  - frame same_elements.
  - frame same_elements.
  - frame same_elements.
Qed.

End LoaderFrames.

Section Outcomes.





(** A rejection among what a promise waits for rejects the promise. *)
Lemma outcome_of_rejected (p : promise) (done : settled) r e :
  (r, Throw e) ∈ done -> awaits p r = true ->
  exists e', outcome_of p done = Rejected e'.
Proof.
  intros Hin Hawaits. unfold outcome_of.
  destruct (List.find (fun s => awaits p s.1 && negb (is_ok s.2)) done)
    as [[r' res]|] eqn:Hfind.
  - apply List.find_some in Hfind as [_ Hs]. simpl in Hs.
    apply andb_true_iff in Hs as [_ Hres].
    destruct res as [[]|e']; [discriminate|]. by exists e'.
  - apply list_elem_of_In in Hin.
    pose proof (List.find_none _ _ Hfind _ Hin) as Hs. simpl in Hs.
    rewrite Hawaits in Hs. discriminate.
Qed.

Context (server : Server).


End Outcomes.

(** ** Initialization *)

Section Initialization.

Context (server : Server).

(** The synchronous part of [initializeMetadata]: the maps are created,
    the requests are sent, the seven promises are returned. *)
Lemma call_all_loaders (w : world) :
  fst (call_all (loaders server) w) = Ok (loader_promises server) /\
  fst (initializeMetadata server w) = Ok (Promise_all (loader_promises server)) /\
  snd (initializeMetadata server w) = snd (call_all (loaders server) w) /\
  let w1 := snd (call_all (loaders server) w) in
  requests w1
  = (requests w ++ (awaited <$> Promise_all (loader_promises server)))%list /\
  globalElements (cache w1) = Some ∅ /\
  widgetElements (cache w1) = Some ∅.
Proof.
  unfold initializeMetadata, loader_promises, loaders, elements_promise,
    cacheWidgetElements, cacheGlobalElements, cacheElements.
  rewrite bind_run.
  destruct (serverSupports server "getElements"); simpl;
    repeat split; rewrite <- ?app_assoc; reflexivity.
Qed.


(** Every callback that waits for a request is one of the six. *)
Lemma loader_callbacks (R : world -> world -> Prop) :
  (forall results,
     preserves R (cache_themes_of results)
     /\ preserves R (cache_widget_instances_of results)
     /\ preserves R (cache_widget_descriptors_of results)
     /\ preserves R (cache_stack_descriptors_of results)
     /\ (forall field, preserves R (cache_elements_of field results))
     /\ preserves R (cache_stack_instances_of results)) ->
  forall pd results,
    pd ∈ Promise_all (loader_promises server) ->
    preserves R (on_fulfilled pd results).
Proof.
  intros HR pd results Hin.
  destruct (HR results) as (Hth & Hwi & Hwd & Hsd & Hel & Hsi).
  unfold loader_promises, elements_promise in Hin.
  destruct (serverSupports server "getElements"); simpl in Hin;
    repeat (apply elem_of_cons in Hin as [->|Hin]; [simpl; auto|]);
    by apply elem_of_nil in Hin.
Qed.

(** Awaiting [initializeMetadata]: the requests complete on the session
    the synchronous part left. *)
Lemma await_initializeMetadata (schedule : list request) (w : world) :
  let p := Promise_all (loader_promises server) in
  let w1 := snd (call_all (loaders server) w) in
  await server schedule (initializeMetadata server) w
  = (outcome_of p (fst (settle server schedule p [] w1)),
     snd (settle server schedule p [] w1)).
Proof.
  intros p w1. destruct (call_all_loaders w) as (_ & Hstart & Hworld & _).
  unfold await. destruct (initializeMetadata server w) as [r0 w0].
  cbn [fst snd] in Hstart, Hworld. subst r0 w0. fold p w1.
  by destruct (settle server schedule p [] w1).
Qed.


Lemma map_get_empty (k : value) : map_get k ∅ = VUndefined.
Proof. destruct k as [p| |]; [|reflexivity..]. simpl. by rewrite lookup_empty. Qed.

(** C8, as the code has it. When the server does not list elements,
    initialization leaves both element maps empty and sends no request
    for elements, whatever the order in which the other requests
    complete. Matching a global element against such a cache gives the
    plain outcome of a miss, [null] with the warning that nothing
    matches, as it does against any empty map of global elements. *)
Theorem no_element_listing (schedule : list request) (w : world) :
  serverSupports server "getElements" = false ->
  let w' := snd (await server schedule (initializeMetadata server) w) in
  globalElements (cache w') = Some ∅ /\
  widgetElements (cache w') = Some ∅ /\
  (forall r, r ∈ requests w' -> r ∈ requests w \/ r.1 <> GetElements) /\
  (forall env path metadata tag (w0 : world),
     globalElements (cache w0) = Some ∅ ->
     readMetadataFromDisk env path (elementMetadataJson (constants env)) false w0
       = (Ok metadata, w0) ->
     is_global_element_file (classify env path) = true ->
     get metadata "tag" = Ok tag ->
     getMatchingElement env path w0
     = (Ok VNull,
        with_log (Warn "noMatchingElementFound" (path_args path)) w0)).
Proof.
  intros Hunsupported w'.
  destruct (call_all_loaders w) as (_ & _ & _ & Hrequests & Hglobal & Hwidget).
  unfold w'. rewrite await_initializeMetadata. cbn [snd].
  set (p := Promise_all (loader_promises server)) in *.
  set (w1 := snd (call_all (loaders server) w)) in *.
  assert (Hp : forall pd results, pd ∈ p ->
                 preserves same_elements (on_fulfilled pd results)
                 /\ preserves cache_only (on_fulfilled pd results)).
  { intros pd results Hin.
    destruct (callbacks_same_elements results) as (Hth & Hwi & Hwd & Hsd & Hsi).
    destruct (callbacks_cache_only results) as (Cth & Cwi & Cwd & Csd & _ & Csi).
    unfold p, loader_promises, elements_promise in Hin.
    rewrite Hunsupported in Hin. simpl in Hin.
    repeat (apply elem_of_cons in Hin as [->|Hin]; [simpl; auto|]).
    by apply elem_of_nil in Hin. }
  destruct (settle_preserves same_elements server schedule p [] w1)
    as [Hg Hw]; [intros pd results Hin; by apply Hp|].
  destruct (settle_preserves cache_only server schedule p [] w1)
    as (_ & _ & Hsame & _); [intros pd results Hin; by apply Hp|].
  split; [by rewrite Hg|]. split; [by rewrite Hw|]. split.
  - intros r Hr. rewrite Hsame, Hrequests in Hr.
    apply elem_of_app in Hr as [Hr|Hr]; [by left|]. right.
    unfold p, loader_promises, elements_promise in Hr.
    rewrite Hunsupported in Hr. simpl in Hr.
    repeat (apply elem_of_cons in Hr as [->|Hr]; [discriminate|]).
    by apply elem_of_nil in Hr.
  - intros env path metadata tag w0 Hempty Hread Hkind Htag.
    unfold getMatchingElement. rewrite bind_run, Hread, Hkind. run.
    rewrite Hempty. simpl. rewrite Htag. simpl.
    by rewrite map_get_empty.
Qed.

End Initialization.

(** ** The two partitions of widget instances *)

Section Partitions.

Lemma set_widgetInstances_same m w :
  widgetInstances (cache w) = Some m ->
  with_cache (set_widgetInstances (Some m)) w = w.
Proof. destruct w as [[] ? ? ? ?]. simpl. by intros ->. Qed.

Lemma set_widgetInstances_twice m1 m2 w :
  with_cache (set_widgetInstances m2) (with_cache (set_widgetInstances m1) w)
  = with_cache (set_widgetInstances m2) w.
Proof. reflexivity. Qed.

(** The instances of one widget go into the map one after the other. *)
Lemma cache_instances_run widgetDesc instances m w :
  Forall (fun instance => is_object instance = true) instances ->
  widgetInstances (cache w) = Some m ->
  for_each (cache_widget_instance widgetDesc) instances w
  = (Ok tt,
     with_cache
       (set_widgetInstances
          (Some (store_entries (instance_entry widgetDesc <$> instances) m)))
       w).
Proof.
  intros Hobjects. revert m w.
  induction Hobjects as [|instance instances Hobject _ IH]; intros m w Hm.
  - simpl. by rewrite set_widgetInstances_same.
  - destruct instance as [|?|props]; try discriminate.
    cbn [for_each]. rewrite bind_run_unit.
    rewrite (cache_widget_instance_object widgetDesc props m w Hm).
    erewrite IH by reflexivity. rewrite set_widgetInstances_twice. reflexivity.
Qed.

(** The callback of a partition stores the entries of its widgets. *)
Lemma cache_widget_instances_run results widgets m w :
  has_items results widgets ->
  Forall is_widget_group widgets ->
  widgetInstances (cache w) = Some m ->
  cache_widget_instances_of results w
  = (Ok tt,
     with_cache
       (set_widgetInstances (Some (store_entries (partition_entries widgets) m)))
       w).
Proof.
  intros (data & Hdata & Hitems) Hwidgets Hm.
  unfold cache_widget_instances_of, data_items. rewrite !bind_run.
  unfold lift at 1. rewrite Hdata. unfold lift at 1. rewrite Hitems.
  cbn [truthy]. rewrite bind_run. unfold lift at 1. cbn [as_array].
  clear Hdata Hitems. revert m w Hm.
  induction Hwidgets as [|widget widgets Hwidget _ IH]; intros m w Hm.
  - simpl. by rewrite set_widgetInstances_same.
  - destruct Hwidget as (Hobject & instances & Hinstances & Hobjects).
    destruct widget as [|?|props]; try discriminate.
    cbn [for_each]. rewrite bind_run_unit.
    rewrite !bind_run. unfold lift at 1. cbn [json_clone].
    rewrite bind_run. unfold lift at 1. cbn [delete_prop].
    rewrite bind_run. rewrite bind_run. unfold lift at 1. rewrite Hinstances.
    unfold compose, lift at 1. cbn [as_array].
    rewrite (cache_instances_run _ instances m w Hobjects Hm).
    erewrite IH by reflexivity. rewrite set_widgetInstances_twice.
    unfold partition_entries. cbn [mbind list_bind].
    unfold store_entries. rewrite foldl_app.
    unfold widget_entries, field. rewrite Hinstances. reflexivity.
Qed.

(** Among entries stored one after the other, the last one under a key
    is the one found, whatever was in the map before. *)
Lemma store_entries_later_wins entries (m : jsmap) k :
  k ∈ entries.*1 -> store_entries entries m !! k = store_entries entries ∅ !! k.
Proof.
  unfold store_entries. revert m.
  induction entries as [|[k' v] entries IH] using rev_ind; intros m Hin.
  - by apply elem_of_nil in Hin.
  - rewrite !foldl_app. simpl. destruct (decide (k' = k)) as [->|Hne].
    + by rewrite !lookup_insert_eq.
    + rewrite !lookup_insert_ne by done. apply IH.
      rewrite fmap_app in Hin. apply elem_of_app in Hin as [Hin|Hin]; [done|].
      apply list_elem_of_singleton in Hin. simpl in Hin. congruence.
Qed.

Context (server : Server).

(** C3, as the code has it. The two callbacks of [cacheWidgetInstances]
    run in the order in which the two requests complete, each storing the
    instances of its partition. The cache that results is the one
    partition stored over the other in that order: for a name and version
    that both partitions list, the record of the request that completed
    last is the one found. With the request for the widgets Oracle
    supplies completing first, that is the record a user created. *)
Theorem cacheWidgetInstances_in_completion_order
    (w : world) (oracle user : value) (oracleItems userItems : list value) :
  respond server oracleWidgets = Ok oracle ->
  respond server userWidgets = Ok user ->
  has_items oracle oracleItems -> has_items user userItems ->
  Forall is_widget_group oracleItems -> Forall is_widget_group userItems ->
  let fromOracle := partition_entries oracleItems in
  let fromUser := partition_entries userItems in
  let oracleFirst :=
    await server [oracleWidgets; userWidgets] cacheWidgetInstances w in
  let userFirst :=
    await server [userWidgets; oracleWidgets] cacheWidgetInstances w in
  (fst oracleFirst = Fulfilled /\
   widgetInstances (cache (snd oracleFirst))
   = Some (store_entries fromUser (store_entries fromOracle ∅))) /\
  (fst userFirst = Fulfilled /\
   widgetInstances (cache (snd userFirst))
   = Some (store_entries fromOracle (store_entries fromUser ∅))) /\
  (forall k, k ∈ fromUser.*1 ->
     store_entries fromUser (store_entries fromOracle ∅) !! k
     = store_entries fromUser ∅ !! k) /\
  (forall k, k ∈ fromOracle.*1 ->
     store_entries fromOracle (store_entries fromUser ∅) !! k
     = store_entries fromOracle ∅ !! k).
Proof.
  intros Horacle Huser HoracleItems HuserItems HoracleGroups HuserGroups
    fromOracle fromUser oracleFirst userFirst.
  split; [|split; [|split]].
  - unfold oracleFirst, await, cacheWidgetInstances, call. simpl.
    rewrite Horacle.
    erewrite (cache_widget_instances_run oracle oracleItems);
      [|eassumption|eassumption|reflexivity].
    simpl. rewrite Huser.
    erewrite (cache_widget_instances_run user userItems);
      [|eassumption|eassumption|reflexivity].
    split; reflexivity.
  - unfold userFirst, await, cacheWidgetInstances, call. simpl.
    rewrite Huser.
    erewrite (cache_widget_instances_run user userItems);
      [|eassumption|eassumption|reflexivity].
    simpl. rewrite Horacle.
    erewrite (cache_widget_instances_run oracle oracleItems);
      [|eassumption|eassumption|reflexivity].
    split; reflexivity.
  - intros k. apply store_entries_later_wins.
  - intros k. apply store_entries_later_wins.
Qed.

End Partitions.

(** ** The themes cache *)

Section Themes.

Lemma set_themes_same m w :
  themes (cache w) = Some m -> with_cache (set_themes (Some m)) w = w.
Proof. destruct w as [[] ? ? ? ?]. simpl. by intros ->. Qed.

(** The callback of [cacheThemes] stores every theme under its name, in
    the order the server lists them. *)
Lemma cache_themes_run results remote w :
  has_items results remote ->
  Forall (fun theme => is_object theme = true) remote ->
  themes (cache w) = Some ∅ ->
  cache_themes_of results w
  = (Ok tt, with_cache (set_themes (Some (themes_of remote))) w).
Proof.
  intros (data & Hdata & Hitems) Hremote Hempty.
  unfold cache_themes_of, data_items, themes_of. rewrite !bind_run.
  unfold lift at 1. rewrite Hdata. unfold lift at 1. rewrite Hitems.
  unfold compose, lift at 1. cbn [as_array].
  clear Hdata Hitems. revert w Hempty. generalize (∅ : jsmap) as m.
  induction Hremote as [|theme remote Htheme _ IH]; intros m w Hm.
  - simpl. by rewrite set_themes_same.
  - cbn [for_each foldl]. rewrite bind_run_unit. run. rewrite Hm. simpl.
    rewrite (get_object theme "name" Htheme). simpl.
    erewrite IH by reflexivity. reflexivity.
Qed.

End Themes.

(** * The claims on the concrete session *)

(** The scenario of the claim: Cart Summary, version 2, cached with no
    layouts, matches with [elementized] false. *)
Lemma getMatchingWidget_cart_summary :
  getMatchingWidget Example.env
    "widget/Cart Summary/display.template" Example.cart_session
  = (Ok (VObj [("repositoryId", VStr "W1"); ("widgetType", VStr "cart");
               ("elementized", VBool false)]),
     with_log (Info "matchingWidgetFound"
                 (path_args "widget/Cart Summary/display.template"))
              Example.cart_session).
Proof.
  assert (Hds : Forall is_descriptor [Example.cartDescriptor]).
  { repeat constructor. exists []. reflexivity. }
  destruct (getMatchingWidget_scans_descriptors
              Example.env "widget/Cart Summary/display.template"
              Example.cart_session
              (VObj [("displayName", VStr "Cart Summary"); ("version", VNum 2);
                     ("etag", Example.etag_of "widget/Cart Summary/display.template")])
              (VStr "Cart Summary") (VNum 2) [Example.cartDescriptor]
              eq_refl eq_refl eq_refl eq_refl Hds)
    as [layouts [Hl H]].
  injection Hl as <-. exact H.
Defined.

(** A path that is not tracked at all, with the Cart Summary descriptor
    cached. *)
Lemma matchers_without_local_record_example :
  getMatchingTheme Example.env "widget/Cart Summary/instances/Cart"
    Example.untracked_session
  = (Throw TypeError, Example.untracked_session) /\
  getMatchingWidget Example.env "widget/Cart Summary/instances/Cart"
    Example.untracked_session
  = (Throw TypeError, Example.untracked_session) /\
  fst (getMatchingWidgetInstance Example.env "widget/Cart Summary/instances/Cart"
         Example.untracked_session)
  = Ok VNull.
Proof.
  destruct (matchers_without_local_record Example.env
              "widget/Cart Summary/instances/Cart" Example.untracked_session)
    as (Htheme & _ & _ & Hwidget & _ & _ & Hinstance).
  split; [apply Htheme; reflexivity|].
  split; [exact (Hwidget eq_refl)|].
  rewrite Hinstance by reflexivity. reflexivity.
Defined.

(** Without a widget instance record the widget instance matcher reports
    no match; it does not fail. *)
Lemma getMatchingWidgetInstance_without_record :
  no_record Example.env "widget/Cart Summary/instances/Cart"
    (widgetInstanceMetadataJson (constants Example.env))
    Example.untracked_session /\
  fst (getMatchingWidgetInstance Example.env "widget/Cart Summary/instances/Cart"
         Example.untracked_session)
  = Ok VNull.
Proof. split; reflexivity. Qed.

Lemma cartGroup_is_widget_group id : is_widget_group (Example.cartGroup id).
Proof.
  split; [reflexivity|]. eexists. split; [reflexivity|].
  repeat constructor.
Qed.

Lemma results_have_items items : has_items (Example.results items) items.
Proof. eexists. split; reflexivity. Qed.

(** Both partitions list Cart Summary, version 2: with the request for
    the widgets of Oracle completing first, the instance a user created
    is the one cached. *)
Lemma cacheWidgetInstances_oracle_first :
  (fun found => field found "repositoryId")
    <$> (m ← widgetInstances
               (cache (snd (await Example.overlapping_server
                              [oracleWidgets; userWidgets] cacheWidgetInstances
                              (Example.fresh_session []))));
         m !! Example.cartKey)
  = Some (VStr "from-user").
Proof.
  destruct (cacheWidgetInstances_in_completion_order
              Example.overlapping_server (Example.fresh_session [])
              (Example.results [Example.cartGroup "from-oracle"])
              (Example.results [Example.cartGroup "from-user"])
              [Example.cartGroup "from-oracle"] [Example.cartGroup "from-user"]
              eq_refl eq_refl (results_have_items _) (results_have_items _)
              (Forall_cons _ _ _ (cartGroup_is_widget_group _) (Forall_nil _))
              (Forall_cons _ _ _ (cartGroup_is_widget_group _) (Forall_nil _)))
    as ((_ & Hcache) & _).
  rewrite Hcache. reflexivity.
Defined.

(** The same two answers completing in the other order leave another
    cache: the widget instances depend on the order of completion. *)
Lemma widgetInstances_depend_on_completion_order :
  widgetInstances
    (cache (snd (await Example.overlapping_server
                   [oracleWidgets; userWidgets] cacheWidgetInstances
                   (Example.fresh_session []))))
  <> widgetInstances
       (cache (snd (await Example.overlapping_server
                      [userWidgets; oracleWidgets] cacheWidgetInstances
                      (Example.fresh_session [])))).
Proof.
  intros Heq.
  apply (f_equal (fun o => m ← o; m !! Example.cartKey)) in Heq.
  vm_compute in Heq. discriminate.
Qed.

(** A widget record with a widget type: the predicate finds the cached
    descriptor of that type and version. *)
Lemma widgetExistsOnTarget_by_type :
  widgetExistsOnTarget Example.env "widget/Cart Summary" Example.logo_session
  = (Ok Example.cartDescriptor, Example.logo_session).
Proof.
  destruct (existsOnTarget_and_matchers Example.env "widget/Cart Summary"
              Example.logo_session) as (_ & _ & _ & Hwidget & _).
  assert (Hobjects : Forall (fun d => is_object d = true) [Example.cartDescriptor])
    by (repeat constructor).
  exact (Hwidget
           (VObj [("displayName", VStr "Cart Summary"); ("version", VNum 2);
                  ("widgetType", VStr "cart");
                  ("etag", Example.etag_of "widget/Cart Summary")])
           (VStr "cart") (VNum 2) [Example.cartDescriptor]
           eq_refl eq_refl eq_refl eq_refl Hobjects).
Defined.

(** A widget tracked under the name and version of a cached descriptor
    but under another widget type: the matcher finds the descriptor, the
    predicate finds nothing. And an element of a widget: the matcher
    finds its widget, the predicate looks among the global elements and
    finds nothing. *)
Lemma existsOnTarget_disagrees :
  fst (getMatchingWidget Example.env "widget/Cart Summary" Example.retyped_session)
  = Ok (VObj [("repositoryId", VStr "W1"); ("widgetType", VStr "cart");
              ("elementized", VBool false)]) /\
  fst (widgetExistsOnTarget Example.env "widget/Cart Summary"
         Example.retyped_session)
  = Ok VUndefined /\
  fst (getMatchingElement Example.env "widget/Cart Summary/element/Logo"
         Example.logo_session)
  = Ok (VObj [("tag", VStr "header-logo"); ("widgetId", VStr "W1")]) /\
  fst (elementExistsOnTarget Example.env "widget/Cart Summary/element/Logo"
         Example.logo_session)
  = Ok VUndefined.
Proof. repeat split; vm_compute; reflexivity. Qed.

(** The stack instance of the example server, matched by name and
    version. *)
Lemma getMatchingStackInstance_tracker :
  fst (getMatchingStackInstance Example.env
         "stack/Progress Tracker/instances/Progress Tracker"
         Example.tracker_session)
  = Ok (VObj [("repositoryId", VStr "SI1"); ("version", VNum 1);
              ("displayName", VStr "Tracker")]).
Proof.
  destruct (stack_matchers Example.env
              "stack/Progress Tracker/instances/Progress Tracker"
              Example.tracker_session
              (VObj [("name", VStr "Progress Tracker");
                     ("displayName", VStr "Tracker"); ("version", VNum 1);
                     ("etag",
                      Example.etag_of
                        "stack/Progress Tracker/instances/Progress Tracker")]))
    as [_ Hinstance].
  rewrite (Hinstance (VStr "Progress Tracker") (VNum 1)
             {[ PStr (makeWidgetInstanceKey (VStr "Progress Tracker") (VNum 1))
                := Example.trackerInstance ]}
             eq_refl eq_refl eq_refl eq_refl).
  reflexivity.
Defined.

(** The cached stack instance has a descriptor and a current layout; what
    the matcher returns has neither the identifier of the descriptor nor
    those of the layout. *)
Lemma getMatchingStackInstance_three_fields :
  (m ← stackInstances (cache Example.tracker_session);
   m !! PStr (makeWidgetInstanceKey (VStr "Progress Tracker") (VNum 1)))
  = Some Example.trackerInstance /\
  field (field Example.trackerInstance "descriptor") "repositoryId" = VStr "SD1" /\
  truthy (field Example.trackerInstance "currentLayout") = true /\
  exists found,
    fst (getMatchingStackInstance Example.env
           "stack/Progress Tracker/instances/Progress Tracker"
           Example.tracker_session) = Ok found /\
    found = VObj [("repositoryId", VStr "SI1"); ("version", VNum 1);
                  ("displayName", VStr "Tracker")] /\
    field found "descriptorRepositoryId" = VUndefined /\
    field found "layoutInstanceId" = VUndefined /\
    field found "layoutDescriptorId" = VUndefined.
Proof.
  repeat split; try (vm_compute; reflexivity).
  eexists. repeat split; vm_compute; reflexivity.
Qed.


(** Against a server that does not list elements both maps are empty
    after initialization. *)
Lemma no_element_listing_example :
  globalElements (cache Example.unsupported_session) = Some ∅ /\
  widgetElements (cache Example.unsupported_session) = Some ∅.
Proof.
  destruct (no_element_listing (Example.server_of false [])
              Example.every_request
              (Example.fresh_session Example.logo_tracked) eq_refl)
    as (Hglobal & Hwidget & _).
  split; assumption.
Defined.

(** A tracked global element matched against a server that does not list
    elements and against one that lists none: the same result and the
    same line in the log. *)
Lemma unsupported_is_reported_as_not_found :
  getMatchingElement Example.env "element/Company Logo" Example.unsupported_session
  = (Ok VNull,
     with_log (Warn "noMatchingElementFound" (path_args "element/Company Logo"))
              Example.unsupported_session) /\
  getMatchingElement Example.env "element/Company Logo" Example.no_elements_session
  = (Ok VNull,
     with_log (Warn "noMatchingElementFound" (path_args "element/Company Logo"))
              Example.no_elements_session) /\
  serverSupports (Example.server_of false []) "getElements" = false /\
  serverSupports (Example.server_of true []) "getElements" = true.
Proof. repeat split; vm_compute; reflexivity. Qed.

(** Updating the version of an untracked widget fails; updating a tracked
    one writes the merged record. *)
Lemma updateMetadata_example :
  updateMetadata Example.env "widget/Cart Summary" "widget.json"
    (VObj [("version", VNum 3)]) Example.untracked_session
  = (Throw TypeError, Example.untracked_session) /\
  updateMetadata Example.env "widget/Cart Summary" "widget.json"
    (VObj [("version", VNum 3); ("elementized", VBool true)]) Example.cart_session
  = (Ok tt,
     with_files
       (<["./.ccc/widget/Cart Summary/widget.json" :=
           Example.show (VObj [("displayName", VStr "Cart Summary");
                               ("version", VNum 3);
                               ("elementized", VBool true)])]>)
       Example.cart_session).
Proof.
  split.
  - destruct (updateMetadata_merges Example.env "widget/Cart Summary"
                "widget.json" (VObj [("version", VNum 3)])
                Example.untracked_session) as [Habsent _].
    apply (Habsent "version" []); reflexivity.
  - destruct (updateMetadata_merges Example.env "widget/Cart Summary"
                "widget.json"
                (VObj [("version", VNum 3); ("elementized", VBool true)])
                Example.cart_session) as [_ Hpresent].
    destruct (Hpresent "./.ccc/widget/Cart Summary/widget.json"
                (Example.show Example.cartSummaryInstance)
                [("displayName", VStr "Cart Summary"); ("version", VNum 2)]
                [("version", VNum 3); ("elementized", VBool true)]
                eq_refl eq_refl eq_refl eq_refl) as [Hwritten _].
    exact Hwritten.
Defined.

(** Updating an untracked widget with no key at all does not fail: it
    creates the metadata file, holding [null]. *)
Lemma updateMetadata_without_keys_creates_file :
  no_record Example.env "widget/Cart Summary" "widget.json"
    Example.untracked_session /\
  fst (updateMetadata Example.env "widget/Cart Summary" "widget.json" (VObj [])
         Example.untracked_session) = Ok tt /\
  files (snd (updateMetadata Example.env "widget/Cart Summary" "widget.json"
                (VObj []) Example.untracked_session))
    !! "./.ccc/widget/Cart Summary/widget.json"
  = Some "null".
Proof. repeat split; vm_compute; reflexivity. Qed.

(** The local theme Dark Theme matches the remote theme of that name. *)
Lemma getMatchingTheme_named :
  fst (getMatchingTheme Example.env "theme/Dark Theme" Example.named_theme_session)
  = Ok (VObj [("repositoryId", VStr "T2")]).
Proof.
  assert (Hobjects : Forall (fun theme => is_object theme = true)
                       [Example.namedRemoteTheme])
    by (repeat constructor).
  exact (getMatchingTheme_by_name Example.env "theme/Dark Theme"
           Example.named_theme_session
           (VObj [("displayName", VStr "Dark Theme");
                  ("etag", Example.etag_of "theme/Dark Theme")])
           (PStr "Dark Theme") [Example.namedRemoteTheme]
           eq_refl eq_refl eq_refl Hobjects).
Defined.

(** A remote theme displayed as Dark Theme but named otherwise is cached
    under its name, and the local theme Dark Theme does not match it. *)
Lemma getMatchingTheme_ignores_displayName :
  themes (cache Example.theme_session)
  = Some {[ PStr "dark" := Example.darkRemoteTheme ]} /\
  field Example.darkRemoteTheme "displayName"
  = field Example.darkTheme "displayName" /\
  fst (getMatchingTheme Example.env "theme/Dark Theme" Example.theme_session)
  = Ok VNull.
Proof. repeat split; vm_compute; reflexivity. Qed.

(** * More of the module *)

(** ** Where metadata is kept *)

Section MetadataPaths.

Local Open Scope list_scope.

Context (env : Env).

Lemma indexOf_absent (x : string) (tokens : list string) :
  x ∉ tokens -> indexOf x tokens = -1.
Proof.
  induction tokens as [|t tokens IH]; intros Hx; [reflexivity|].
  apply not_elem_of_cons in Hx as [Hne Hx]. simpl.
  destruct (String.eqb_spec t x) as [->|_]; [done|].
  by rewrite (IH Hx).
Qed.

Lemma indexOf_first (x : string) (before after : list string) :
  x ∉ before ->
  indexOf x (before ++ x :: after) = Z.of_nat (length before).
Proof.
  induction before as [|t before IH]; intros Hx; simpl.
  - by rewrite String.eqb_refl.
  - apply not_elem_of_cons in Hx as [Hne Hx].
    destruct (String.eqb_spec t x) as [->|_]; [done|].
    rewrite (IH Hx).
    destruct (Z.eqb_spec (Z.of_nat (length before)) (-1)); lia.
Qed.

Lemma slice_to_anchor (before after : list string) (token : string) :
  slice_to (Z.of_nat (length before) + 2) (before ++ token :: after)
  = before ++ token :: take 1 after.
Proof.
  unfold slice_to.
  replace (Z.to_nat (Z.of_nat (length before) + 2))
    with (length before + 2)%nat by lia.
  induction before as [|t before IH]; simpl; [|by rewrite IH].
  destruct after; reflexivity.
Qed.

(** Different names in the list of metadata names compare as different. *)
Lemma metadata_names_differ (c : Constants) (i j : nat) (a b : string) :
  NoDup (metadata_names c) ->
  metadata_names c !! i = Some a -> metadata_names c !! j = Some b ->
  i <> j -> String.eqb a b = false.
Proof.
  intros Hnodup Ha Hb Hij. apply String.eqb_neq. intros ->.
  apply Hij. by apply (NoDup_lookup _ i j b Hnodup).
Qed.

Ltac dispatch_type Hnodup n :=
  let differ j :=
    rewrite (metadata_names_differ (constants env) n j _ _ Hnodup eq_refl eq_refl)
      by lia in
  match n with
  | 3%nat => differ 0%nat; differ 1%nat; differ 2%nat
  | 4%nat => differ 0%nat; differ 1%nat; differ 2%nat; differ 3%nat
  | 5%nat => differ 0%nat; differ 1%nat; differ 2%nat; differ 3%nat; differ 4%nat
  | 6%nat => differ 0%nat; differ 1%nat; differ 2%nat; differ 3%nat; differ 4%nat;
             differ 5%nat
  end;
  rewrite String.eqb_refl; cbn [orb].

(** X1. The stack, stack instance, widget and widget instance metadata
    of a path are kept below the first [stack], [instances] or [widget]
    token of the path and the name that follows it: what comes after
    that name does not matter, so that every file of a widget leads to
    the one metadata file of the widget. *)
Theorem getMetadataPath_anchored
    (path type token subDir : string) (baseDir : value)
    (before after : list string) :
  NoDup (metadata_names (constants env)) ->
  (type, token) ∈ anchors (constants env) ->
  splitFromBaseDir env path = (baseDir, subDir) ->
  split_on "/" subDir = before ++ token :: after ->
  token ∉ before ->
  getMetadataPath env path type
  = Some (to_string baseDir +:+ "/" +:+ trackingDir (constants env) +:+ "/"
            +:+ join "/" (before ++ token :: take 1 after) +:+ "/" +:+ type).
Proof.
  intros Hnodup Hanchor Hsplit Htokens Hfirst.
  unfold anchors in Hanchor.
  repeat (apply elem_of_cons in Hanchor as [[= -> ->]|Hanchor]);
    [..|by apply elem_of_nil in Hanchor];
    unfold getMetadataPath; rewrite Hsplit; cbv beta iota zeta;
    rewrite Htokens, (indexOf_first _ before after Hfirst), slice_to_anchor.
  - dispatch_type Hnodup 3%nat. reflexivity.
  - dispatch_type Hnodup 4%nat. reflexivity.
  - dispatch_type Hnodup 5%nat. reflexivity.
  - dispatch_type Hnodup 6%nat. reflexivity.
Qed.

(** X2. When the path has no such token, [indexOf] gives -1 and the
    slice keeps the first token of the path alone: the metadata is then
    looked for directly below that first token, whatever the rest of the
    path is. *)
Theorem getMetadataPath_without_anchor
    (path type token subDir : string) (baseDir : value) :
  NoDup (metadata_names (constants env)) ->
  (type, token) ∈ anchors (constants env) ->
  splitFromBaseDir env path = (baseDir, subDir) ->
  token ∉ split_on "/" subDir ->
  getMetadataPath env path type
  = Some (to_string baseDir +:+ "/" +:+ trackingDir (constants env) +:+ "/"
            +:+ join "/" (take 1 (split_on "/" subDir)) +:+ "/" +:+ type).
Proof.
  intros Hnodup Hanchor Hsplit Habsent.
  unfold anchors in Hanchor.
  repeat (apply elem_of_cons in Hanchor as [[= -> ->]|Hanchor]);
    [..|by apply elem_of_nil in Hanchor];
    unfold getMetadataPath; rewrite Hsplit; cbv beta iota zeta;
    rewrite (indexOf_absent _ _ Habsent);
    change (slice_to (-1 + 2) (split_on "/" subDir))
      with (take 1 (split_on "/" subDir)).
  - dispatch_type Hnodup 3%nat. reflexivity.
  - dispatch_type Hnodup 4%nat. reflexivity.
  - dispatch_type Hnodup 5%nat. reflexivity.
  - dispatch_type Hnodup 6%nat. reflexivity.
Qed.

End MetadataPaths.

(** ** Reading and updating records *)

Section Records.

Local Open Scope list_scope.

Context (env : Env).

Lemma readMetadataFromDisk_session path type excludeEtag w :
  snd (readMetadataFromDisk env path type excludeEtag w) = w.
Proof.
  unfold readMetadataFromDisk. rewrite bind_run. unfold gets. cbv beta iota.
  destruct (file_text (getMetadataPath env path type) w) as [text|];
    [|reflexivity].
  rewrite bind_run. unfold lift.
  destruct (JSON_parse env text) as [json|e]; [|reflexivity].
  destruct excludeEtag; reflexivity.
Qed.

(** X3. Reading a record leaves the session as it is. The record read
    without excluding the etag is the record read with the etag excluded,
    an object, with its [etag] set to what [eTagFor] gives for the path:
    an etag written in the file itself is never returned, and every other
    field is as in the file. The one other result is [null], for a path
    without a metadata file. *)
Theorem readMetadataFromDisk_attaches_etag
    (path type : string) (w : world) (record : value) :
  fst (readMetadataFromDisk env path type false w) = Ok record ->
  snd (readMetadataFromDisk env path type false w) = w /\
  ((no_record env path type w /\ record = VNull) \/
   exists props,
     fst (readMetadataFromDisk env path type true w) = Ok (VObj props) /\
     record = VObj (assoc_set "etag" (eTagFor env path) props) /\
     get record "etag" = Ok (eTagFor env path) /\
     forall k, k <> "etag" -> get record k = get (VObj props) k).
Proof.
  intros Hread. split; [apply readMetadataFromDisk_session|].
  revert Hread. unfold no_record, readMetadataFromDisk.
  rewrite !bind_run. unfold gets. cbv beta iota.
  destruct (file_text (getMetadataPath env path type) w) as [text|];
    [|intros [= <-]; by left].
  rewrite !bind_run. unfold lift.
  destruct (JSON_parse env text) as [json|e]; [|discriminate].
  cbn [negb fst]. destruct json as [p|items|props]; try discriminate.
  intros [= <-]. right. exists props. split; [reflexivity|].
  split; [reflexivity|]. simpl. split.
  - by rewrite assoc_set_same.
  - intros k Hk. by rewrite assoc_set_other.
Qed.

(** What [updateMetadata] does to the file of an existing record. *)
Lemma updateMetadata_writes path type metadataPath text props extra w :
  getMetadataPath env path type = Some metadataPath ->
  files w !! metadataPath = Some text ->
  JSON_parse env text = Ok (VObj props) ->
  updateMetadata env path type (VObj extra) w
  = (Ok tt,
     with_files
       (<[metadataPath := JSON_stringify env (VObj (merge_props props extra))]>)
       w).
Proof.
  intros Hpath Hfile Hparse.
  unfold updateMetadata, readMetadataFromDisk, file_text.
  rewrite Hpath. run. rewrite Hfile. simpl. rewrite Hparse. simpl.
  pose proof (merge_run extra (extra.*1) props) as Hmerge.
  unfold mbind, result_bind in Hmerge. simpl in Hmerge. rewrite Hmerge.
  reflexivity.
Qed.

Lemma assoc_set_id k v props :
  assoc k props = Some v -> assoc_set k v props = props.
Proof.
  induction props as [|[k' v'] props IH]; simpl; [discriminate|].
  destruct (String.eqb_spec k k') as [->|Hne].
  - by intros [= ->].
  - intros Hk. by rewrite (IH Hk).
Qed.

Lemma foldl_set_id (f : string -> value) keys record :
  (forall k, k ∈ keys -> assoc k record = Some (f k)) ->
  foldl (fun acc key => assoc_set key (f key) acc) record keys = record.
Proof.
  induction keys as [|key keys IH]; intros Hstored; [reflexivity|].
  cbn [foldl]. rewrite assoc_set_id by (apply Hstored; left).
  apply IH. intros k Hk. apply Hstored. by right.
Qed.

(** Storing the same keys a second time changes nothing. *)
Lemma merge_props_twice props extra :
  merge_props (merge_props props extra) extra = merge_props props extra.
Proof.
  unfold merge_props at 1.
  apply (foldl_set_id (fun key => default VUndefined (assoc key extra))).
  intros k Hk. rewrite assoc_merge_props.
  destruct (assoc k extra) eqn:Hassoc; [reflexivity|].
  by apply assoc_None_keys in Hassoc.
Qed.

(** X4. When the text [updateMetadata] writes parses back to the record
    it was made from, reading the path again, with the etag excluded,
    gives the merged record: the supplied keys with the supplied values,
    the other keys as they were. The update touches this one file and
    nothing else of the session. *)
Theorem updateMetadata_then_read
    (path type metadataPath text : string) (props extra : list (string * value))
    (w : world) :
  getMetadataPath env path type = Some metadataPath ->
  files w !! metadataPath = Some text ->
  JSON_parse env text = Ok (VObj props) ->
  JSON_parse env (JSON_stringify env (VObj (merge_props props extra)))
  = Ok (VObj (merge_props props extra)) ->
  let w' := snd (updateMetadata env path type (VObj extra) w) in
  readMetadataFromDisk env path type true w'
  = (Ok (VObj (merge_props props extra)), w') /\
  (forall k v, assoc k extra = Some v ->
               get (VObj (merge_props props extra)) k = Ok v) /\
  (forall other, other <> metadataPath -> files w' !! other = files w !! other) /\
  cache w' = cache w /\ log w' = log w /\ requests w' = requests w.
Proof.
  intros Hpath Hfile Hparse Hback w'. unfold w'.
  rewrite (updateMetadata_writes _ _ _ _ _ _ _ Hpath Hfile Hparse). cbn [snd].
  split; [|split; [|split; [|by repeat split]]].
  - unfold readMetadataFromDisk, file_text. rewrite Hpath. run.
    rewrite lookup_insert_eq. simpl. rewrite Hback. reflexivity.
  - intros k v Hk. simpl. by rewrite assoc_merge_props, Hk.
  - intros other Hother. simpl. by rewrite lookup_insert_ne.
Qed.

(** X5. When the text [updateMetadata] writes parses back to the record
    it was made from, the update is idempotent: made a second time, with
    the same keys, it succeeds and leaves the session as the first update
    left it. *)
Theorem updateMetadata_idempotent
    (path type metadataPath text : string) (props extra : list (string * value))
    (w : world) :
  getMetadataPath env path type = Some metadataPath ->
  files w !! metadataPath = Some text ->
  JSON_parse env text = Ok (VObj props) ->
  JSON_parse env (JSON_stringify env (VObj (merge_props props extra)))
  = Ok (VObj (merge_props props extra)) ->
  let w' := snd (updateMetadata env path type (VObj extra) w) in
  updateMetadata env path type (VObj extra) w' = (Ok tt, w').
Proof.
  intros Hpath Hfile Hparse Hback w'. unfold w'.
  rewrite (updateMetadata_writes _ _ _ _ _ _ _ Hpath Hfile Hparse). cbn [snd].
  erewrite updateMetadata_writes; [|exact Hpath| |exact Hback].
  - rewrite merge_props_twice. unfold with_files. simpl.
    by rewrite insert_insert_eq.
  - simpl. apply lookup_insert_eq.
Qed.

End Records.

(** ** What the matchers leave alone *)

#[global] Instance only_logged_refl : Reflexive only_logged.
Proof. intros w. repeat split. exists []. by rewrite app_nil_r. Qed.

#[global] Instance only_logged_trans : Transitive only_logged.
Proof.
  intros w1 w2 w3 (Hc1 & Hf1 & Hr1 & Ht1 & l1 & Hl1) (Hc2 & Hf2 & Hr2 & Ht2 & l2 & Hl2).
  repeat split; try congruence.
  exists (l1 ++ l2)%list. by rewrite Hl2, Hl1, app_assoc.
Qed.

Section MatcherFrames.

Context (env : Env).

Lemma preserves_read path type excludeEtag :
  preserves only_logged (readMetadataFromDisk env path type excludeEtag).
Proof. intros w. rewrite readMetadataFromDisk_session. reflexivity. Qed.

Lemma preserves_info key args : preserves only_logged (info key args).
Proof. intros w. repeat split. by exists [Info key args]. Qed.

Lemma preserves_warn key args : preserves only_logged (warn key args).
Proof. intros w. repeat split. by exists [Warn key args]. Qed.

Lemma preserves_info_in_transfer_mode key args :
  preserves only_logged (info_in_transfer_mode key args).
Proof.
  intros w. unfold info_in_transfer_mode. rewrite bind_run. unfold gets.
  cbv beta iota. destruct (transferMode w); [apply preserves_info|reflexivity].
Qed.

Lemma preserves_find_in pred descriptors :
  preserves only_logged (find_in pred descriptors).
Proof.
  unfold find_in. apply (preserves_bind only_logged);
    [apply (preserves_lift only_logged)|].
  intros items. apply (preserves_lift only_logged).
Qed.

Ltac logs :=
  repeat first
    [ apply preserves_read | apply preserves_info | apply preserves_warn
    | apply preserves_info_in_transfer_mode | apply preserves_find_in
    | apply (preserves_the_map only_logged)
    | apply (preserves_gets only_logged)
    | apply (preserves_lift only_logged)
    | apply (preserves_ret only_logged)
    | apply (preserves_bind only_logged)
    | match goal with |- forall _, _ => intro end
    | match goal with
      | |- preserves _ (if ?b then _ else _) => destruct b
      end
    | progress unfold compose ].

Lemma getCachedWidgetInstanceFromMetadata_logs metadata :
  preserves only_logged (getCachedWidgetInstanceFromMetadata metadata).
Proof. unfold getCachedWidgetInstanceFromMetadata. logs. Qed.

Lemma getMatchingWidgetInstance_logs path :
  preserves only_logged (getMatchingWidgetInstance env path).
Proof.
  unfold getMatchingWidgetInstance. cbv zeta.
  apply (preserves_bind only_logged); [logs|]. intros metadata.
  apply (preserves_bind only_logged);
    [apply getCachedWidgetInstanceFromMetadata_logs|].
  logs.
Qed.

Lemma getMatchingWidget_logs path :
  preserves only_logged (getMatchingWidget env path).
Proof. unfold getMatchingWidget. logs. Qed.

Lemma getMatchingStack_logs path :
  preserves only_logged (getMatchingStack env path).
Proof. unfold getMatchingStack. logs. Qed.

Lemma getMatchingStackInstance_logs path :
  preserves only_logged (getMatchingStackInstance env path).
Proof.
  unfold getMatchingStackInstance, getCachedStackInstanceFromMetadata. logs.
Qed.

Lemma getMatchingElement_logs path :
  preserves only_logged (getMatchingElement env path).
Proof. unfold getMatchingElement. cbv zeta. logs. Qed.

Lemma getMatchingTheme_logs path :
  preserves only_logged (getMatchingTheme env path).
Proof. unfold getMatchingTheme. cbv zeta. logs. Qed.

(** X6. The six matchers and the five predicates read: they leave the
    cache, the tracking files, the requests and the transfer mode as they
    find them, whether they return or throw. All they do to the session
    is add lines to the log. *)
Theorem matchers_only_log (path : string) :
  Forall (fun matcher => preserves only_logged (matcher path))
    [ getMatchingWidget env; getMatchingWidgetInstance env;
      getMatchingStack env; getMatchingStackInstance env;
      getMatchingElement env; getMatchingTheme env;
      themeExistsOnTarget env; widgetExistsOnTarget env;
      stackExistsOnTarget env; elementExistsOnTarget env;
      widgetInstanceExistsOnTarget env ].
Proof.
  repeat apply Forall_cons; try apply Forall_nil.
  - apply getMatchingWidget_logs.
  - apply getMatchingWidgetInstance_logs.
  - apply getMatchingStack_logs.
  - apply getMatchingStackInstance_logs.
  - apply getMatchingElement_logs.
  - apply getMatchingTheme_logs.
  - unfold themeExistsOnTarget. logs.
  - unfold widgetExistsOnTarget. logs.
  - unfold stackExistsOnTarget. logs.
  - unfold elementExistsOnTarget. logs.
  - unfold widgetInstanceExistsOnTarget.
    apply (preserves_bind only_logged); [logs|]. intros metadata.
    apply getCachedWidgetInstanceFromMetadata_logs.
Qed.

End MatcherFrames.

(** ** The metadata of the server *)

Section FromServer.

Context (env : Env).

(** The look-up [readMetadataFromServer] starts with only adds to the
    log. *)
Lemma dispatch_logs path type :
  preserves only_logged
    (if String.eqb type (themeMetadataJson (constants env)) then
       getMatchingTheme env path
     else if String.eqb type (elementMetadataJson (constants env)) then
       getMatchingElement env path
     else if String.eqb type (stackMetadataJson (constants env)) then
       getMatchingStack env path
     else if String.eqb type (stackInstanceMetadataJson (constants env)) then
       getMatchingStackInstance env path
     else if String.eqb type (widgetMetadataJson (constants env)) then
       getMatchingWidget env path
     else if String.eqb type (widgetInstanceMetadataJson (constants env)) then
       getMatchingWidgetInstance env path
     else if String.eqb type (configMetadataJson (constants env)) then
       readMetadataFromDisk env path type false
     else mret VUndefined).
Proof.
  repeat match goal with
         | |- preserves _ (if ?b then _ else _) => destruct b
         end;
    auto using getMatchingTheme_logs, getMatchingElement_logs,
      getMatchingStack_logs, getMatchingStackInstance_logs,
      getMatchingWidget_logs, getMatchingWidgetInstance_logs, preserves_read.
  apply (preserves_ret only_logged).
Qed.

(** X7. Outside transfer mode, whatever [readMetadataFromServer] finds
    and returns carries the etag of the path, for every type of metadata:
    a truthy result has [eTagFor] of the path as its [etag]. A type that
    is none of the seven gives [undefined] and leaves the session as it
    is. *)
Theorem readMetadataFromServer_etag (path type : string) (w : world) :
  (forall found,
     transferMode w = false ->
     fst (readMetadataFromServer env path type w) = Ok found ->
     truthy found = true ->
     get found "etag" = Ok (eTagFor env path)) /\
  (type ∉ metadata_names (constants env) ->
   readMetadataFromServer env path type w = (Ok VUndefined, w)).
Proof.
  split.
  - intros found Hmode. unfold readMetadataFromServer. rewrite bind_run.
    pose proof (dispatch_logs path type w) as (_ & _ & _ & Htransfer & _).
    match goal with
    | |- context [match ?c w with _ => _ end] => destruct (c w) as [[metadata|e] w1]
    end; cbn [snd] in Htransfer; [|discriminate].
    rewrite bind_run. unfold gets. cbv beta iota.
    rewrite Htransfer, Hmode. cbn [negb andb].
    destruct (truthy metadata) eqn:Hmetadata.
    + unfold lift. cbn [fst].
      destruct metadata as [p|items|props]; try discriminate.
      intros [= <-] _. simpl. by rewrite assoc_set_same.
    + intros [= <-] Hfound. congruence.
  - intros Hunknown. unfold metadata_names in Hunknown.
    repeat (apply not_elem_of_cons in Hunknown as [?%String.eqb_neq Hunknown]).
    unfold readMetadataFromServer.
    repeat match goal with
           | H : String.eqb type _ = false |- _ => rewrite H; clear H
           end.
    rewrite bind_run. cbn. rewrite bind_run. unfold gets. cbv beta iota.
    by rewrite andb_false_r.
Qed.

(** X8. The node [getLastNode] reads is that of the base directory: two
    paths with the same base directory give the same result, return or
    throw, wherever they point below it. Without configuration metadata
    in the base directory the result is [null]. *)
Theorem getLastNode_of_base (getBasePath : option string) (p1 p2 : string)
    (w : world) :
  given (Some p1) = true -> given (Some p2) = true ->
  (fst (splitFromBaseDir env p1) = fst (splitFromBaseDir env p2) ->
   getLastNode env getBasePath (Some p1) w
   = getLastNode env getBasePath (Some p2) w) /\
  (no_record env p1 (configMetadataJson (constants env)) w ->
   getLastNode env getBasePath (Some p1) w = (Ok VNull, w)).
Proof.
  intros Hp1 Hp2. split.
  - intros Hbase. unfold getLastNode. rewrite Hp1, Hp2. cbn [default].
    assert (Hpath : getMetadataPath env p1 (configMetadataJson (constants env))
                    = getMetadataPath env p2 (configMetadataJson (constants env))).
    { unfold getMetadataPath.
      destruct (splitFromBaseDir env p1) as [b1 s1],
               (splitFromBaseDir env p2) as [b2 s2].
      cbn [fst] in Hbase. subst b2. by rewrite String.eqb_refl. }
    rewrite !bind_run. unfold readMetadataFromDisk, id. rewrite !bind_run.
    rewrite Hpath. unfold gets. cbv beta iota.
    destruct (file_text _ w) as [text|]; [|reflexivity].
    rewrite !bind_run. unfold lift at 1 3.
    destruct (JSON_parse env text) as [[p|items|props]|e]; try reflexivity.
    cbn. rewrite !assoc_set_other by discriminate. reflexivity.
  - intros Habsent. unfold getLastNode. rewrite Hp1. cbn [default]. unfold id.
    rewrite bind_run, (readMetadataFromDisk_absent env _ _ _ _ Habsent).
    reflexivity.
Qed.

End FromServer.

(** ** Widget instances and their layouts *)

Section Layouts.

Local Open Scope list_scope.

Context (env : Env).

Lemma get_present v k : is_present v = true -> get v k = Ok (field v k).
Proof.
  destruct v as [[]|items|props]; try discriminate; intros _;
    unfold field; simpl; try reflexivity;
    destruct (String.eqb k "length"); reflexivity.
Qed.

Lemma get_ok_field' v k x : get v k = Ok x -> field v k = x.
Proof. unfold field. by intros ->. Qed.

Lemma truthy_present v : truthy v = true -> is_present v = true.
Proof. destruct v as [[]|items|props]; try discriminate; reflexivity. Qed.

(** The widget instance matcher up to the point where it looks at the
    layout. *)
Lemma getMatchingWidgetInstance_found path w metadata m found :
  readMetadataFromDisk env path (widgetInstanceMetadataJson (constants env))
    false w = (Ok metadata, w) ->
  truthy metadata = true ->
  widgetInstances (cache w) = Some m ->
  map_get (instance_key (field metadata "displayName") (field metadata "version"))
          m = found ->
  truthy found = true ->
  is_present (field found "descriptor") = true ->
  getMatchingWidgetInstance env path w
  = (let logged :=
       with_log (Info "matchingWidgetInstanceFound" (path_args path)) w in
     let currentLayout := field found "currentLayout" in
     if truthy currentLayout then
       (layoutDescriptor ← get currentLayout "widgetLayoutDescriptor";
        layoutDescriptorId ← get layoutDescriptor "repositoryId";
        Ok (VObj (instance_reference found
                    ++ [("layoutInstanceId", field currentLayout "repositoryId");
                        ("layoutDescriptorId", layoutDescriptorId)])),
        logged)
     else
       (widgetMetadata ←
          readMetadataFromDisk env path (widgetMetadataJson (constants env))
            false;
        elementized ← lift (get widgetMetadata "elementized");
        if truthy elementized then
          descriptors ← gets (widgetDescriptors ∘ cache);
          matchingWidget ←
            find_in (same_version_and_name widgetMetadata) descriptors;
          layouts ← lift (get matchingWidget "layouts");
          firstLayout ← lift (get layouts "0");
          layoutDescriptorId ← lift (get firstLayout "repositoryId");
          mret (VObj (instance_reference found
                        ++ [("layoutDescriptorId", layoutDescriptorId)]))
        else mret (VObj (instance_reference found))) logged).
Proof.
  intros Hread Hmetadata Hm Hfound Htruthy Hdescriptor.
  unfold getMatchingWidgetInstance. rewrite bind_run, Hread.
  rewrite bind_run. unfold getCachedWidgetInstanceFromMetadata.
  rewrite Hmetadata. cbn [negb]. run. rewrite Hm. simpl.
  rewrite !(get_truthy metadata _ Hmetadata). simpl.
  unfold instance_key, map_get in Hfound. rewrite Hfound, Htruthy. simpl.
  rewrite !(get_truthy found _ Htruthy). simpl.
  rewrite (get_present _ "repositoryId" Hdescriptor). simpl.
  destruct (truthy (field found "currentLayout")) eqn:Hlayout.
  - rewrite !(get_truthy _ _ Hlayout). simpl.
    destruct (get (field (field found "currentLayout") "widgetLayoutDescriptor")
                "repositoryId"); reflexivity.
  - reflexivity.
Qed.

(** X9. A widget instance that has a current layout is matched from the
    cached instance alone: the result has the four identifying fields of
    the instance and the identifiers of the layout instance and of its
    layout descriptor, and neither the metadata of the widget nor the
    widget descriptors are looked at. *)
Theorem getMatchingWidgetInstance_current_layout
    (path : string) (w : world) (metadata found layoutDescriptor : value)
    (m : jsmap) :
  readMetadataFromDisk env path (widgetInstanceMetadataJson (constants env))
    false w = (Ok metadata, w) ->
  truthy metadata = true ->
  widgetInstances (cache w) = Some m ->
  map_get (instance_key (field metadata "displayName") (field metadata "version"))
          m = found ->
  truthy found = true ->
  is_present (field found "descriptor") = true ->
  truthy (field found "currentLayout") = true ->
  field (field found "currentLayout") "widgetLayoutDescriptor" = layoutDescriptor ->
  is_present layoutDescriptor = true ->
  getMatchingWidgetInstance env path w
  = (Ok (VObj (instance_reference found
                 ++ [("layoutInstanceId",
                      field (field found "currentLayout") "repositoryId");
                     ("layoutDescriptorId",
                      field layoutDescriptor "repositoryId")])),
     with_log (Info "matchingWidgetInstanceFound" (path_args path)) w).
Proof.
  intros Hread Hmetadata Hm Hfound Htruthy Hdescriptor Hlayout Hld Hpresent.
  rewrite (getMatchingWidgetInstance_found path w metadata m found)
    by assumption.
  cbv zeta. rewrite Hlayout.
  rewrite (get_truthy _ "widgetLayoutDescriptor" Hlayout), Hld. simpl.
  rewrite (get_present _ "repositoryId" Hpresent). reflexivity.
Qed.

(** X10. A widget instance without a current layout falls back on the
    widget. When the metadata of the widget does not say elementized, the
    result is the four identifying fields. When it does, the identifier
    of the layout descriptor is that of the first layout of the cached
    descriptor of the widget; and when no cached descriptor has the name
    and version of the widget, or the one that has lists no layout, the
    matcher throws a [TypeError], after it has logged that the instance
    was found. *)
Theorem getMatchingWidgetInstance_fallback
    (path : string) (w : world) (metadata found widgetMetadata : value)
    (m : jsmap) (descriptors : list value) :
  readMetadataFromDisk env path (widgetInstanceMetadataJson (constants env))
    false w = (Ok metadata, w) ->
  truthy metadata = true ->
  widgetInstances (cache w) = Some m ->
  map_get (instance_key (field metadata "displayName") (field metadata "version"))
          m = found ->
  truthy found = true ->
  is_present (field found "descriptor") = true ->
  truthy (field found "currentLayout") = false ->
  readMetadataFromDisk env path (widgetMetadataJson (constants env)) false w
    = (Ok widgetMetadata, w) ->
  is_present widgetMetadata = true ->
  widgetDescriptors (cache w) = VArr descriptors ->
  Forall is_descriptor descriptors ->
  let logged :=
    with_log (Info "matchingWidgetInstanceFound" (path_args path)) w in
  getMatchingWidgetInstance env path w
  = if truthy (field widgetMetadata "elementized") then
      match List.find (descriptor_matches (field widgetMetadata "displayName")
                                          (field widgetMetadata "version"))
                      descriptors with
      | Some d =>
          match layouts_of d with
          | firstLayout :: _ =>
              if is_present firstLayout then
                (Ok (VObj (instance_reference found
                             ++ [("layoutDescriptorId",
                                  field firstLayout "repositoryId")])),
                 logged)
              else (Throw TypeError, logged)
          | [] => (Throw TypeError, logged)
          end
      | None => (Throw TypeError, logged)
      end
    else (Ok (VObj (instance_reference found)), logged).
Proof.
  intros Hread Hmetadata Hm Hfound Htruthy Hdescriptor Hlayout Hwidget
    Hpresent Hcache Hdescriptors logged.
  assert (Hobjects : Forall (fun d => is_object d = true) descriptors).
  { eapply Forall_impl; [|exact Hdescriptors]. by intros d [Hd _]. }
  rewrite (getMatchingWidgetInstance_found path w metadata m found)
    by assumption.
  cbv zeta. rewrite Hlayout. fold logged.
  assert (Hwidget' : readMetadataFromDisk env path
                       (widgetMetadataJson (constants env)) false logged
                     = (Ok widgetMetadata, logged)).
  { revert Hwidget. unfold readMetadataFromDisk. rewrite !bind_run.
    unfold gets. cbv beta iota. change (file_text ?p logged) with (file_text p w).
    destruct (file_text _ w) as [text|].
    - rewrite !bind_run. unfold lift at 1 3.
      destruct (JSON_parse env text) as [json|e]; [|discriminate].
      cbn [negb]. unfold lift.
      destruct (set_prop json "etag" (eTagFor env path)); [|discriminate].
      by intros [= ->].
    - by intros [= <-]. }
  rewrite bind_run, Hwidget'. rewrite bind_run. unfold lift at 1.
  rewrite (get_present _ "elementized" Hpresent).
  destruct (truthy (field widgetMetadata "elementized")); [|reflexivity].
  pose proof (find_two_fields widgetMetadata "version" "displayName" _ _
                descriptors (get_present _ _ Hpresent) (get_present _ _ Hpresent)
                Hobjects) as Hfind.
  fold (descriptor_matches (field widgetMetadata "displayName")
                           (field widgetMetadata "version")) in Hfind.
  rewrite bind_run. unfold gets at 1, compose. cbv beta iota.
  change (widgetDescriptors (cache logged)) with (widgetDescriptors (cache w)).
  rewrite Hcache, bind_run. unfold find_in.
  rewrite bind_run. unfold lift at 1. cbn [as_array]. unfold lift at 1.
  unfold same_version_and_name. rewrite Hfind.
  destruct (List.find _ descriptors) as [d|] eqn:Hd; cbn [default];
    [|reflexivity].
  apply List.find_some in Hd as [Hin _]. rewrite Forall_forall in Hdescriptors.
  apply Hdescriptors in Hin as [Hobject [layouts Hlayouts]].
  unfold layouts_of. rewrite (get_ok_field' _ _ _ Hlayouts).
  unfold id. rewrite bind_run. unfold lift at 1. rewrite Hlayouts.
  destruct layouts as [|firstLayout rest]; [reflexivity|].
  rewrite bind_run. unfold lift at 1.
  assert (Hfirst : get (VArr (firstLayout :: rest)) "0" = Ok firstLayout)
    by reflexivity.
  rewrite Hfirst. rewrite bind_run. unfold lift at 1.
  destruct (is_present firstLayout) eqn:Hfirstp.
  - rewrite (get_present _ _ Hfirstp). reflexivity.
  - destruct firstLayout as [[]|items|props]; try discriminate; reflexivity.
Qed.

End Layouts.

(** ** Elements of widgets *)

Section WidgetElements.

Context (env : Env).

(** X11. An element below a widget is matched through the widget: the
    matcher takes the first cached widget descriptor with the version of
    the element and the widget type of the widget and returns the tag of
    the element record with the [repositoryId] of that widget. Neither
    map of elements is looked at, so the tag need not exist on the
    server; and the match is only as good as the two records: the display
    name of the widget plays no part. *)
Theorem getMatchingElement_of_widget
    (path : string) (w : world)
    (elementMetadata widgetMetadata : value) (descriptors : list value) :
  readMetadataFromDisk env path (elementMetadataJson (constants env)) false w
    = (Ok elementMetadata, w) ->
  is_global_element_file (classify env path) = false ->
  readMetadataFromDisk env path (widgetMetadataJson (constants env)) false w
    = (Ok widgetMetadata, w) ->
  is_present elementMetadata = true ->
  is_present widgetMetadata = true ->
  widgetDescriptors (cache w) = VArr descriptors ->
  Forall (fun d => is_object d = true) descriptors ->
  getMatchingElement env path w
  = match List.find (descriptor_of_type (field widgetMetadata "widgetType")
                                        (field elementMetadata "version"))
                    descriptors with
    | Some widget =>
        (Ok (VObj [("tag", field elementMetadata "tag");
                   ("widgetId", field widget "repositoryId")]),
         if transferMode w
         then with_log (Info "matchingElementFound" (path_args path)) w
         else w)
    | None =>
        (Ok VNull,
         with_log (Warn "noMatchingElementFound" (path_args path)) w)
    end.
Proof.
  intros Helement Hkind Hwidget Hpe Hpw Hcache Hobjects.
  assert (Hscan : forall d, is_object d = true ->
            and_then (eq_prop d "version" elementMetadata "version")
                     (eq_prop d "widgetType" widgetMetadata "widgetType")
            = Ok (descriptor_of_type (field widgetMetadata "widgetType")
                                     (field elementMetadata "version") d)).
  { intros d Hd. unfold and_then, eq_prop, descriptor_of_type.
    rewrite !(get_object d _ Hd), (get_present _ _ Hpe), (get_present _ _ Hpw).
    simpl. by destruct (strict_eq (field d "version") _). }
  assert (Hfind :
    find (fun d => and_then (eq_prop d "version" elementMetadata "version")
                            (eq_prop d "widgetType" widgetMetadata "widgetType"))
         descriptors
    = Ok (default VUndefined
            (List.find (descriptor_of_type (field widgetMetadata "widgetType")
                                           (field elementMetadata "version"))
                       descriptors))).
  { clear Hcache. induction Hobjects as [|d ds Hd _ IH]; [reflexivity|].
    cbn [find List.find]. rewrite (Hscan d Hd).
    by destruct (descriptor_of_type _ _ d). }
  unfold getMatchingElement. rewrite bind_run, Helement. cbv zeta.
  rewrite Hkind, bind_run, Hwidget. run. rewrite Hcache. simpl.
  rewrite Hfind.
  destruct (List.find _ descriptors) as [widget|] eqn:Hd; cbn [default];
    [|reflexivity].
  apply List.find_some in Hd as [Hin _]. rewrite Forall_forall in Hobjects.
  apply Hobjects in Hin. unfold id. rewrite (truthy_object _ Hin).
  rewrite (get_present _ _ Hpe), (get_object _ _ Hin).
  unfold info_in_transfer_mode. run.
  destruct (transferMode w); reflexivity.
Qed.

End WidgetElements.

(** ** Completion of the requests, one request at a time *)

#[global] Instance keeps_refl {A} (f : Cache -> A) : Reflexive (keeps f).
Proof. intros w. reflexivity. Qed.

#[global] Instance keeps_trans {A} (f : Cache -> A) : Transitive (keeps f).
Proof. intros w1 w2 w3 H1 H2. unfold keeps in *. congruence. Qed.

#[global] Instance maps_stay_refl : Reflexive maps_stay.
Proof. intros w H. exact H. Qed.

#[global] Instance maps_stay_trans : Transitive maps_stay.
Proof. intros w1 w2 w3 H1 H2 H. apply H2, H1, H. Qed.

Section Completion.

Context (R : world -> world -> Prop) `{!Reflexive R} `{!Transitive R}.
Context (server : Server) (p : promise) (r : request).

Hypothesis others :
  forall pd results, pd ∈ p -> awaited pd <> r ->
    preserves R (on_fulfilled pd results).

(** Once a request has settled, its callback does not run again: what the
    other callbacks keep is kept, and what is on record stays on record. *)
Lemma settle_after schedule seen w :
  r ∈ seen.*1 ->
  R w (snd (settle server schedule p seen w)) /\
  (forall s, s ∈ seen -> s ∈ fst (settle server schedule p seen w)).
Proof using All.
  revert seen w.
  induction schedule as [|r' schedule IH]; intros seen w Hdone; simpl; [done|].
  destruct (List.find (fun pd => bool_decide (awaited pd = r')) p) as [pd|] eqn:Hpd;
    [|by apply IH].
  destruct (has_settled seen r') eqn:Hsettled; [by apply IH|].
  assert (Hgrow : forall res, r ∈ (seen ++ [(r', res)])%list.*1).
  { intros res. rewrite fmap_app. apply elem_of_app. by left. }
  apply List.find_some in Hpd as [Hin Hr']. apply list_elem_of_In in Hin.
  apply bool_decide_eq_true in Hr'.
  assert (Hne : awaited pd <> r).
  { intros Heq. unfold has_settled in Hsettled.
    rewrite bool_decide_eq_false in Hsettled. congruence. }
  destruct (respond server r') as [results|e].
  - pose proof (others pd results Hin Hne w) as Hkeep.
    destruct (on_fulfilled pd results w) as [res w1]. simpl in Hkeep.
    destruct (IH _ w1 (Hgrow res)) as [HR Hrec]. split.
    + by etrans.
    + intros s Hs. apply Hrec, elem_of_app. by left.
  - destruct (IH _ w (Hgrow (Throw e))) as [HR Hrec]. split; [done|].
    intros s Hs. apply Hrec, elem_of_app. by left.
Qed.

(** When a request that is answered is among those that complete, its
    callback runs exactly once, on a session that differs from the one
    completion started on by what the other callbacks did, and the
    session completion leaves differs from the one the callback left by
    what the other callbacks did; how the callback ended is on record. *)
Lemma settle_runs pd results schedule seen w :
  List.find (fun pd' => bool_decide (awaited pd' = r)) p = Some pd ->
  respond server r = Ok results ->
  r ∈ schedule -> r ∉ seen.*1 ->
  exists w0, R w w0 /\
    (r, fst (on_fulfilled pd results w0))
      ∈ fst (settle server schedule p seen w) /\
    R (snd (on_fulfilled pd results w0))
      (snd (settle server schedule p seen w)).
Proof using All.
  intros Hfind Hrespond. revert seen w.
  induction schedule as [|r' schedule IH]; intros seen w Hr Hdone;
    [by apply elem_of_nil in Hr|].
  simpl. destruct (decide (r' = r)) as [->|Hne].
  - rewrite Hfind. unfold has_settled. rewrite bool_decide_eq_false_2 by done.
    rewrite Hrespond. exists w. split; [reflexivity|].
    destruct (on_fulfilled pd results w) as [res w1]. cbn [fst snd].
    destruct (settle_after schedule (seen ++ [(r, res)])%list w1) as [HR Hrec].
    { rewrite fmap_app. apply elem_of_app. right. by apply list_elem_of_singleton. }
    split; [|done]. apply Hrec, elem_of_app. right.
    by apply list_elem_of_singleton.
  - apply elem_of_cons in Hr as [->|Hr]; [done|].
    destruct (List.find (fun pd => bool_decide (awaited pd = r')) p)
      as [pd'|] eqn:Hpd; [|by apply IH].
    destruct (has_settled seen r'); [by apply IH|].
    assert (Hgrow : forall res, r ∉ (seen ++ [(r', res)])%list.*1).
    { intros res. rewrite fmap_app. intros [Hin|Hin]%elem_of_app; [done|].
      apply list_elem_of_singleton in Hin. simpl in Hin. congruence. }
    apply List.find_some in Hpd as [Hin Hr']. apply list_elem_of_In in Hin.
    apply bool_decide_eq_true in Hr'.
    destruct (respond server r') as [results'|e]; [|by apply IH].
    assert (Hother : awaited pd' <> r) by congruence.
    pose proof (others pd' results' Hin Hother w) as Hkeep.
    destruct (on_fulfilled pd' results' w) as [res w1]. simpl in Hkeep.
    destruct (IH _ w1 Hr (Hgrow res)) as (w0 & HR & Hrec & Hafter).
    exists w0. split; [by etrans|done].
Qed.

End Completion.

(** ** Caches filled by one request *)

Ltac keep R :=
  repeat first
    [ apply (preserves_lift R) | apply (preserves_ret R)
    | apply (preserves_gets R) | apply (preserves_the_map R)
    | apply (preserves_data_items R)
    | apply (preserves_bind R) | apply (preserves_for_each R)
    | apply preserves_modify; intros ?; reflexivity
    | apply preserves_modify; intros ? (? & ? & ? & ? & ?);
      repeat apply conj; simpl; eauto
    | progress unfold compose
    | match goal with |- forall _, _ => intro end ].

Ltac keep_callbacks R :=
  repeat apply conj; try intros [];
  unfold cache_themes_of, cache_widget_instances_of, cache_widget_instance,
    cache_widget_descriptors_of, cache_stack_descriptors_of,
    cache_elements_of, cache_stack_instances_of;
  try (apply (preserves_bind R);
       [keep R|intros items; destruct (truthy items)]);
  keep R.

Ltac others_keep Hin Hne :=
  unfold loader_promises, elements_promise in Hin;
  destruct (serverSupports _ "getElements"); simpl in Hin;
  repeat (apply elem_of_cons in Hin as [->|Hin];
          [first [by destruct Hne | simpl; auto]|]);
  by apply elem_of_nil in Hin.

Section SingleRequests.

Context (server : Server).

(** The synchronous part of initialization creates the five maps and
    leaves the two arrays of descriptors as they are. *)
Lemma loaders_create_maps (w : world) :
  cache (snd (call_all (loaders server) w))
  = {| themes := Some ∅; widgetInstances := Some ∅;
       widgetDescriptors := widgetDescriptors (cache w);
       stackDescriptors := stackDescriptors (cache w);
       globalElements := Some ∅; widgetElements := Some ∅;
       stackInstances := Some ∅ |}.
Proof.
  unfold loaders, cacheWidgetElements, cacheGlobalElements, cacheElements.
  destruct (serverSupports server "getElements"); reflexivity.
Qed.

Lemma themes_kept results :
  preserves (keeps themes) (cache_widget_instances_of results)
  /\ preserves (keeps themes) (cache_widget_descriptors_of results)
  /\ preserves (keeps themes) (cache_stack_descriptors_of results)
  /\ (forall field, preserves (keeps themes) (cache_elements_of field results))
  /\ preserves (keeps themes) (cache_stack_instances_of results).
Proof. keep_callbacks (keeps themes). Qed.

Lemma widgetDescriptors_kept results :
  preserves (keeps widgetDescriptors) (cache_themes_of results)
  /\ preserves (keeps widgetDescriptors) (cache_widget_instances_of results)
  /\ preserves (keeps widgetDescriptors) (cache_stack_descriptors_of results)
  /\ (forall field,
        preserves (keeps widgetDescriptors) (cache_elements_of field results))
  /\ preserves (keeps widgetDescriptors) (cache_stack_instances_of results).
Proof. keep_callbacks (keeps widgetDescriptors). Qed.

Lemma stackDescriptors_kept results :
  preserves (keeps stackDescriptors) (cache_themes_of results)
  /\ preserves (keeps stackDescriptors) (cache_widget_instances_of results)
  /\ preserves (keeps stackDescriptors) (cache_widget_descriptors_of results)
  /\ (forall field,
        preserves (keeps stackDescriptors) (cache_elements_of field results))
  /\ preserves (keeps stackDescriptors) (cache_stack_instances_of results).
Proof. keep_callbacks (keeps stackDescriptors). Qed.

Lemma globalElements_kept results :
  preserves (keeps globalElements) (cache_themes_of results)
  /\ preserves (keeps globalElements) (cache_widget_instances_of results)
  /\ preserves (keeps globalElements) (cache_widget_descriptors_of results)
  /\ preserves (keeps globalElements) (cache_stack_descriptors_of results)
  /\ preserves (keeps globalElements)
       (cache_elements_of WidgetElementsField results)
  /\ preserves (keeps globalElements) (cache_stack_instances_of results).
Proof. keep_callbacks (keeps globalElements). Qed.

Lemma widgetElements_kept results :
  preserves (keeps widgetElements) (cache_themes_of results)
  /\ preserves (keeps widgetElements) (cache_widget_instances_of results)
  /\ preserves (keeps widgetElements) (cache_widget_descriptors_of results)
  /\ preserves (keeps widgetElements) (cache_stack_descriptors_of results)
  /\ preserves (keeps widgetElements)
       (cache_elements_of GlobalElementsField results)
  /\ preserves (keeps widgetElements) (cache_stack_instances_of results).
Proof. keep_callbacks (keeps widgetElements). Qed.

Lemma maps_stay_callbacks results :
  preserves maps_stay (cache_themes_of results)
  /\ preserves maps_stay (cache_widget_instances_of results)
  /\ preserves maps_stay (cache_widget_descriptors_of results)
  /\ preserves maps_stay (cache_stack_descriptors_of results)
  /\ (forall field, preserves maps_stay (cache_elements_of field results))
  /\ preserves maps_stay (cache_stack_instances_of results).
Proof. keep_callbacks maps_stay. Qed.

(** X12. The map of themes does not depend on the order in which the
    requests of an initialization complete: once the request for the
    themes has completed, the map holds every theme the server listed
    under its name, whatever completed before or after and whether or not
    the other requests were answered at all. *)
Theorem initializeMetadata_themes_in_any_order
    (schedule : list request) (w : world) (results : value)
    (remote : list value) :
  respond server (GetThemes, "?type=custom") = Ok results ->
  has_items results remote ->
  Forall (fun theme => is_object theme = true) remote ->
  (GetThemes, "?type=custom") ∈ schedule ->
  themes (cache (snd (await server schedule (initializeMetadata server) w)))
  = Some (themes_of remote).
Proof.
  intros Hrespond Hitems Hremote Hschedule.
  rewrite await_initializeMetadata. cbn [snd].
  set (p := Promise_all (loader_promises server)).
  set (w1 := snd (call_all (loaders server) w)).
  assert (Hothers : forall pd res, pd ∈ p ->
            awaited pd <> (GetThemes, "?type=custom") ->
            preserves (keeps themes) (on_fulfilled pd res)).
  { intros pd res Hin Hne. destruct (themes_kept res) as (? & ? & ? & ? & ?).
    subst p. others_keep Hin Hne. }
  assert (Hfind :
    List.find (fun pd => bool_decide (awaited pd = (GetThemes, "?type=custom"))) p
    = Some {| awaited := (GetThemes, "?type=custom");
              on_fulfilled := cache_themes_of |}).
  { subst p. unfold loader_promises, elements_promise.
    destruct (serverSupports server "getElements"); reflexivity. }
  destruct (settle_runs (keeps themes) server p _ Hothers _ results schedule
              [] w1 Hfind Hrespond Hschedule (not_elem_of_nil _))
    as (w0 & Hbefore & _ & Hafter).
  cbn [on_fulfilled] in Hafter. unfold keeps in Hbefore, Hafter.
  rewrite (cache_themes_run results remote w0 Hitems Hremote) in Hafter.
  - rewrite Hafter. reflexivity.
  - rewrite Hbefore. unfold w1. by rewrite loaders_create_maps.
Qed.

(** X13. The array of widget descriptors is whatever the response has
    as [data.items], stored as it is once the request has completed, in
    any order of completion. When that is no array (a response without
    items leaves [undefined]), the initialization is none the worse for
    it, but matching a tracked widget afterwards throws a [TypeError]. *)
Theorem initializeMetadata_widgetDescriptors_as_listed
    (schedule : list request) (w : world) (results data items : value) :
  respond server (GetAllWidgetDescriptors, "") = Ok results ->
  get results "data" = Ok data ->
  get data "items" = Ok items ->
  (GetAllWidgetDescriptors, "") ∈ schedule ->
  let w' := snd (await server schedule (initializeMetadata server) w) in
  widgetDescriptors (cache w') = items /\
  (as_array items = Throw TypeError ->
   forall env path metadata,
     readMetadataFromDisk env path (widgetMetadataJson (constants env)) false w'
       = (Ok metadata, w') ->
     getMatchingWidget env path w' = (Throw TypeError, w')).
Proof.
  intros Hrespond Hdata Hitems Hschedule w'.
  assert (Hstored : widgetDescriptors (cache w') = items).
  { unfold w'. rewrite await_initializeMetadata. cbn [snd].
    set (p := Promise_all (loader_promises server)).
    set (w1 := snd (call_all (loaders server) w)).
    assert (Hothers : forall pd res, pd ∈ p ->
              awaited pd <> (GetAllWidgetDescriptors, "") ->
              preserves (keeps widgetDescriptors) (on_fulfilled pd res)).
    { intros pd res Hin Hne.
      destruct (widgetDescriptors_kept res) as (? & ? & ? & ? & ?).
      subst p. others_keep Hin Hne. }
    assert (Hfind :
      List.find (fun pd => bool_decide (awaited pd = (GetAllWidgetDescriptors, ""))) p
      = Some {| awaited := (GetAllWidgetDescriptors, "");
                on_fulfilled := cache_widget_descriptors_of |}).
    { subst p. unfold loader_promises, elements_promise.
      destruct (serverSupports server "getElements"); reflexivity. }
    destruct (settle_runs (keeps widgetDescriptors) server p _ Hothers _ results
                schedule [] w1 Hfind Hrespond Hschedule (not_elem_of_nil _))
      as (w0 & _ & _ & Hafter).
    cbn [on_fulfilled] in Hafter. unfold keeps in Hafter. rewrite Hafter.
    unfold cache_widget_descriptors_of, data_items. run.
    rewrite Hdata. simpl. rewrite Hitems. reflexivity. }
  split; [exact Hstored|].
  intros Harray env path metadata Hread.
  unfold getMatchingWidget. rewrite bind_run, Hread. run.
  rewrite Hstored, Harray. reflexivity.
Qed.

(** X14. The array of stack descriptors is whatever the response has as
    [data.items], stored as it is once the request has completed, in any
    order of completion. When that is no array, matching a tracked stack
    afterwards throws a [TypeError]. *)
Theorem initializeMetadata_stackDescriptors_as_listed
    (schedule : list request) (w : world) (results data items : value) :
  respond server (GetAllStackDescriptors, "") = Ok results ->
  get results "data" = Ok data ->
  get data "items" = Ok items ->
  (GetAllStackDescriptors, "") ∈ schedule ->
  let w' := snd (await server schedule (initializeMetadata server) w) in
  stackDescriptors (cache w') = items /\
  (as_array items = Throw TypeError ->
   forall env path metadata,
     readMetadataFromDisk env path (stackMetadataJson (constants env)) false w'
       = (Ok metadata, w') ->
     getMatchingStack env path w' = (Throw TypeError, w')).
Proof.
  intros Hrespond Hdata Hitems Hschedule w'.
  assert (Hstored : stackDescriptors (cache w') = items).
  { unfold w'. rewrite await_initializeMetadata. cbn [snd].
    set (p := Promise_all (loader_promises server)).
    set (w1 := snd (call_all (loaders server) w)).
    assert (Hothers : forall pd res, pd ∈ p ->
              awaited pd <> (GetAllStackDescriptors, "") ->
              preserves (keeps stackDescriptors) (on_fulfilled pd res)).
    { intros pd res Hin Hne.
      destruct (stackDescriptors_kept res) as (? & ? & ? & ? & ?).
      subst p. others_keep Hin Hne. }
    assert (Hfind :
      List.find (fun pd => bool_decide (awaited pd = (GetAllStackDescriptors, ""))) p
      = Some {| awaited := (GetAllStackDescriptors, "");
                on_fulfilled := cache_stack_descriptors_of |}).
    { subst p. unfold loader_promises, elements_promise.
      destruct (serverSupports server "getElements"); reflexivity. }
    destruct (settle_runs (keeps stackDescriptors) server p _ Hothers _ results
                schedule [] w1 Hfind Hrespond Hschedule (not_elem_of_nil _))
      as (w0 & _ & _ & Hafter).
    cbn [on_fulfilled] in Hafter. unfold keeps in Hafter. rewrite Hafter.
    unfold cache_stack_descriptors_of, data_items. run.
    rewrite Hdata. simpl. rewrite Hitems. reflexivity. }
  split; [exact Hstored|].
  intros Harray env path metadata Hread.
  unfold getMatchingStack. rewrite bind_run, Hread. run.
  rewrite Hstored, Harray. reflexivity.
Qed.

Lemma set_element_map_same field m w :
  element_map field (cache w) = Some m ->
  with_cache (set_element_map field (Some m)) w = w.
Proof. destruct w as [[] ? ? ? ?], field; simpl; by intros ->. Qed.

(** The callback of [cacheElements] stores every element under its tag,
    in the order the server lists them. *)
Lemma cache_elements_run field results remote w :
  has_items results remote ->
  Forall (fun element => is_object element = true) remote ->
  element_map field (cache w) = Some ∅ ->
  cache_elements_of field results w
  = (Ok tt, with_cache (set_element_map field (Some (elements_of remote))) w).
Proof.
  intros (data & Hdata & Hitems) Hremote Hempty.
  unfold cache_elements_of, data_items, elements_of. rewrite !bind_run.
  unfold lift at 1. rewrite Hdata. unfold lift at 1. rewrite Hitems.
  unfold compose, lift at 1. cbn [as_array].
  clear Hdata Hitems. revert w Hempty. generalize (∅ : jsmap) as m.
  induction Hremote as [|element remote Helement _ IH]; intros m w Hm.
  - simpl. by rewrite set_element_map_same.
  - cbn [for_each foldl]. rewrite bind_run_unit. run. rewrite Hm. simpl.
    rewrite (get_object element "tag" Helement). simpl.
    erewrite IH by (destruct field; reflexivity).
    destruct field; reflexivity.
Qed.

(** What the map of elements holds, the server listed. *)
Lemma elements_of_lookup (remote : list value) (k : prim) (element : value) :
  elements_of remote !! k = Some element -> element ∈ remote.
Proof.
  unfold elements_of.
  induction remote as [|last remote IH] using rev_ind; intros Hk.
  - cbn [foldl] in Hk. by rewrite lookup_empty in Hk.
  - rewrite foldl_app in Hk. cbn [foldl] in Hk. apply elem_of_app.
    destruct (field last "tag") as [p| |]; simpl in Hk; try (left; by apply IH).
    destruct (decide (p = k)) as [->|Hne].
    + rewrite lookup_insert_eq in Hk. right. apply list_elem_of_singleton.
      congruence.
    + rewrite lookup_insert_ne in Hk by done. left. by apply IH.
Qed.

Lemma find_elements (field : element_field) :
  serverSupports server "getElements" = true ->
  List.find (fun pd => bool_decide (awaited pd = elementsRequest (globals_of field)))
            (Promise_all (loader_promises server))
  = Some {| awaited := elementsRequest (globals_of field);
            on_fulfilled := cache_elements_of field |}.
Proof.
  intros Hsupports. unfold loader_promises, elements_promise.
  rewrite Hsupports. by destruct field.
Qed.

(** The map of a field of elements, once its request has completed. *)
Lemma elements_in_any_order (field : element_field)
    (schedule : list request) (w : world) (results : value)
    (remote : list value) :
  serverSupports server "getElements" = true ->
  respond server (elementsRequest (globals_of field)) = Ok results ->
  has_items results remote ->
  Forall (fun element => is_object element = true) remote ->
  elementsRequest (globals_of field) ∈ schedule ->
  element_map field
    (cache (snd (await server schedule (initializeMetadata server) w)))
  = Some (elements_of remote).
Proof.
  intros Hsupports Hrespond Hitems Hremote Hschedule.
  rewrite await_initializeMetadata. cbn [snd].
  set (p := Promise_all (loader_promises server)).
  set (w1 := snd (call_all (loaders server) w)).
  assert (Hothers : forall pd res, pd ∈ p ->
            awaited pd <> elementsRequest (globals_of field) ->
            preserves (keeps (element_map field)) (on_fulfilled pd res)).
  { intros pd res Hin Hne.
    destruct (globalElements_kept res) as (? & ? & ? & ? & ? & ?).
    destruct (widgetElements_kept res) as (? & ? & ? & ? & ? & ?).
    subst p. unfold loader_promises, elements_promise in Hin.
    rewrite Hsupports in Hin. simpl in Hin.
    destruct field;
      repeat (apply elem_of_cons in Hin as [->|Hin];
              [first [by destruct Hne | simpl; auto]|]);
      by apply elem_of_nil in Hin. }
  destruct (settle_runs (keeps (element_map field)) server p _ Hothers _
              results schedule [] w1 (find_elements field Hsupports) Hrespond
              Hschedule (not_elem_of_nil _))
    as (w0 & Hbefore & _ & Hafter).
  cbn [on_fulfilled] in Hafter. unfold keeps in Hbefore, Hafter.
  rewrite (cache_elements_run field results remote w0 Hitems Hremote) in Hafter.
  - rewrite Hafter. by destruct field.
  - rewrite Hbefore. unfold w1. rewrite loaders_create_maps. by destruct field.
Qed.

(** X15. Against a server that lists elements, both maps of elements
    hold what the server listed, every element under its tag, in whatever
    order the requests of the initialization completed. Looking a tag up
    then gives the global element with that tag when there is one, and the
    element of a widget with that tag otherwise; [undefined] when neither
    map has it. *)
Theorem getElementByTag_after_initialization
    (schedule : list request) (w : world) (globals widgets : value)
    (globalItems widgetItems : list value) (tag : prim) :
  serverSupports server "getElements" = true ->
  respond server (GetElements, "?globals=true") = Ok globals ->
  respond server (GetElements, "?globals=false") = Ok widgets ->
  has_items globals globalItems -> has_items widgets widgetItems ->
  Forall (fun element => is_object element = true) globalItems ->
  Forall (fun element => is_object element = true) widgetItems ->
  (GetElements, "?globals=true") ∈ schedule ->
  (GetElements, "?globals=false") ∈ schedule ->
  let w' := snd (await server schedule (initializeMetadata server) w) in
  globalElements (cache w') = Some (elements_of globalItems) /\
  widgetElements (cache w') = Some (elements_of widgetItems) /\
  getElementByTag (VPrim tag) w'
  = (Ok match elements_of globalItems !! tag with
        | Some element => element
        | None => default VUndefined (elements_of widgetItems !! tag)
        end, w').
Proof.
  intros Hsupports Hglobals Hwidgets HglobalItems HwidgetItems
    HglobalObjects HwidgetObjects HglobalsDone HwidgetsDone w'.
  pose proof (elements_in_any_order GlobalElementsField schedule w globals
                globalItems Hsupports Hglobals HglobalItems HglobalObjects
                HglobalsDone) as Hg.
  pose proof (elements_in_any_order WidgetElementsField schedule w widgets
                widgetItems Hsupports Hwidgets HwidgetItems HwidgetObjects
                HwidgetsDone) as Hw.
  cbn [element_map] in Hg, Hw. fold w' in Hg, Hw.
  split; [exact Hg|]. split; [exact Hw|].
  unfold getElementByTag. run. rewrite Hg. simpl.
  destruct (elements_of globalItems !! tag) as [element|] eqn:Hfound; simpl.
  - apply elements_of_lookup in Hfound. rewrite Forall_forall in HglobalObjects.
    apply list_elem_of_In, HglobalObjects in Hfound.
    by rewrite (truthy_object _ Hfound).
  - by rewrite Hw.
Qed.

(** X16. Whatever the server answers and in whatever order, and also
    when requests are rejected or never complete, the five maps of the
    cache exist after [initializeMetadata]: looking up an element by tag
    returns then, and changes nothing. In a session whose map of global
    elements was never created the lookup throws a [TypeError]. *)
Theorem maps_exist_after_initializeMetadata
    (schedule : list request) (w : world) (tag : value) :
  let w' := snd (await server schedule (initializeMetadata server) w) in
  maps_exist (cache w') /\
  (exists element, getElementByTag tag w' = (Ok element, w')) /\
  (forall w0, globalElements (cache w0) = None ->
     getElementByTag tag w0 = (Throw TypeError, w0)).
Proof.
  intros w'.
  assert (Hmaps : maps_exist (cache w')).
  { unfold w'. rewrite await_initializeMetadata. cbn [snd].
    apply (settle_preserves maps_stay server schedule
             (Promise_all (loader_promises server)) []).
    - apply loader_callbacks. apply maps_stay_callbacks.
    - rewrite loaders_create_maps. by repeat apply conj. }
  split; [exact Hmaps|]. split.
  - destruct Hmaps as (_ & _ & [globals Hg] & [widgets Hw] & _).
    unfold getElementByTag. run. rewrite Hg. simpl.
    destruct (truthy (map_get tag globals)); [by eexists|].
    rewrite Hw. by eexists.
  - intros w0 Hnone. unfold getElementByTag. run. by rewrite Hnone.
Qed.

(** X17. A response whose [data.items] is missing, or is anything else
    that counts as false, is taken differently by the loaders. The
    callback of [cacheThemes] calls [forEach] on it and throws, so that
    the initialization whose request for themes completed with it is
    rejected. The callback of [cacheWidgetInstances] tests for it first:
    it stores nothing, changes nothing and ends normally. *)
Theorem results_without_items
    (schedule : list request) (w : world) (results data items : value) :
  respond server (GetThemes, "?type=custom") = Ok results ->
  get results "data" = Ok data ->
  get data "items" = Ok items ->
  truthy items = false ->
  (GetThemes, "?type=custom") ∈ schedule ->
  (exists e,
     fst (await server schedule (initializeMetadata server) w) = Rejected e) /\
  (forall w0, cache_themes_of results w0 = (Throw TypeError, w0)) /\
  (forall w0, cache_widget_instances_of results w0 = (Ok tt, w0)).
Proof.
  intros Hrespond Hdata Hitems Hfalse Hschedule.
  assert (Hthrows : forall w0, cache_themes_of results w0 = (Throw TypeError, w0)).
  { intros w0. unfold cache_themes_of, data_items. run.
    rewrite Hdata. simpl. rewrite Hitems. simpl.
    by destruct items as [[]| |]. }
  split; [|split; [exact Hthrows|]].
  - rewrite await_initializeMetadata. cbn [fst].
    set (p := Promise_all (loader_promises server)).
    set (w1 := snd (call_all (loaders server) w)).
    assert (Hothers : forall pd res, pd ∈ p ->
              awaited pd <> (GetThemes, "?type=custom") ->
              preserves cache_only (on_fulfilled pd res)).
    { intros pd res Hin _. revert pd res Hin. apply loader_callbacks.
      apply callbacks_cache_only. }
    assert (Hfind :
      List.find (fun pd => bool_decide (awaited pd = (GetThemes, "?type=custom"))) p
      = Some {| awaited := (GetThemes, "?type=custom");
                on_fulfilled := cache_themes_of |}).
    { subst p. unfold loader_promises, elements_promise.
      destruct (serverSupports server "getElements"); reflexivity. }
    destruct (settle_runs cache_only server p _ Hothers _ results schedule
                [] w1 Hfind Hrespond Hschedule (not_elem_of_nil _))
      as (w0 & _ & Hrecord & _).
    cbn [on_fulfilled] in Hrecord. rewrite Hthrows in Hrecord.
    apply (outcome_of_rejected p _ _ _ Hrecord).
    apply bool_decide_eq_true. apply List.find_some in Hfind as [Hin _].
    apply list_elem_of_In in Hin. apply list_elem_of_fmap.
    by eexists; split; [|exact Hin].
  - intros w0. unfold cache_widget_instances_of, data_items. run.
    rewrite Hdata. simpl. rewrite Hitems. simpl. by rewrite Hfalse.
Qed.

Lemma stackInstances_kept results :
  preserves (keeps stackInstances) (cache_themes_of results)
  /\ preserves (keeps stackInstances) (cache_widget_instances_of results)
  /\ preserves (keeps stackInstances) (cache_widget_descriptors_of results)
  /\ preserves (keeps stackInstances) (cache_stack_descriptors_of results)
  /\ (forall field,
        preserves (keeps stackInstances) (cache_elements_of field results)).
Proof. keep_callbacks (keeps stackInstances). Qed.

Lemma set_stackInstances_same m w :
  stackInstances (cache w) = Some m ->
  with_cache (set_stackInstances (Some m)) w = w.
Proof. destruct w as [[] ? ? ? ?]. simpl. by intros ->. Qed.

(** The reduction over the stacks collects their instances. *)
Lemma collect_instances (stacks : list value) (collected : list value) :
  Forall is_stack_group stacks ->
  foldl (fun acc stack =>
           stackInstances ← acc;
           instances ← get stack "instances";
           Ok (array_concat stackInstances instances))
        (Ok collected) stacks
  = Ok (collected ++ (stacks ≫= instances_of))%list.
Proof.
  intros Hstacks. revert collected.
  induction Hstacks as [|stack stacks Hstack _ IH]; intros collected.
  - simpl. by rewrite app_nil_r.
  - destruct Hstack as (Hobject & instances & Hinstances & _).
    cbn [foldl]. simpl mbind at 2. rewrite Hinstances. simpl.
    rewrite IH. cbn [mbind list_bind]. unfold instances_of at 2.
    rewrite (get_ok_field' _ _ _ Hinstances). by rewrite app_assoc.
Qed.

Lemma instances_of_stacks (stacks : list value) :
  Forall is_stack_group stacks ->
  Forall (fun stackInstance =>
            is_object stackInstance = true /\
            is_present (field stackInstance "descriptor") = true)
         (stacks ≫= instances_of).
Proof.
  induction 1 as [|stack stacks Hstack _ IH]; [constructor|].
  destruct Hstack as (_ & instances & Hinstances & Hall).
  cbn [mbind list_bind]. apply Forall_app. split; [|exact IH].
  unfold instances_of. by rewrite (get_ok_field' _ _ _ Hinstances).
Qed.

(** The callback of [cacheStackInstances] stores every instance of every
    stack under its name and the version of its descriptor. *)
Lemma cache_stack_instances_run results stacks w :
  has_items results stacks ->
  Forall is_stack_group stacks ->
  stackInstances (cache w) = Some ∅ ->
  cache_stack_instances_of results w
  = (Ok tt,
     with_cache (set_stackInstances (Some (stack_instances_of stacks))) w).
Proof.
  intros (data & Hdata & Hitems) Hstacks Hempty.
  unfold cache_stack_instances_of, data_items, stack_instances_of.
  rewrite !bind_run.
  unfold lift at 1. rewrite Hdata. unfold lift at 1. rewrite Hitems.
  unfold compose, lift at 1. cbn [as_array].
  rewrite bind_run. unfold lift at 1.
  rewrite (collect_instances stacks [] Hstacks). rewrite app_nil_l.
  pose proof (instances_of_stacks stacks Hstacks) as Hall.
  revert w Hempty. generalize (∅ : jsmap) as m.
  induction Hall as [|stackInstance rest [Hobject Hdescriptor] _ IH];
    intros m w Hm.
  - simpl. by rewrite set_stackInstances_same.
  - cbn [for_each foldl]. rewrite bind_run_unit. run. rewrite Hm. simpl.
    rewrite !(get_object stackInstance _ Hobject). simpl.
    rewrite (get_present _ "version" Hdescriptor). simpl.
    erewrite IH by reflexivity. reflexivity.
Qed.

(** X18. The map of stack instances does not depend on the order of
    completion either: once the request for the stack instances has
    completed, it holds the instances of all stacks the server listed,
    each under the key made of its name and of the version of its
    descriptor; of two instances with the same key the one listed later
    is kept. The instance's own [version] and its [displayName] play no
    part in the key. *)
Theorem initializeMetadata_stackInstances_in_any_order
    (schedule : list request) (w : world) (results : value)
    (stacks : list value) :
  respond server (GetAllStackInstances, "") = Ok results ->
  has_items results stacks ->
  Forall is_stack_group stacks ->
  (GetAllStackInstances, "") ∈ schedule ->
  stackInstances
    (cache (snd (await server schedule (initializeMetadata server) w)))
  = Some (stack_instances_of stacks).
Proof.
  intros Hrespond Hitems Hstacks Hschedule.
  rewrite await_initializeMetadata. cbn [snd].
  set (p := Promise_all (loader_promises server)).
  set (w1 := snd (call_all (loaders server) w)).
  assert (Hothers : forall pd res, pd ∈ p ->
            awaited pd <> (GetAllStackInstances, "") ->
            preserves (keeps stackInstances) (on_fulfilled pd res)).
  { intros pd res Hin Hne.
    destruct (stackInstances_kept res) as (? & ? & ? & ? & ?).
    subst p. others_keep Hin Hne. }
  assert (Hfind :
    List.find (fun pd => bool_decide (awaited pd = (GetAllStackInstances, ""))) p
    = Some {| awaited := (GetAllStackInstances, "");
              on_fulfilled := cache_stack_instances_of |}).
  { subst p. unfold loader_promises, elements_promise.
    destruct (serverSupports server "getElements"); reflexivity. }
  destruct (settle_runs (keeps stackInstances) server p _ Hothers _ results
              schedule [] w1 Hfind Hrespond Hschedule (not_elem_of_nil _))
    as (w0 & Hbefore & _ & Hafter).
  cbn [on_fulfilled] in Hafter. unfold keeps in Hbefore, Hafter.
  rewrite (cache_stack_instances_run results stacks w0 Hitems Hstacks) in Hafter.
  - rewrite Hafter. reflexivity.
  - rewrite Hbefore. unfold w1. by rewrite loaders_create_maps.
Qed.

End SingleRequests.

(** ** Writing metadata *)

Section Writers.

Context (env : Env).

Lemma readMetadataFromDisk_reads path type excludeEtag w :
  snd (readMetadataFromDisk env path type excludeEtag w) = w.
Proof.
  unfold readMetadataFromDisk. cbv zeta. rewrite bind_run. unfold gets at 1.
  destruct (file_text (getMetadataPath env path type) w) as [text|];
    [|reflexivity].
  rewrite bind_run. unfold lift at 1.
  destruct (JSON_parse env text) as [json|e]; [|reflexivity].
  destruct (negb excludeEtag); [|reflexivity].
  unfold lift. by destruct (set_prop json "etag" (eTagFor env path)).
Qed.

(** X19. [updateMetadata] writes all or nothing. When it returns, the
    session differs from the one it started on by one file, the metadata
    file of the path and type; the cache, the log and every other file
    are as they were. When it throws, because the record cannot be read,
    because there is no record to store a key on, or because the type has
    no metadata file, nothing at all has changed. *)
Theorem updateMetadata_all_or_nothing
    (path type : string) (additionalMetadata : value) (w : world) :
  match updateMetadata env path type additionalMetadata w with
  | (Ok _, w') =>
      exists metadataPath text,
        getMetadataPath env path type = Some metadataPath /\
        w' = with_files (<[metadataPath := text]>) w
  | (Throw _, w') => w' = w
  end.
Proof.
  unfold updateMetadata. rewrite bind_run.
  pose proof (readMetadataFromDisk_reads path type true w) as Hread.
  destruct (readMetadataFromDisk env path type true w) as [[existing|e] w1];
    cbn [snd] in Hread; subst w1; [|reflexivity].
  rewrite bind_run. unfold lift at 1.
  destruct (object_keys additionalMetadata) as [keys|e]; [|reflexivity].
  rewrite bind_run. unfold lift at 1.
  destruct (foldl _ (Ok existing) keys) as [merged|e]; [|reflexivity].
  unfold writeFile.
  destruct (getMetadataPath env path type) as [metadataPath|]; [|reflexivity].
  by exists metadataPath, (JSON_stringify env merged).
Qed.

End Writers.

(** * The further properties on concrete sessions *)

(** Every file of an instance of Cart Summary leads to the one metadata
    file of the instance. *)
Lemma getMetadataPath_of_instance :
  getMetadataPath Example.env Scenario.instanceTemplate "widgetInstance.json"
  = Some "./.ccc/widget/Cart Summary/instances/Cart Summary/widgetInstance.json".
Proof.
  apply (getMetadataPath_anchored Example.env Scenario.instanceTemplate
           "widgetInstance.json" "instances" Scenario.instanceTemplate (VStr ".")
           ["widget"; "Cart Summary"] ["Cart Summary"; "display.template"]).
  - apply (bool_decide_unpack _). vm_compute. exact I.
  - unfold anchors. simpl. repeat constructor.
  - reflexivity.
  - reflexivity.
  - apply (bool_decide_unpack _). vm_compute. exact I.
Defined.

(** The widget metadata of a global element is looked for directly below
    [element]. *)
Lemma getMetadataPath_of_global_element :
  getMetadataPath Example.env "element/Company Logo/element.template"
    "widget.json"
  = Some "./.ccc/element/widget.json".
Proof.
  apply (getMetadataPath_without_anchor Example.env
           "element/Company Logo/element.template" "widget.json" "widget"
           "element/Company Logo/element.template" (VStr ".")).
  - apply (bool_decide_unpack _). vm_compute. exact I.
  - unfold anchors. simpl. repeat constructor.
  - reflexivity.
  - apply (bool_decide_unpack _). vm_compute. exact I.
Defined.

(** The record of the tracked Cart Summary widget is read with the etag
    of the path in it. *)
Lemma readMetadataFromDisk_cart_summary :
  let record :=
    VObj [("displayName", VStr "Cart Summary"); ("version", VNum 2);
          ("etag", Example.etag_of "widget/Cart Summary/display.template")] in
  snd (readMetadataFromDisk Example.env "widget/Cart Summary/display.template"
         "widget.json" false Example.cart_session) = Example.cart_session /\
  ((no_record Example.env "widget/Cart Summary/display.template" "widget.json"
      Example.cart_session /\ record = VNull) \/
   exists props,
     fst (readMetadataFromDisk Example.env
            "widget/Cart Summary/display.template" "widget.json" true
            Example.cart_session) = Ok (VObj props) /\
     record = VObj (assoc_set "etag"
                      (Example.etag_of "widget/Cart Summary/display.template")
                      props) /\
     get record "etag"
     = Ok (Example.etag_of "widget/Cart Summary/display.template") /\
     forall k, k <> "etag" -> get record k = get (VObj props) k).
Proof.
  exact (readMetadataFromDisk_attaches_etag Example.env
           "widget/Cart Summary/display.template" "widget.json"
           Example.cart_session _ eq_refl).
Defined.

(** The widget type is added to the tracked record of Cart Summary and
    read back with it. *)
Lemma updateMetadata_widgetType_read_back :
  let w' :=
    snd (updateMetadata Example.env "widget/Cart Summary" "widget.json"
           (VObj [("widgetType", VStr "cart")]) Example.cart_session) in
  readMetadataFromDisk Example.env "widget/Cart Summary" "widget.json" true w'
  = (Ok Example.cartSummaryWidget, w').
Proof.
  exact (proj1 (updateMetadata_then_read Example.env "widget/Cart Summary"
                  "widget.json" "./.ccc/widget/Cart Summary/widget.json"
                  (Example.show Example.cartSummaryInstance)
                  [("displayName", VStr "Cart Summary"); ("version", VNum 2)]
                  [("widgetType", VStr "cart")] Example.cart_session
                  eq_refl eq_refl eq_refl eq_refl)).
Defined.

(** Adding the widget type a second time changes nothing. *)
Lemma updateMetadata_widgetType_twice :
  let w' :=
    snd (updateMetadata Example.env "widget/Cart Summary" "widget.json"
           (VObj [("widgetType", VStr "cart")]) Example.cart_session) in
  updateMetadata Example.env "widget/Cart Summary" "widget.json"
    (VObj [("widgetType", VStr "cart")]) w'
  = (Ok tt, w').
Proof.
  exact (updateMetadata_idempotent Example.env "widget/Cart Summary"
           "widget.json" "./.ccc/widget/Cart Summary/widget.json"
           (Example.show Example.cartSummaryInstance)
           [("displayName", VStr "Cart Summary"); ("version", VNum 2)]
           [("widgetType", VStr "cart")] Example.cart_session
           eq_refl eq_refl eq_refl eq_refl).
Defined.

(** The Cart Summary widget as read from the server carries the etag of
    the path; a type that names no metadata gives [undefined]. *)
Lemma readMetadataFromServer_cart_summary :
  get (VObj [("repositoryId", VStr "W1"); ("widgetType", VStr "cart");
             ("elementized", VBool false);
             ("etag", Example.etag_of "widget/Cart Summary/display.template")])
      "etag"
  = Ok (Example.etag_of "widget/Cart Summary/display.template") /\
  readMetadataFromServer Example.env "widget/Cart Summary/display.template"
    "layout.json" Example.cart_session
  = (Ok VUndefined, Example.cart_session).
Proof.
  split.
  - apply (proj1 (readMetadataFromServer_etag Example.env
                    "widget/Cart Summary/display.template" "widget.json"
                    Example.cart_session));
      reflexivity.
  - apply (proj2 (readMetadataFromServer_etag Example.env
                    "widget/Cart Summary/display.template" "layout.json"
                    Example.cart_session)).
    apply (bool_decide_unpack _). vm_compute. exact I.
Defined.

(** Two files of the same tree: the same node, here none. *)
Lemma getLastNode_same_tree :
  getLastNode Example.env None (Some "widget/Cart Summary/display.template")
    Example.cart_session
  = getLastNode Example.env None (Some "theme/Dark Theme") Example.cart_session /\
  getLastNode Example.env None (Some "widget/Cart Summary/display.template")
    Example.cart_session
  = (Ok VNull, Example.cart_session).
Proof.
  destruct (getLastNode_of_base Example.env None
              "widget/Cart Summary/display.template" "theme/Dark Theme"
              Example.cart_session eq_refl eq_refl) as [Hsame Hnone].
  split; [apply Hsame; reflexivity|apply Hnone; reflexivity].
Defined.

(** An instance with a current layout: the identifiers of the layout come
    from the cached instance. *)
Lemma getMatchingWidgetInstance_with_layout :
  fst (getMatchingWidgetInstance Scenario.env Scenario.instanceTemplate
         Scenario.layout_session)
  = Ok (VObj [("repositoryId", VStr "I1");
              ("descriptorRepositoryId", VStr "W1");
              ("version", VNum 2);
              ("displayName", VStr "Cart Summary");
              ("layoutInstanceId", VStr "L1");
              ("layoutDescriptorId", VStr "LD1")]).
Proof.
  rewrite (getMatchingWidgetInstance_current_layout Scenario.env
             Scenario.instanceTemplate Scenario.layout_session
             (VObj [("displayName", VStr "Cart Summary"); ("version", VNum 2);
                    ("etag", Example.etag_of Scenario.instanceTemplate)])
             _ _
             (default ∅ (widgetInstances (cache Scenario.layout_session)))
             eq_refl eq_refl eq_refl eq_refl eq_refl eq_refl eq_refl eq_refl
             eq_refl).
  reflexivity.
Defined.

(** An instance without a current layout, of a widget tracked as
    elementized: the layout descriptor is the first layout of the cached
    descriptor of the widget. *)
Lemma getMatchingWidgetInstance_elementized :
  fst (getMatchingWidgetInstance Scenario.env Scenario.instanceTemplate
         Scenario.elementized_session)
  = Ok (VObj [("repositoryId", VStr "I1");
              ("descriptorRepositoryId", VStr "W1");
              ("version", VNum 2);
              ("displayName", VStr "Cart Summary");
              ("layoutDescriptorId", VStr "LD2")]).
Proof.
  assert (Hds : Forall is_descriptor [Scenario.layoutDescriptor]).
  { repeat constructor. eexists. reflexivity. }
  rewrite (getMatchingWidgetInstance_fallback Scenario.env
             Scenario.instanceTemplate Scenario.elementized_session
             (VObj [("displayName", VStr "Cart Summary"); ("version", VNum 2);
                    ("etag", Example.etag_of Scenario.instanceTemplate)])
             _
             (VObj [("displayName", VStr "Cart Summary"); ("version", VNum 2);
                    ("widgetType", VStr "cart"); ("elementized", VBool true);
                    ("etag", Example.etag_of Scenario.instanceTemplate)])
             (default ∅ (widgetInstances (cache Scenario.elementized_session)))
             [Scenario.layoutDescriptor]
             eq_refl eq_refl eq_refl eq_refl eq_refl eq_refl eq_refl eq_refl
             eq_refl eq_refl Hds).
  reflexivity.
Defined.

(** The logo of the Cart Summary widget is matched through the widget. *)
Lemma getMatchingElement_header_logo :
  getMatchingElement Example.env "widget/Cart Summary/element/Logo"
    Example.logo_session
  = (Ok (VObj [("tag", VStr "header-logo"); ("widgetId", VStr "W1")]),
     Example.logo_session).
Proof.
  rewrite (getMatchingElement_of_widget Example.env
             "widget/Cart Summary/element/Logo" Example.logo_session
             (VObj [("tag", VStr "header-logo"); ("version", VNum 2);
                    ("etag", Example.etag_of "widget/Cart Summary/element/Logo")])
             (VObj [("displayName", VStr "Cart Summary"); ("version", VNum 2);
                    ("widgetType", VStr "cart");
                    ("etag", Example.etag_of "widget/Cart Summary/element/Logo")])
             [Example.cartDescriptor]
             eq_refl eq_refl eq_refl eq_refl eq_refl eq_refl
             ltac:(repeat constructor)).
  reflexivity.
Defined.

(** The themes of the server are cached whether the requests complete in
    the order they were sent or in the reverse order, and also when the
    request for the themes is the only one to complete. *)
Lemma themes_cached_backwards :
  themes (cache (snd (await Example.theme_server Scenario.backwards
                        (initializeMetadata Example.theme_server)
                        (Example.fresh_session []))))
  = Some (themes_of [Example.darkRemoteTheme]) /\
  themes (cache (snd (await Example.theme_server [(GetThemes, "?type=custom")]
                        (initializeMetadata Example.theme_server)
                        (Example.fresh_session []))))
  = Some (themes_of [Example.darkRemoteTheme]).
Proof.
  split.
  - apply (initializeMetadata_themes_in_any_order Example.theme_server
             Scenario.backwards (Example.fresh_session [])
             (Example.results [Example.darkRemoteTheme])
             [Example.darkRemoteTheme]).
    + reflexivity.
    + eexists. split; reflexivity.
    + repeat constructor.
    + apply (bool_decide_unpack _). vm_compute. exact I.
  - apply (initializeMetadata_themes_in_any_order Example.theme_server
             [(GetThemes, "?type=custom")] (Example.fresh_session [])
             (Example.results [Example.darkRemoteTheme])
             [Example.darkRemoteTheme]).
    + reflexivity.
    + eexists. split; reflexivity.
    + repeat constructor.
    + apply (bool_decide_unpack _). vm_compute. exact I.
Defined.

(** A server that lists no items for the widget descriptors: the
    initialization is fulfilled, and matching the tracked widget throws. *)
Lemma widgetDescriptors_without_items :
  let w' :=
    snd (await Scenario.silent_server Example.every_request
           (initializeMetadata Scenario.silent_server)
           (Example.fresh_session Scenario.widget_tracked)) in
  widgetDescriptors (cache w') = VUndefined /\
  getMatchingWidget Example.env "widget/Cart Summary/display.template" w'
  = (Throw TypeError, w').
Proof.
  intros w'.
  destruct (initializeMetadata_widgetDescriptors_as_listed
              Scenario.silent_server Example.every_request
              (Example.fresh_session Scenario.widget_tracked)
              Scenario.no_items (VObj []) VUndefined
              eq_refl eq_refl eq_refl) as [Hstored Hthrows].
  { apply (bool_decide_unpack _). vm_compute. exact I. }
  split; [exact Hstored|].
  apply (Hthrows eq_refl Example.env "widget/Cart Summary/display.template"
           (VObj [("displayName", VStr "Cart Summary"); ("version", VNum 2);
                  ("widgetType", VStr "cart");
                  ("etag", Example.etag_of "widget/Cart Summary/display.template")])).
  vm_compute. reflexivity.
Defined.

(** The same for the stack descriptors and the tracked stack. *)
Lemma stackDescriptors_without_items :
  let w' :=
    snd (await Scenario.silent_server Scenario.backwards
           (initializeMetadata Scenario.silent_server)
           (Example.fresh_session Scenario.widget_tracked)) in
  stackDescriptors (cache w') = VUndefined /\
  getMatchingStack Example.env "stack/Progress Tracker/stack.template" w'
  = (Throw TypeError, w').
Proof.
  intros w'.
  destruct (initializeMetadata_stackDescriptors_as_listed
              Scenario.silent_server Scenario.backwards
              (Example.fresh_session Scenario.widget_tracked)
              Scenario.no_items (VObj []) VUndefined
              eq_refl eq_refl eq_refl) as [Hstored Hthrows].
  { apply (bool_decide_unpack _). vm_compute. exact I. }
  split; [exact Hstored|].
  apply (Hthrows eq_refl Example.env "stack/Progress Tracker/stack.template"
           (VObj [("name", VStr "Progress Tracker");
                  ("displayName", VStr "Tracker"); ("version", VNum 1);
                  ("etag", Example.etag_of "stack/Progress Tracker/stack.template")])).
  vm_compute. reflexivity.
Defined.

(** The company logo is a global element, the header logo an element of
    a widget; no element has the tag [footer]. *)
Lemma getElementByTag_logos :
  let w' :=
    snd (await Scenario.elements_server Scenario.backwards
           (initializeMetadata Scenario.elements_server)
           (Example.fresh_session [])) in
  getElementByTag (VStr "company-logo") w' = (Ok Example.companyLogo, w') /\
  getElementByTag (VStr "header-logo") w' = (Ok Example.headerLogo, w') /\
  getElementByTag (VStr "footer") w' = (Ok VUndefined, w').
Proof.
  intros w'.
  assert (Hall : forall tag : prim,
            getElementByTag (VPrim tag) w'
            = (Ok match elements_of [Example.companyLogo] !! tag with
                  | Some element => element
                  | None => default VUndefined
                              (elements_of [Example.headerLogo] !! tag)
                  end, w')).
  { intros tag.
    apply (getElementByTag_after_initialization Scenario.elements_server
             Scenario.backwards (Example.fresh_session [])
             (Example.results [Example.companyLogo])
             (Example.results [Example.headerLogo])
             [Example.companyLogo] [Example.headerLogo] tag).
    - reflexivity.
    - reflexivity.
    - reflexivity.
    - eexists. split; reflexivity.
    - eexists. split; reflexivity.
    - repeat constructor.
    - repeat constructor.
    - apply (bool_decide_unpack _). vm_compute. exact I.
    - apply (bool_decide_unpack _). vm_compute. exact I. }
  repeat apply conj; rewrite Hall; vm_compute; reflexivity.
Defined.

(** Before any initialization the lookup throws. *)
Lemma getElementByTag_before_initialization :
  getElementByTag (VStr "company-logo") (Example.fresh_session [])
  = (Throw TypeError, Example.fresh_session []).
Proof.
  apply (proj2 (proj2 (maps_exist_after_initializeMetadata
                         Example.theme_server [] (Example.fresh_session [])
                         (VStr "company-logo")))).
  reflexivity.
Defined.

(** Themes without items reject the initialization. *)
Lemma themes_without_items :
  exists e,
    fst (await Scenario.silent_server Example.every_request
           (initializeMetadata Scenario.silent_server)
           (Example.fresh_session [])) = Rejected e.
Proof.
  apply (results_without_items Scenario.silent_server Example.every_request
           (Example.fresh_session []) Scenario.no_items (VObj []) VUndefined).
  - reflexivity.
  - reflexivity.
  - reflexivity.
  - reflexivity.
  - apply (bool_decide_unpack _). vm_compute. exact I.
Defined.

(** The instance of the Progress Tracker stack is cached under its name
    and the version of its descriptor. *)
Lemma stackInstances_cached_backwards :
  stackInstances
    (cache (snd (await Example.stack_server Scenario.backwards
                   (initializeMetadata Example.stack_server)
                   (Example.fresh_session []))))
  = Some (<[PStr (makeWidgetInstanceKey (VStr "Progress Tracker") (VNum 1))
            := Example.trackerInstance]> ∅).
Proof.
  rewrite (initializeMetadata_stackInstances_in_any_order Example.stack_server
             Scenario.backwards (Example.fresh_session [])
             (Example.results
                [VObj [("displayName", VStr "Progress Tracker");
                       ("instances", VArr [Example.trackerInstance])]])
             [VObj [("displayName", VStr "Progress Tracker");
                    ("instances", VArr [Example.trackerInstance])]]).
  - reflexivity.
  - reflexivity.
  - eexists. split; reflexivity.
  - repeat constructor. eexists. split; [reflexivity|]. repeat constructor.
  - apply (bool_decide_unpack _). vm_compute. exact I.
Defined.

(** * The outcome of the initialization and the cache *)

Section OutcomeAndCache.

Context (server : Server).




End OutcomeAndCache.


